(** * Meeting-suggestion scheduler of the Google Workspace MCP server

    The repository carries three variants of the same two methods,
    [handleMeetingSuggestion] and [findFreeSlots]:

    - [src/index.ts]            (module [IndexTs]): native [Date], one slot per gap;
    - [src/unnamed/part_000]    (module [Part000]): native [Date], [Math.floor] packing;
    - [src/unnamed/part_001]    (module [Part001]): Luxon [DateTime], [while] packing.

    Conventions of the embedding:

    - Instants are epoch milliseconds in [Z] (what [Date.prototype.getTime]
      returns).  A date string of the request or of the provider stands for
      the instant it denotes: an ISO 8601 string with an offset, inside the
      range of [Date].
    - Time zones are fixed offsets from UTC (no daylight saving transition
      inside the searched horizon), so a calendar day is exactly [MS_PER_DAY]
      milliseconds.  Zone names are resolved by the [zoneOffset] of the host.
    - Numeric request fields are integers: a meeting length is a whole
      number of minutes, so every step of a pointer is a whole number of
      milliseconds and [Date] truncates nothing.  The source computes with
      doubles; on integers of this size the sums, products and comparisons
      are exact, and [Math.floor] of the quotients is the integer floor.
    - A [Date] holds a time value of at most [JsDate.MAX_TIME] either side
      of the epoch; past it the [Date] is invalid and [toISOString] throws.
      The handlers of src/index.ts and src/unnamed/part_000 model this where
      they print dates and where they call [findFreeSlots]; the horizon and
      the windows of src/unnamed/part_001 are taken inside the range.
    - Loops that the source can spin forever carry a [fuel : nat]; [None]
      stands for "the fuel ran out".
    - [console.log] output is not modelled. *)

From Stdlib Require Import ZArith List String Ascii Lia Bool Sorted Permutation.
From stdpp Require Import base gmap strings.
Import ListNotations.
Open Scope Z_scope.

(** ** JavaScript idioms used by the handlers *)

Module Js.

(** [x || d] for an optional numeric field: [undefined] and [0] are falsy. *)
Definition or_default (x : option Z) (d : Z) : Z :=
  match x with
  | Some v => if v =? 0 then d else v
  | None => d
  end.

(** [s || d] for an optional string field: [undefined] and [""] are falsy. *)
Definition or_default_string (x : option string) (d : string) : string :=
  match x with
  | Some EmptyString => d
  | Some s => s
  | None => d
  end.

(** [a || d] for an optional array field: every array is truthy, also [[]]. *)
Definition or_default_array {A : Type} (x : option (list A)) (d : list A) : list A :=
  match x with
  | Some a => a
  | None => d
  end.

(** [arr.slice(0, n)]: a negative [n] counts from the end of the array. *)
Definition slice0 {A : Type} (arr : list A) (n : Z) : list A :=
  if n <? 0
  then firstn (Z.to_nat (Z.of_nat (List.length arr) + n)) arr
  else firstn (Z.to_nat n) arr.

(** [arr.includes(s)] on an array of strings. *)
Definition includes (arr : list string) (s : string) : bool :=
  existsb (String.eqb s) arr.

End Js.

(** ** Time arithmetic shared by [Date] and Luxon *)

Module Time.

Definition MS_PER_SECOND : Z := 1000.
Definition MS_PER_MINUTE : Z := 60000.
Definition MS_PER_HOUR : Z := 3600000.
Definition MS_PER_DAY : Z := 86400000.

(** Number of the calendar day (days since 1970-01-01) that instant [t]
    falls on for a wall clock [offset] milliseconds ahead of UTC. *)
Definition local_day (offset t : Z) : Z := (t + offset) / MS_PER_DAY.

(** Instant of local midnight of day number [d]. *)
Definition midnight_of (offset d : Z) : Z := d * MS_PER_DAY - offset.

(** Local midnight of the calendar day [t] falls on. *)
Definition start_of_day (offset t : Z) : Z := midnight_of offset (local_day offset t).

(** Proleptic Gregorian date of a day number. *)
Definition civil_from_days (days : Z) : Z * Z * Z :=
  let z := days + 719468 in
  let era := z / 146097 in
  let doe := z - era * 146097 in
  let yoe := (doe - doe / 1460 + doe / 36524 - doe / 146096) / 365 in
  let y := yoe + era * 400 in
  let doy := doe - (365 * yoe + yoe / 4 - yoe / 100) in
  let mp := (5 * doy + 2) / 153 in
  let d := doy - (153 * mp + 2) / 5 + 1 in
  let m := if mp <? 10 then mp + 3 else mp - 9 in
  (if m <=? 2 then y + 1 else y, m, d).

Definition digit (n : Z) : ascii := ascii_of_nat (48 + Z.to_nat (n mod 10)).

(** The last [width] decimal digits of [n], zero padded. *)
Fixpoint pad (width : nat) (n : Z) (suffix : string) : string :=
  match width with
  | O => suffix
  | S w => pad w (n / 10) (String (digit n) suffix)
  end.

(** Year as ISO 8601 prints it: four digits, or a sign and six digits
    outside 0000..9999. *)
Definition iso_year (y : Z) : string :=
  if (0 <=? y) && (y <=? 9999) then pad 4 y EmptyString
  else if y <? 0 then String "-"%char (pad 6 (- y) EmptyString)
  else String "+"%char (pad 6 y EmptyString).

(** [YYYY-MM-DD] of a day number. *)
Definition iso_date (days : Z) : string :=
  let '(y, m, d) := civil_from_days days in
  (iso_year y ++ String "-"%char (pad 2 m (String "-"%char (pad 2 d EmptyString))))%string.

End Time.

(** ** The host: the zone the process runs in, and the zone database *)

Record Host := {
  hostOffset : Z;              (* offset of the process-local zone, ms east of UTC *)
  zoneOffset : string -> Z     (* offset of an IANA zone name, ms east of UTC *)
}.

(** ** Native [Date] methods, for a process whose local zone is [h] ms east of UTC *)

Module JsDate.
Import Time.

(** [d.setHours(H, 0, 0, 0)] *)
Definition setHours (h t H : Z) : Z := start_of_day h t + H * MS_PER_HOUR.

(** [d.setDate(d.getDate() + n)] *)
Definition addDays (t n : Z) : Z := t + n * MS_PER_DAY.

(** [d.getDay()], 0 = Sunday .. 6 = Saturday; 1970-01-01 was a Thursday. *)
Definition getDay (h t : Z) : Z := (local_day h t + 4) mod 7.

(** [d.toISOString().split('T')[0]]: the date of [t] in UTC. *)
Definition toISODate (t : Z) : string := iso_date (local_day 0 t).

(** [new Date(d.toLocaleString('en-US', { timeZone }))]: the wall clock of
    zone [z] printed to the second and parsed back as process-local time. *)
Definition viaLocaleString (h z t : Z) : Z :=
  (t + z) / MS_PER_SECOND * MS_PER_SECOND - h.

(** The range of [Date]: 100,000,000 days on either side of the epoch.  A
    [Date] whose time value would leave it is an Invalid Date. *)
Definition MAX_TIME : Z := 8640000000000000.

Definition valid (t : Z) : bool := (- MAX_TIME <=? t) && (t <=? MAX_TIME).

(** [d.toISOString()]: the string of a [Date] in range, standing for its
    instant; on an Invalid Date the call throws a [RangeError] ([None]). *)
Definition toISOString (t : Z) : option Z := if valid t then Some t else None.

(** [error.message] of that [RangeError] under Node. *)
Definition INVALID_TIME_VALUE : string := "Invalid time value".

End JsDate.

(** ** Luxon [DateTime] methods, for a [DateTime] in a zone [z] ms east of UTC *)

Module Luxon.
Import Time.

(** [dt.startOf("day")] *)
Definition startOfDay (z t : Z) : Z := start_of_day z t.

(** [dt.endOf("day")]: the last millisecond of the day. *)
Definition endOfDay (z t : Z) : Z := start_of_day z t + MS_PER_DAY - 1.

(** [dt.plus({ days: n })] *)
Definition plusDays (t n : Z) : Z := t + n * MS_PER_DAY.

(** [dt.weekday], ISO numbering 1 = Monday .. 7 = Sunday. *)
Definition weekday (z t : Z) : Z := (local_day z t + 3) mod 7 + 1.

(** [dt.toISODate()] *)
Definition toISODate (z t : Z) : string := iso_date (local_day z t).

(** [dt.set({ hour: H, minute: 0, second: 0, millisecond: 0 })] *)
Definition setHour (z t H : Z) : Z := start_of_day z t + H * MS_PER_HOUR.

End Luxon.

(** ** Data model *)

(** A busy interval after [new Date(slot.start)], [new Date(slot.end)], and a
    free slot [{ start: Date, end: Date }]: a pair of instants. *)
Record Interval := mkInterval { start : Z; end_ : Z }.

(** A busy entry as the provider reports it: [{ start?: string, end?: string }].
    [None] is a missing or empty string. *)
Record RawBusy := mkRawBusy { raw_start : option Z; raw_end : option Z }.

(** [args] of the [meeting_suggestion] tool; [None] is an absent property. *)
Record Args := mkArgs {
  calendarIds : option (list string);
  meetingLengthMinutes : option Z;
  workingHoursStart : option Z;
  workingHoursEnd : option Z;
  timezone : option string;
  slotsPerDay : option Z;
  daysToSearch : option Z;
  bankHolidays : option (list string);
  startDate : option Z;
  maxDaysToLookAhead : option Z
}.

(** [requestBody] of [calendar.freebusy.query]. *)
Record FreeBusyQuery := mkQuery {
  timeMin : Z;
  timeMax : Z;
  timeZone : option string;
  items : list string
}.

(** What [await this.calendar.freebusy.query(...)] does: it resolves with
    [data.calendars], or it throws. *)
Inductive FetchOutcome :=
| FetchOk (calendars : gmap string (list RawBusy))
| FetchThrows (message : string).

(** What the handler returns: [{ content }] or [{ content, isError: true }]. *)
Inductive ToolResult :=
| Content (suggestions : list Interval)
| IsError (message : string).

(** A handler either returns at once or performs the one external call and
    continues with its outcome. *)
Inductive Interaction (R : Type) :=
| Return (r : R)
| Await (q : FreeBusyQuery) (k : FetchOutcome -> R).
Arguments Return {R} r.
Arguments Await {R} q k.

(** Running a handler against a provider: the queries sent, and the result. *)
Definition run {R : Type} (provider : FreeBusyQuery -> FetchOutcome)
    (i : Interaction R) : list FreeBusyQuery * R :=
  match i with
  | Return r => ([], r)
  | Await q k => ([q], k (provider q))
  end.

(** ** Code common to the three variants *)

Module Common.
Import Time.

(** [calendarIds.flatMap(id => busyResponse.data.calendars?.[id]?.busy || [])
      .filter(slot => !!slot.start && !!slot.end)] *)
Definition busySlots (calendarIds : list string)
    (calendars : gmap string (list RawBusy)) : list Interval :=
  flat_map
    (fun slot =>
       match raw_start slot, raw_end slot with
       | Some s, Some e => [mkInterval s e]
       | _, _ => []
       end)
    (flat_map (fun id => default [] (calendars !! id)) calendarIds).

(** [new Date(slot.start) < dayEnd && new Date(slot.end) > dayStart] *)
Definition in_window (dayStart dayEnd : Z) (slot : Interval) : bool :=
  (start slot <? dayEnd) && (dayStart <? end_ slot).

(** [Array.prototype.sort] with comparator [a.start - b.start]: the stable
    sort by ascending start. *)
Fixpoint insert_by_start (x : Interval) (l : list Interval) : list Interval :=
  match l with
  | [] => [x]
  | y :: l' => if start y <? start x then y :: insert_by_start x l' else x :: l
  end.

Definition sort_by_start (l : list Interval) : list Interval :=
  fold_right insert_by_start [] l.

(** [busySlots.filter(...).sort(...)] *)
Definition sortedBusySlots (busy : list Interval) (dayStart dayEnd : Z) : list Interval :=
  sort_by_start (List.filter (in_window dayStart dayEnd) busy).

(** [gapMinutes >= meetingLengthMinutes] where
    [gapMinutes = gapMs / (60 * 1000)]. *)
Definition gap_fits (gapMs meetingLengthMinutes : Z) : bool :=
  meetingLengthMinutes * MS_PER_MINUTE <=? gapMs.

(** The slot of [meetingLengthMinutes] that starts at [at_]:
    [{ start: new Date(at_), end: new Date(at_ + meetingLengthMinutes * 60000) }],
    for a whole number of minutes and an end inside the range of [Date]
    (the end of a slot that fits its gap is; src/index.ts also pushes the
    slot of a negative length, whose end its handler checks when it prints
    the slot). *)
Definition slot_at (at_ meetingLengthMinutes : Z) : Interval :=
  mkInterval at_ (at_ + meetingLengthMinutes * MS_PER_MINUTE).

End Common.

(** ** Loops *)

Module Loop.

(** [for (const x of xs) body], where the body may fail to return. *)
Fixpoint for_of {S X : Type} (body : S -> X -> option S) (xs : list X) (s : S)
    : option S :=
  match xs with
  | [] => Some s
  | x :: xs' =>
      match body s x with
      | Some s' => for_of body xs' s'
      | None => None
      end
  end.

(** [while (cond) body] *)
Fixpoint while {S : Type} (fuel : nat) (cond : S -> bool) (body : S -> option S)
    (s : S) : option S :=
  match fuel with
  | O => None
  | Datatypes.S fuel' =>
      if cond s then
        match body s with
        | Some s' => while fuel' cond body s'
        | None => None
        end
      else Some s
  end.

(** The states in which the body of [while (cond) body] is entered. *)
Fixpoint entered {S : Type} (fuel : nat) (cond : S -> bool) (body : S -> option S)
    (s : S) : list S :=
  match fuel with
  | O => []
  | Datatypes.S fuel' =>
      if cond s then
        s :: match body s with
             | Some s' => entered fuel' cond body s'
             | None => []
             end
      else []
  end.

End Loop.

(** ** The day-walk *)

(** The mutable locals of the scheduling loop. *)
Record Walk := mkWalk {
  suggestions : list Interval;
  daysWithSlotsFound : Z;
  dayPointer : Z
}.

(** The [while] loop of [handleMeetingSuggestion] in src/index.ts and in
    src/unnamed/part_000: the two loops are the same text, and differ only in
    the [findFreeSlots] they call. *)
Module DateWalk.
Section Closure.
Variable findFreeSlots : list Interval -> Z -> Z -> Z -> option (list Interval).
Variable h : Z.
Variables meetingLength workStartHour workEndHour slotsPerDay daysToSearch : Z.
Variable bankHolidays : list string.
Variable busySlots : list Interval.
Variable endDate : Z.

(** [daysWithSlotsFound < daysToSearch && dayPointer < endDate] *)
Definition cond (w : Walk) : bool :=
  (daysWithSlotsFound w <? daysToSearch) && (dayPointer w <? endDate).

(** [dayOfWeek !== 0 && dayOfWeek !== 6 && !bankHolidays.includes(formattedDate)] *)
Definition working_day (dayPointer : Z) : bool :=
  let dayOfWeek := JsDate.getDay h dayPointer in
  let formattedDate := JsDate.toISODate dayPointer in
  negb (dayOfWeek =? 0) && negb (dayOfWeek =? 6)
  && negb (Js.includes bankHolidays formattedDate).

Definition dayStart (dayPointer : Z) : Z := JsDate.setHours h dayPointer workStartHour.
Definition dayEnd (dayPointer : Z) : Z := JsDate.setHours h dayPointer workEndHour.

Definition body (w : Walk) : option Walk :=
  let next := JsDate.addDays (dayPointer w) 1 in
  if working_day (dayPointer w) then
    match findFreeSlots busySlots (dayStart (dayPointer w)) (dayEnd (dayPointer w))
                        meetingLength with
    | Some [] => Some (mkWalk (suggestions w) (daysWithSlotsFound w) next)
    | Some freeSlots =>
        Some (mkWalk (suggestions w ++ Js.slice0 freeSlots slotsPerDay)
                     (daysWithSlotsFound w + 1) next)
    | None => None
    end
  else Some (mkWalk (suggestions w) (daysWithSlotsFound w) next).

Definition init (startDate : Z) : Walk := mkWalk [] 0 startDate.

Definition walk (fuel : nat) (startDate : Z) : option Walk :=
  Loop.while fuel cond body (init startDate).

End Closure.

(** [slot.start.toISOString()] and [slot.end.toISOString()] of the slots
    pushed to [suggestions]: [None] when one of the calls throws.  The throw
    leaves the loop at once for the [catch] block, whatever the later days
    hold, so it is modelled where the list is returned: the list of a
    finished walk has a slot out of range exactly when one of these calls
    threw. *)
Definition toISOStrings (slots : list Interval) : option (list Interval) :=
  if forallb (fun slot => JsDate.valid (start slot) && JsDate.valid (end_ slot)) slots
  then Some slots
  else None.

End DateWalk.

(** ** src/index.ts *)

Module IndexTs.
Import Time Common.

(** Body of [for (const busy of sortedBusySlots)] on the pair
    [(freeSlots, pointer)]. *)
Definition visit (meetingLengthMinutes : Z) (st : list Interval * Z)
    (busy : Interval) : list Interval * Z :=
  let '(freeSlots, pointer) := st in
  let busyStart := start busy in
  let busyEnd := end_ busy in
  let freeSlots :=
    if pointer <? busyStart then
      if gap_fits (busyStart - pointer) meetingLengthMinutes
      then freeSlots ++ [slot_at pointer meetingLengthMinutes]
      else freeSlots
    else freeSlots in
  (freeSlots, if pointer <? busyEnd then busyEnd else pointer).

Definition findFreeSlots (busySlots : list Interval)
    (dayStart dayEnd meetingLengthMinutes : Z) : list Interval :=
  let '(freeSlots, pointer) :=
    fold_left (visit meetingLengthMinutes)
              (sortedBusySlots busySlots dayStart dayEnd) ([], dayStart) in
  if pointer <? dayEnd then
    if gap_fits (dayEnd - pointer) meetingLengthMinutes
    then freeSlots ++ [slot_at pointer meetingLengthMinutes]
    else freeSlots
  else freeSlots.


(** [startDate] after lines 136-139. *)
Definition resolveStartDate (host : Host) (tz : string) (now : Z)
    (startDate : option Z) : Z :=
  let h := hostOffset host in
  let d := match startDate with Some s => s | None => now end in
  let d := JsDate.viaLocaleString h (zoneOffset host tz) d in
  let d := JsDate.addDays d (match startDate with Some _ => 0 | None => 1 end) in
  JsDate.setHours h d 0.

Definition handleMeetingSuggestion (host : Host) (now : Z) (fuel : nat) (args : Args)
    : Interaction (option ToolResult) :=
  let meetingLength := Js.or_default (meetingLengthMinutes args) 60 in
  let workStartHour := Js.or_default (workingHoursStart args) 9 in
  let workEndHour := Js.or_default (workingHoursEnd args) 17 in
  let timezone := Js.or_default_string (timezone args) "America/Sao_Paulo" in
  let slotsPerDay := Js.or_default (slotsPerDay args) 1 in
  let daysToSearch := Js.or_default (daysToSearch args) 3 in
  let maxDaysToLookAhead := Js.or_default (maxDaysToLookAhead args) 30 in
  let bankHolidays := Js.or_default_array (bankHolidays args) [] in
  let calendarIds := Js.or_default_array (calendarIds args) ["primary"%string] in
  let startDate := resolveStartDate host timezone now (startDate args) in
  let endDate := JsDate.addDays startDate maxDaysToLookAhead in
  match JsDate.toISOString startDate, JsDate.toISOString endDate with
  | Some timeMin, Some timeMax =>
      Await (mkQuery timeMin timeMax (Some timezone) calendarIds)
        (fun outcome =>
           match outcome with
           | FetchThrows message => Some (IsError ("Error: " ++ message))
           | FetchOk calendars =>
               let busySlots := busySlots calendarIds calendars in
               match DateWalk.walk
                       (fun b s e m =>
                          (* [setHours] past the range leaves an Invalid Date:
                             every comparison of [findFreeSlots] with it is
                             false, and no slot is returned *)
                          if JsDate.valid s && JsDate.valid e
                          then Some (findFreeSlots b s e m)
                          else Some [])
                       (hostOffset host) meetingLength workStartHour workEndHour
                       slotsPerDay daysToSearch bankHolidays busySlots endDate
                       fuel startDate with
               | Some w =>
                   match DateWalk.toISOStrings (suggestions w) with
                   | Some printed => Some (Content printed)
                   | None => Some (IsError ("Error: " ++ JsDate.INVALID_TIME_VALUE))
                   end
               | None => None
               end
           end)
  | _, _ => Return (Some (IsError ("Error: " ++ JsDate.INVALID_TIME_VALUE)))
  end.

End IndexTs.

(** ** src/unnamed/part_000 *)

Module Part000.
Import Time Common.

(** A JavaScript number used as a loop bound: an integer or [Infinity]. *)
Inductive Bound := Finite (n : Z) | Infinity.

(** [Math.floor(gapMinutes / meetingLengthMinutes)].  It is only evaluated
    for a positive gap; a positive gap over zero is [Infinity]. *)
Definition slotsToAdd (gapMs meetingLengthMinutes : Z) : Bound :=
  if meetingLengthMinutes =? 0
  then (if 0 <? gapMs then Infinity else Finite 0)
  else Finite (gapMs / (meetingLengthMinutes * MS_PER_MINUTE)).

(** [i < slotsToAdd] *)
Definition below (i : Z) (b : Bound) : bool :=
  match b with
  | Finite n => i <? n
  | Infinity => true
  end.

(** [for (let i = 0; i < slotsToAdd; i++) freeSlots.push(...)], from [i]. *)
Fixpoint push_slots (fuel : nat) (i : Z) (bound : Bound)
    (pointer meetingLengthMinutes : Z) (freeSlots : list Interval)
    : option (list Interval) :=
  match fuel with
  | O => None
  | S fuel' =>
      if below i bound then
        let slotStart := pointer + i * meetingLengthMinutes * MS_PER_MINUTE in
        push_slots fuel' (i + 1) bound pointer meetingLengthMinutes
                   (freeSlots ++ [slot_at slotStart meetingLengthMinutes])
      else Some freeSlots
  end.

(** [if (pointer < target) { gapMinutes = ...; if (gapMinutes >= m) { ... } }],
    the block the source has once per busy interval and once for the end
    of the day. *)
Definition pack (fuel : nat) (target pointer meetingLengthMinutes : Z)
    (freeSlots : list Interval) : option (list Interval) :=
  if pointer <? target then
    if gap_fits (target - pointer) meetingLengthMinutes
    then push_slots fuel 0 (slotsToAdd (target - pointer) meetingLengthMinutes)
                    pointer meetingLengthMinutes freeSlots
    else Some freeSlots
  else Some freeSlots.

Definition visit (fuel : nat) (meetingLengthMinutes : Z) (st : list Interval * Z)
    (busy : Interval) : option (list Interval * Z) :=
  let '(freeSlots, pointer) := st in
  let busyStart := start busy in
  let busyEnd := end_ busy in
  match pack fuel busyStart pointer meetingLengthMinutes freeSlots with
  | Some freeSlots => Some (freeSlots, if pointer <? busyEnd then busyEnd else pointer)
  | None => None
  end.

Definition findFreeSlots (fuel : nat) (busySlots : list Interval)
    (dayStart dayEnd meetingLengthMinutes : Z) : option (list Interval) :=
  match Loop.for_of (visit fuel meetingLengthMinutes)
                    (sortedBusySlots busySlots dayStart dayEnd) ([], dayStart) with
  | Some (freeSlots, pointer) => pack fuel dayEnd pointer meetingLengthMinutes freeSlots
  | None => None
  end.


(** [startDate] after lines 548-555. *)
Definition resolveStartDate (host : Host) (tz : string) (now : Z)
    (startDate : option Z) : Z :=
  let h := hostOffset host in
  let d := match startDate with
           | Some s => s
           | None => JsDate.addDays (JsDate.viaLocaleString h (zoneOffset host tz) now) 1
           end in
  JsDate.setHours h d 0.

Definition handleMeetingSuggestion (host : Host) (now : Z) (fuel : nat) (args : Args)
    : Interaction (option ToolResult) :=
  let meetingLength := Js.or_default (meetingLengthMinutes args) 60 in
  let workStartHour := Js.or_default (workingHoursStart args) 9 in
  let workEndHour := Js.or_default (workingHoursEnd args) 17 in
  let timezone := Js.or_default_string (timezone args) "America/Sao_Paulo" in
  let slotsPerDay := Js.or_default (slotsPerDay args) 1 in
  let daysToSearch := Js.or_default (daysToSearch args) 3 in
  let maxDaysToLookAhead := Js.or_default (maxDaysToLookAhead args) 30 in
  let bankHolidays := Js.or_default_array (bankHolidays args) [] in
  let calendarIds := Js.or_default_array (calendarIds args) ["primary"%string] in
  let startDate := resolveStartDate host timezone now (startDate args) in
  let endDate := JsDate.addDays startDate maxDaysToLookAhead in
  match JsDate.toISOString startDate, JsDate.toISOString endDate with
  | Some timeMin, Some timeMax =>
      Await (mkQuery timeMin timeMax None calendarIds)
        (fun outcome =>
           match outcome with
           | FetchThrows message =>
               Some (IsError ("Error suggesting meetings: " ++ message))
           | FetchOk calendars =>
               let busySlots := busySlots calendarIds calendars in
               match DateWalk.walk
                       (fun b s e m =>
                          (* [setHours] past the range leaves an Invalid Date:
                             every comparison of [findFreeSlots] with it is
                             false, and no slot is returned *)
                          if JsDate.valid s && JsDate.valid e
                          then findFreeSlots fuel b s e m
                          else Some [])
                       (hostOffset host) meetingLength workStartHour workEndHour
                       slotsPerDay daysToSearch bankHolidays busySlots endDate
                       fuel startDate with
               | Some w =>
                   match DateWalk.toISOStrings (suggestions w) with
                   | Some printed => Some (Content printed)
                   | None =>
                       Some (IsError ("Error suggesting meetings: "
                                      ++ JsDate.INVALID_TIME_VALUE))
                   end
               | None => None
               end
           end)
  | _, _ =>
      Return (Some (IsError ("Error suggesting meetings: " ++ JsDate.INVALID_TIME_VALUE)))
  end.

End Part000.

(** ** src/unnamed/part_001 *)

Module Part001.
Import Time Common.

(** [while (target - pointer >= m * 60000) { push; pointer += m * 60000 }],
    for a whole number [m] of minutes: [pointer.setTime] then truncates
    nothing. *)
Fixpoint pack_while (fuel : nat) (target meetingLengthMinutes : Z)
    (st : list Interval * Z) : option (list Interval * Z) :=
  match fuel with
  | O => None
  | S fuel' =>
      let '(freeSlots, pointer) := st in
      if meetingLengthMinutes * MS_PER_MINUTE <=? target - pointer then
        pack_while fuel' target meetingLengthMinutes
          (freeSlots ++ [slot_at pointer meetingLengthMinutes],
           pointer + meetingLengthMinutes * MS_PER_MINUTE)
      else Some st
  end.

Definition visit (fuel : nat) (meetingLengthMinutes : Z) (st : list Interval * Z)
    (busy : Interval) : option (list Interval * Z) :=
  let busyStart := start busy in
  let busyEnd := end_ busy in
  match pack_while fuel busyStart meetingLengthMinutes st with
  | Some (freeSlots, pointer) =>
      Some (freeSlots, if pointer <? busyEnd then busyEnd else pointer)
  | None => None
  end.

Definition findFreeSlots (fuel : nat) (busySlots : list Interval)
    (dayStart dayEnd meetingLengthMinutes : Z) : option (list Interval) :=
  match Loop.for_of (visit fuel meetingLengthMinutes)
                    (sortedBusySlots busySlots dayStart dayEnd) ([], dayStart) with
  | Some st =>
      match pack_while fuel dayEnd meetingLengthMinutes st with
      | Some (freeSlots, _) => Some freeSlots
      | None => None
      end
  | None => None
  end.


(** [startDate] after lines 594-605. *)
Definition resolveStartDate (host : Host) (tz : string) (now : Z)
    (startDate : option Z) : Z :=
  let z := zoneOffset host tz in
  match startDate with
  | Some s => Luxon.startOfDay z s
  | None => Luxon.startOfDay z (Luxon.plusDays now 1)
  end.

(** [for (const slot of freeSlots) { if (slotsAddedToday >= slotsPerDay) break; ... }] *)
Fixpoint collect (slotsPerDay slotsAddedToday : Z) (freeSlots : list Interval)
    : list Interval :=
  match freeSlots with
  | [] => []
  | slot :: rest =>
      if slotsPerDay <=? slotsAddedToday then []
      else slot :: collect slotsPerDay (slotsAddedToday + 1) rest
  end.

Section Closure.
Variable fuel : nat.
Variable z : Z.
Variables meetingLength workStartHour workEndHour slotsPerDay daysToSearch : Z.
Variable bankHolidays : list string.
Variable busySlots : list Interval.
Variable endDate : Z.

(** [daysWithSlotsFound < daysToSearch && dayPointer < endDate] *)
Definition cond (w : Walk) : bool :=
  (daysWithSlotsFound w <? daysToSearch) && (dayPointer w <? endDate).

(** [dayOfWeek < 6 && !bankHolidays.includes(formattedDate)] *)
Definition working_day (dayPointer : Z) : bool :=
  let dayOfWeek := Luxon.weekday z dayPointer in
  let formattedDate := Luxon.toISODate z dayPointer in
  (dayOfWeek <? 6) && negb (Js.includes bankHolidays formattedDate).

Definition dayStart (dayPointer : Z) : Z := Luxon.setHour z dayPointer workStartHour.
Definition dayEnd (dayPointer : Z) : Z := Luxon.setHour z dayPointer workEndHour.

Definition body (w : Walk) : option Walk :=
  let next := Luxon.plusDays (dayPointer w) 1 in
  if working_day (dayPointer w) then
    match findFreeSlots fuel busySlots (dayStart (dayPointer w))
                                (dayEnd (dayPointer w)) meetingLength with
    | Some freeSlots =>
        Some (mkWalk (suggestions w ++ collect slotsPerDay 0 freeSlots)
                     (daysWithSlotsFound w + 1) next)
    | None => None
    end
  else Some (mkWalk (suggestions w) (daysWithSlotsFound w) next).

Definition init (startDate : Z) : Walk := mkWalk [] 0 startDate.

Definition walk (startDate : Z) : option Walk :=
  Loop.while fuel cond body (init startDate).

End Closure.

Definition handleMeetingSuggestion (host : Host) (now : Z) (fuel : nat) (args : Args)
    : Interaction (option ToolResult) :=
  let meetingLength := Js.or_default (meetingLengthMinutes args) 60 in
  let workStartHour := Js.or_default (workingHoursStart args) 9 in
  let workEndHour := Js.or_default (workingHoursEnd args) 17 in
  let timezone := Js.or_default_string (timezone args) "America/Sao_Paulo" in
  let slotsPerDay := Js.or_default (slotsPerDay args) 1 in
  let daysToSearch := Js.or_default (daysToSearch args) 3 in
  let maxDaysToLookAhead := Js.or_default (maxDaysToLookAhead args) 30 in
  let bankHolidays := Js.or_default_array (bankHolidays args) [] in
  let calendarIds := Js.or_default_array (calendarIds args) ["primary"%string] in
  let z := zoneOffset host timezone in
  let startDate := resolveStartDate host timezone now (startDate args) in
  let endDate := Luxon.endOfDay z (Luxon.plusDays startDate maxDaysToLookAhead) in
  Await (mkQuery startDate endDate (Some timezone) calendarIds)
    (fun outcome =>
       match outcome with
       | FetchThrows message => Some (IsError ("Error suggesting meetings: " ++ message))
       | FetchOk calendars =>
           let busySlots := busySlots calendarIds calendars in
           match walk fuel z meetingLength workStartHour workEndHour
                      slotsPerDay daysToSearch bankHolidays busySlots endDate
                      startDate with
           | Some w => Some (Content (suggestions w))
           | None => None
           end
       end).

End Part001.

(** ** Node's [Buffer] and the string methods of [handleSendEmail] *)

(** Strings are sequences of bytes here: a JavaScript string stands for its
    UTF-8 encoding, which is what [Buffer.from(message)] holds, and
    concatenation and [join] act on it as on the string. *)
Module Node.

(** The base64 alphabet (RFC 4648, section 4). *)
Definition alphabet : string :=
  "ABCDEFGHIJKLMNOPQRSTUVWXYZabcdefghijklmnopqrstuvwxyz0123456789+/".

Definition byte (c : ascii) : Z := Z.of_N (N_of_ascii c).

(** The character of a group of six bits. *)
Definition sextet (n : Z) : ascii :=
  nth (Z.to_nat n) (list_ascii_of_string alphabet) "="%char.

(** [Buffer.from(s).toString('base64')]: three bytes give four characters;
    a last group of one or two bytes is padded with [=]. *)
Fixpoint base64 (s : string) : string :=
  match s with
  | EmptyString => EmptyString
  | String a EmptyString =>
      let n := byte a in
      String (sextet (n / 4)) (String (sextet (n mod 4 * 16)) "=="%string)
  | String a (String b EmptyString) =>
      let n := byte a * 256 + byte b in
      String (sextet (n / 1024))
        (String (sextet (n / 16 mod 64)) (String (sextet (n mod 16 * 4)) "="%string))
  | String a (String b (String c rest)) =>
      let n := byte a * 65536 + byte b * 256 + byte c in
      String (sextet (n / 262144))
        (String (sextet (n / 4096 mod 64))
           (String (sextet (n / 64 mod 64))
              (String (sextet (n mod 64)) (base64 rest))))
  end.

(** [s.replace(/c/g, d)] for a pattern of one character. *)
Fixpoint replace_all (c d : ascii) (s : string) : string :=
  match s with
  | EmptyString => EmptyString
  | String x s' => String (if Ascii.eqb x c then d else x) (replace_all c d s')
  end.

(** [s.replace(/c+$/, '')]: the run of [c] at the end of the string goes. *)
Fixpoint strip_trailing (c : ascii) (s : string) : string :=
  match s with
  | EmptyString => EmptyString
  | String x s' =>
      match strip_trailing c s' with
      | EmptyString => if Ascii.eqb x c then EmptyString else String x EmptyString
      | t => String x t
      end
  end.

End Node.

(** ** [handleSendEmail]: the message and its encoding
       (src/unnamed/part_000 and src/unnamed/part_001, the same text) *)

Module Mail.

(** [const { to, subject, body, cc, bcc } = args]: each a string or
    [undefined]. *)
Record SendArgs := mkSendArgs {
  to : option string;
  subject : option string;
  body : option string;
  cc : option string;
  bcc : option string
}.

(** [`${x}`] *)
Definition template (x : option string) : string :=
  match x with
  | Some s => s
  | None => "undefined"
  end.

(** [Boolean(x)]: [undefined] and [''] are falsy. *)
Definition truthy (x : option string) : bool :=
  match x with
  | Some (String _ _) => true
  | _ => false
  end.

(** ['\r\n'] *)
Definition CRLF : string :=
  String (ascii_of_nat 13) (String (ascii_of_nat 10) EmptyString).

(** [parts.filter(Boolean).join(sep)] *)
Definition filter_join (sep : string) (parts : list (option string)) : string :=
  String.concat sep (flat_map (fun x => if truthy x then [template x] else []) parts).

Definition message (args : SendArgs) : string :=
  filter_join CRLF
    [ Some "Content-Type: text/html; charset=utf-8"%string;
      Some "MIME-Version: 1.0"%string;
      Some ("To: " ++ template (to args))%string;
      if truthy (cc args) then Some ("Cc: " ++ template (cc args))%string
      else Some EmptyString;
      if truthy (bcc args) then Some ("Bcc: " ++ template (bcc args))%string
      else Some EmptyString;
      Some ("Subject: " ++ template (subject args))%string;
      Some EmptyString;
      body args ].

Definition encodedMessage (args : SendArgs) : string :=
  Node.strip_trailing "="%char
    (Node.replace_all "/"%char "_"%char
       (Node.replace_all "+"%char "-"%char (Node.base64 (message args)))).

End Mail.

(** ** Tool registration and dispatch: [setupToolHandlers] *)

Module Tools.

(** The private methods a tool call is dispatched to. *)
Inductive Handler :=
| handleListEmails
| handleSearchEmails
| handleSendEmail
| handleModifyEmail
| handleListEvents
| handleCreateEvent
| handleMeetingSuggestion.

(** What the [CallToolRequestSchema] handler does with a tool name: it calls
    a method, or throws [McpError(ErrorCode.MethodNotFound, message)]. *)
Inductive Dispatch :=
| Calls (h : Handler)
| MethodNotFound (message : string).

(** Names of the tools the [ListToolsRequestSchema] handler of src/index.ts
    returns. *)
Definition IndexTs_tools : list string := [ "meeting_suggestion"%string ].

(** [switch (request.params.name)] of src/index.ts. *)
Definition IndexTs_dispatch (name : string) : Dispatch :=
  if String.eqb name "meeting_suggestion" then Calls handleMeetingSuggestion
  else MethodNotFound ("Unknown tool: " ++ name)%string.

(** Names of the tools listed by src/unnamed/part_000 and by
    src/unnamed/part_001, in the order of the list. *)
Definition Part000_tools : list string :=
  [ "list_emails"; "search_emails"; "send_email"; "modify_email";
    "list_events"; "create_event"; "meeting_suggestion" ]%string.

Definition Part001_tools : list string :=
  [ "list_emails"; "search_emails"; "send_email"; "modify_email";
    "list_events"; "create_event"; "meeting_suggestion" ]%string.

(** [switch (request.params.name)] of src/unnamed/part_000. *)
Definition Part000_dispatch (name : string) : Dispatch :=
  if String.eqb name "list_emails" then Calls handleListEmails
  else if String.eqb name "search_emails" then Calls handleSearchEmails
  else if String.eqb name "send_email" then Calls handleSendEmail
  else if String.eqb name "modify_email" then Calls handleModifyEmail
  else if String.eqb name "list_events" then Calls handleListEvents
  else if String.eqb name "create_event" then Calls handleCreateEvent
  else if String.eqb name "meeting_suggestion" then Calls handleMeetingSuggestion
  else MethodNotFound ("Unknown tool: " ++ name)%string.

(** [switch (request.params.name)] of src/unnamed/part_001. *)
Definition Part001_dispatch (name : string) : Dispatch :=
  if String.eqb name "list_emails" then Calls handleListEmails
  else if String.eqb name "search_emails" then Calls handleSearchEmails
  else if String.eqb name "send_email" then Calls handleSendEmail
  else if String.eqb name "modify_email" then Calls handleModifyEmail
  else if String.eqb name "list_events" then Calls handleListEvents
  else if String.eqb name "create_event" then Calls handleCreateEvent
  else if String.eqb name "meeting_suggestion" then Calls handleMeetingSuggestion
  else MethodNotFound ("Unknown tool: " ++ name)%string.

End Tools.

(** * Specification vocabulary *)

(** Two intervals share a positive amount of time. *)
Definition overlaps (a b : Interval) : Prop :=
  start a < end_ b /\ start b < end_ a.

(** An interval lies inside the working window. *)
Definition within (dayStart dayEnd : Z) (s : Interval) : Prop :=
  dayStart <= start s /\ end_ s <= dayEnd.

(** [n] slots of [meetingLengthMinutes], each starting where the previous one
    ends, the first at [from]. *)
Definition back_to_back (from meetingLengthMinutes : Z) (n : nat) : list Interval :=
  List.map
    (fun i => Common.slot_at (from + Z.of_nat i * meetingLengthMinutes * Time.MS_PER_MINUTE)
                             meetingLengthMinutes)
    (seq 0 n).

(** Fuel that lets every packing loop of one working window run to its end:
    one test of the loop condition per minute of the window, and one more. *)
Definition window_fuel (dayStart dayEnd : Z) : nat :=
  S (Z.to_nat ((dayEnd - dayStart) / Time.MS_PER_MINUTE)).

(** Every slot lies in the window and overlaps no busy interval. *)
Definition sound_slots (dayStart dayEnd : Z) (busy slots : list Interval) : Prop :=
  forall s, In s slots ->
    within dayStart dayEnd s /\ forall b, In b busy -> ~ overlaps s b.

(** Busy intervals in the order of the sort. *)
Definition by_start (a b : Interval) : Prop := start a <= start b.

(** Number of whole meetings that fit between [pointer] and [target]. *)
Definition fitting (target pointer m : Z) : nat :=
  Z.to_nat ((target - pointer) / (m * Time.MS_PER_MINUTE)).

(** Days left between a pointer and the end of the horizon. *)
Definition days_left (pointer endDate : Z) : nat :=
  Z.to_nat ((endDate - pointer + Time.MS_PER_DAY - 1) / Time.MS_PER_DAY).

(** The day pointers [startDate + k days] that lie before [endDate]. *)
Definition horizon (startDate endDate : Z) : list Z :=
  List.map (fun k => startDate + Z.of_nat k * Time.MS_PER_DAY)
           (seq 0 (days_left startDate endDate)).

(** A pointer is some whole number of days after the start date. *)
Definition on_grid (startDate pointer : Z) : Prop :=
  exists k : nat, pointer = startDate + Z.of_nat k * Time.MS_PER_DAY.

(** The states in which the loop body of the walk is entered: one per day
    examined. *)
Definition Part001_examined (fuel : nat) (z m ws we spd N : Z)
    (hol : list string) (busy : list Interval) (endDate startDate : Z) (n : nat)
    : list Walk :=
  Loop.entered n (Part001.cond N endDate) (Part001.body fuel z m ws we spd hol busy)
               (Part001.init startDate).

Definition DateWalk_examined
    (ffs : list Interval -> Z -> Z -> Z -> option (list Interval))
    (h m ws we spd N : Z) (hol : list string) (busy : list Interval)
    (endDate startDate : Z) (n : nat) : list Walk :=
  Loop.entered n (DateWalk.cond N endDate) (DateWalk.body ffs h m ws we spd hol busy)
               (DateWalk.init startDate).

(** The eligible days among the days examined. *)
Definition Part001_eligible_examined (fuel : nat) (z m ws we spd N : Z)
    (hol : list string) (busy : list Interval) (endDate startDate : Z) : list Walk :=
  List.filter (fun w => Part001.working_day z hol (dayPointer w))
              (Part001_examined fuel z m ws we spd N hol busy endDate startDate fuel).

Definition DateWalk_eligible_examined
    (ffs : list Interval -> Z -> Z -> Z -> option (list Interval))
    (h m ws we spd N : Z) (hol : list string) (busy : list Interval)
    (endDate startDate : Z) (n : nat) : list Walk :=
  List.filter (fun w => DateWalk.working_day h hol (dayPointer w))
              (DateWalk_examined ffs h m ws we spd N hol busy endDate startDate n).

(** The start date the specification asks for: local midnight, in the request
    zone [z], of the date of the explicit start date, or of the day after the
    current local date. *)
Definition specified_start_date (z now : Z) (explicit : option Z) : Z :=
  match explicit with
  | Some d => Time.midnight_of z (Time.local_day z d)
  | None => Time.midnight_of z (Time.local_day z now + 1)
  end.

(** The three handlers. *)
Inductive Variant := SrcIndexTs | Part000File | Part001File.

Definition handler (v : Variant) : Host -> Z -> nat -> Args -> Interaction (option ToolResult) :=
  match v with
  | SrcIndexTs => IndexTs.handleMeetingSuggestion
  | Part000File => Part000.handleMeetingSuggestion
  | Part001File => Part001.handleMeetingSuggestion
  end.

(** The text each handler puts before the message of a caught error. *)
Definition error_prefix (v : Variant) : string :=
  match v with
  | SrcIndexTs => "Error: "
  | Part000File => "Error suggesting meetings: "
  | Part001File => "Error suggesting meetings: "
  end.

(** Start and end of the horizon as a handler computes them. *)
Definition horizon_start (v : Variant) (host : Host) (now : Z) (args : Args) : Z :=
  let tz := Js.or_default_string (timezone args) "America/Sao_Paulo" in
  match v with
  | SrcIndexTs => IndexTs.resolveStartDate host tz now (startDate args)
  | Part000File => Part000.resolveStartDate host tz now (startDate args)
  | Part001File => Part001.resolveStartDate host tz now (startDate args)
  end.

Definition horizon_end (v : Variant) (host : Host) (now : Z) (args : Args) : Z :=
  let tz := Js.or_default_string (timezone args) "America/Sao_Paulo" in
  let maxDays := Js.or_default (maxDaysToLookAhead args) 30 in
  match v with
  | Part001File =>
      Luxon.endOfDay (zoneOffset host tz) (Luxon.plusDays (horizon_start v host now args) maxDays)
  | _ => JsDate.addDays (horizon_start v host now args) maxDays
  end.

(** Both ends of the horizon are inside the range of [Date]. *)
Definition horizon_in_range (v : Variant) (host : Host) (now : Z) (args : Args) : bool :=
  JsDate.valid (horizon_start v host now args) && JsDate.valid (horizon_end v host now args).

(** The variants that print their dates with [Date.prototype.toISOString],
    which throws on an Invalid Date; src/unnamed/part_001 prints with Luxon's
    [toISO], which does not throw. *)
Definition prints_with_toISOString (v : Variant) : bool :=
  match v with
  | Part001File => false
  | _ => true
  end.

(** A request with one property replaced. *)
Definition with_meetingLengthMinutes (x : option Z) (a : Args) : Args :=
  mkArgs (calendarIds a) x (workingHoursStart a) (workingHoursEnd a) (timezone a)
         (slotsPerDay a) (daysToSearch a) (bankHolidays a) (startDate a)
         (maxDaysToLookAhead a).

Definition with_slotsPerDay (x : option Z) (a : Args) : Args :=
  mkArgs (calendarIds a) (meetingLengthMinutes a) (workingHoursStart a) (workingHoursEnd a)
         (timezone a) x (daysToSearch a) (bankHolidays a) (startDate a)
         (maxDaysToLookAhead a).

Definition with_daysToSearch (x : option Z) (a : Args) : Args :=
  mkArgs (calendarIds a) (meetingLengthMinutes a) (workingHoursStart a) (workingHoursEnd a)
         (timezone a) (slotsPerDay a) x (bankHolidays a) (startDate a)
         (maxDaysToLookAhead a).

Definition with_maxDaysToLookAhead (x : option Z) (a : Args) : Args :=
  mkArgs (calendarIds a) (meetingLengthMinutes a) (workingHoursStart a) (workingHoursEnd a)
         (timezone a) (slotsPerDay a) (daysToSearch a) (bankHolidays a) (startDate a) x.

Definition with_calendarIds (x : option (list string)) (a : Args) : Args :=
  mkArgs x (meetingLengthMinutes a) (workingHoursStart a) (workingHoursEnd a)
         (timezone a) (slotsPerDay a) (daysToSearch a) (bankHolidays a) (startDate a)
         (maxDaysToLookAhead a).

(** Fuel for the packing loops of a working day from [ws] to [we] o'clock. *)
Definition hours_fuel (ws we : Z) : nat :=
  S (Z.to_nat ((we - ws) * Time.MS_PER_HOUR / Time.MS_PER_MINUTE)).

(** ** Concrete inputs *)

Module Sample.
Import Time.

(** The instant [hh:mm] UTC on day number [day]. *)
Definition utc (day hh mm : Z) : Z :=
  day * MS_PER_DAY + hh * MS_PER_HOUR + mm * MS_PER_MINUTE.

(** Day number of Wednesday 2025-01-15. *)
Definition wed : Z := 20103.

(** Busy 10:00-11:30, 11:00-12:00 (overlapping the first) and 12:00-13:00
    (adjacent to the second), listed out of order. *)
Definition busy_overlapping : list Interval :=
  [ mkInterval (utc wed 12 0) (utc wed 13 0);
    mkInterval (utc wed 10 0) (utc wed 11 30);
    mkInterval (utc wed 11 0) (utc wed 12 0) ].

(** One busy interval 10:00-11:00. *)
Definition busy_ten_to_eleven : list Interval :=
  [ mkInterval (utc wed 10 0) (utc wed 11 0) ].

(** Zone database: two zones without daylight saving time, UTC otherwise. *)
Definition zones (tz : string) : Z :=
  if String.eqb tz "America/Sao_Paulo" then -3 * MS_PER_HOUR
  else if String.eqb tz "Asia/Karachi" then 5 * MS_PER_HOUR
  else 0.

(** A process running in UTC, in America/Sao_Paulo, in Asia/Karachi. *)
Definition host_utc : Host := {| hostOffset := 0; zoneOffset := zones |}.
Definition host_sao_paulo : Host := {| hostOffset := -3 * MS_PER_HOUR; zoneOffset := zones |}.
Definition host_karachi : Host := {| hostOffset := 5 * MS_PER_HOUR; zoneOffset := zones |}.

(** A request with no property set. *)
Definition no_args : Args := mkArgs None None None None None None None None None None.

(** The provider reports no busy time. *)
Definition provider_free (q : FreeBusyQuery) : FetchOutcome := FetchOk empty.

(** The provider reports the primary calendar busy from thirty days before to
    sixty days after 2025-01-15. *)
Definition busy_all_along : list Interval :=
  [ mkInterval (utc (wed - 30) 0 0) (utc (wed + 60) 0 0) ].

Definition provider_blocked (q : FreeBusyQuery) : FetchOutcome :=
  FetchOk {[ "primary"%string :=
               [ mkRawBusy (Some (utc (wed - 30) 0 0)) (Some (utc (wed + 60) 0 0)) ] ]}.

(** The provider fails. *)
Definition provider_down (q : FreeBusyQuery) : FetchOutcome := FetchThrows "Backend Error".

(** The provider reports the primary calendar busy 10:00-11:00 on 2025-01-15,
    and an entry without a start. *)
Definition provider_busy_hour (q : FreeBusyQuery) : FetchOutcome :=
  FetchOk {[ "primary"%string :=
               [ mkRawBusy (Some (utc wed 10 0)) (Some (utc wed 11 0));
                 mkRawBusy None (Some (utc wed 15 0)) ] ]}.

(** A request for the last hour of one day, in UTC, from 2025-01-15, a bank
    holiday, looking one day ahead. *)
Definition last_hour_of_the_day : Args :=
  mkArgs None None (Some 23) (Some 24) (Some "UTC"%string) None (Some 1)
         (Some ["2025-01-15"%string]) (Some (utc wed 12 0)) (Some 1).

(** A request for two slots a day on one day, from 2025-01-15. *)
Definition two_slots_one_day : Args :=
  mkArgs None None None None None (Some 2) (Some 1) None (Some (utc wed 12 0)) (Some 7).

End Sample.

(** ** Vocabulary of the further properties *)

(** A slot lasts exactly [m] minutes. *)
Definition has_length (m : Z) (s : Interval) : Prop :=
  end_ s = start s + m * Time.MS_PER_MINUTE.

(** Slots in chronological order, none starting before the previous one ends. *)
Definition chronological (slots : list Interval) : Prop :=
  StronglySorted (fun a b => end_ a <= start b) slots.

(** A busy interval that does not end before it starts. *)
Definition well_formed (b : Interval) : Prop := start b <= end_ b.

(** The offset a variant computes days in: src/unnamed/part_001 uses the
    request zone, the two [Date] variants the zone of the process. *)
Definition variant_offset (v : Variant) (host : Host) (tz : string) : Z :=
  match v with
  | Part001File => zoneOffset host tz
  | _ => hostOffset host
  end.

(** The test a variant applies to a day before it looks for slots. *)
Definition variant_working_day (v : Variant) (offset : Z) (hol : list string) (p : Z) : bool :=
  match v with
  | Part001File => Part001.working_day offset hol p
  | _ => DateWalk.working_day offset hol p
  end.

(** The working window of the day an instant falls on: from [ws] to [we]
    o'clock on a wall clock [offset] ms ahead of UTC. *)
Definition window_start (offset ws p : Z) : Z :=
  Time.start_of_day offset p + ws * Time.MS_PER_HOUR.
Definition window_end (offset we p : Z) : Z :=
  Time.start_of_day offset p + we * Time.MS_PER_HOUR.

(** A slot found on a day of the walk: a day pointer [p], a whole number of
    days after the start date and before the end date, that passes the
    working-day test, with [Q p s] telling what the slot is on that day. *)
Definition found_on (Q : Z -> Interval -> Prop) (startDate endDate : Z)
    (working : Z -> bool) (s : Interval) : Prop :=
  exists p, on_grid startDate p /\ p < endDate /\ working p = true /\ Q p s.

(** The instant up to which a variant asks the provider for busy time:
    [timeMax] of src/unnamed/part_001 is the last millisecond of its last
    day, one short of the midnight that ends it. *)
Definition asked_until (v : Variant) (q : FreeBusyQuery) : Z :=
  match v with
  | Part001File => timeMax q + 1
  | _ => timeMax q
  end.

(** The alphabet of base64url (RFC 4648, section 5). *)
Definition url_alphabet : string :=
  "ABCDEFGHIJKLMNOPQRSTUVWXYZabcdefghijklmnopqrstuvwxyz0123456789-_".

(** Every character of a string is of the base64url alphabet. *)
Definition url_safe (s : string) : Prop :=
  List.Forall (fun c => In c (list_ascii_of_string url_alphabet)) (list_ascii_of_string s).

(** Position of a character in a list. *)
Fixpoint position (c : ascii) (l : list ascii) : option Z :=
  match l with
  | [] => None
  | x :: l' => if Ascii.eqb x c then Some 0 else option_map Z.succ (position c l')
  end.

(** The six bits a base64url character stands for. *)
Definition url_value (c : ascii) : option Z :=
  position c (list_ascii_of_string url_alphabet).

Definition char_of_byte (n : Z) : ascii := ascii_of_N (Z.to_N n).

(** A decoder of base64url without padding, as the receiver of [raw] runs
    it: four characters give three bytes, a last group of three or two
    characters gives two bytes or one. *)
Fixpoint base64url_decode (s : string) : option string :=
  match s with
  | EmptyString => Some EmptyString
  | String _ EmptyString => None
  | String c1 (String c2 EmptyString) =>
      match url_value c1, url_value c2 with
      | Some v1, Some v2 =>
          Some (String (char_of_byte (v1 * 4 + v2 / 16)) EmptyString)
      | _, _ => None
      end
  | String c1 (String c2 (String c3 EmptyString)) =>
      match url_value c1, url_value c2, url_value c3 with
      | Some v1, Some v2, Some v3 =>
          let m := (v1 * 64 + v2) * 64 + v3 in
          Some (String (char_of_byte (m / 1024))
                  (String (char_of_byte (m / 4 mod 256)) EmptyString))
      | _, _, _ => None
      end
  | String c1 (String c2 (String c3 (String c4 rest))) =>
      match url_value c1, url_value c2, url_value c3, url_value c4,
            base64url_decode rest with
      | Some v1, Some v2, Some v3, Some v4, Some tail =>
          let m := ((v1 * 64 + v2) * 64 + v3) * 64 + v4 in
          Some (String (char_of_byte (m / 65536))
                  (String (char_of_byte (m / 256 mod 256))
                     (String (char_of_byte (m mod 256)) tail)))
      | _, _, _, _, _ => None
      end
  end.

(** What the two [replace] calls make of a character. *)
Definition url_char (c : ascii) : ascii :=
  let c := if Ascii.eqb c "+"%char then "-"%char else c in
  if Ascii.eqb c "/"%char then "_"%char else c.

(** The sixty-four groups of six bits, checked one by one: the character of
    a group, after the two [replace] calls, is the character base64url has
    for the group; it is not the padding character. *)
Definition sextet_checked (n : Z) : bool :=
  let c := url_char (Node.sextet n) in
  negb (Ascii.eqb c "="%char)
  && match url_value c with Some v => v =? n | None => false end
  && existsb (Ascii.eqb c) (list_ascii_of_string url_alphabet).

(** The tools and the dispatch of a variant. *)
Definition tools_of (v : Variant) : list string :=
  match v with
  | SrcIndexTs => Tools.IndexTs_tools
  | Part000File => Tools.Part000_tools
  | Part001File => Tools.Part001_tools
  end.

Definition dispatch_of (v : Variant) : string -> Tools.Dispatch :=
  match v with
  | SrcIndexTs => Tools.IndexTs_dispatch
  | Part000File => Tools.Part000_dispatch
  | Part001File => Tools.Part001_dispatch
  end.

(** * Properties *)

(** ** The filter and the sort *)

Section SortFacts.
Import Common.

Lemma insert_by_start_perm (x : Interval) (l : list Interval) :
  Permutation (x :: l) (insert_by_start x l).
Proof.
  induction l as [|y l IH]; simpl.
  - apply Permutation_refl.
  - destruct (start y <? start x).
    + eapply perm_trans; [apply perm_swap|]. now apply perm_skip.
    + apply Permutation_refl.
Qed.

Lemma sort_by_start_perm (l : list Interval) : Permutation l (sort_by_start l).
Proof.
  induction l as [|x l IH]; simpl.
  - constructor.
  - eapply perm_trans; [apply perm_skip, IH|]. apply insert_by_start_perm.
Qed.

Lemma insert_by_start_sorted (x : Interval) (l : list Interval) :
  StronglySorted by_start l -> StronglySorted by_start (insert_by_start x l).
Proof.
  induction l as [|y l IH]; simpl; intros Hs.
  - constructor; [constructor | constructor].
  - inversion Hs as [|? ? Hl Hy]; subst.
    destruct (start y <? start x) eqn:E.
    + apply Z.ltb_lt in E. constructor; [now apply IH|].
      rewrite List.Forall_forall in *. intros b Hb.
      apply (Permutation_in _ (Permutation_sym (insert_by_start_perm x l))) in Hb.
      destruct Hb as [<- | Hb]; [unfold by_start; lia | now apply Hy].
    + apply Z.ltb_ge in E. constructor; [exact Hs|].
      rewrite List.Forall_forall in *. intros b [<- | Hb]; [exact E|].
      specialize (Hy b Hb). unfold by_start in *. lia.
Qed.

Lemma sort_by_start_sorted (l : list Interval) : StronglySorted by_start (sort_by_start l).
Proof.
  induction l as [|x l IH]; simpl; [constructor | now apply insert_by_start_sorted].
Qed.

Lemma sortedBusySlots_sorted (busy : list Interval) (dayStart dayEnd : Z) :
  StronglySorted by_start (sortedBusySlots busy dayStart dayEnd).
Proof. apply sort_by_start_sorted. Qed.

Lemma sortedBusySlots_In (busy : list Interval) (dayStart dayEnd : Z) (b : Interval) :
  In b (sortedBusySlots busy dayStart dayEnd) <->
  In b busy /\ start b < dayEnd /\ dayStart < end_ b.
Proof.
  unfold sortedBusySlots. split.
  - intros H. apply (Permutation_in _ (Permutation_sym (sort_by_start_perm _))) in H.
    apply List.filter_In in H. destruct H as [H1 H2].
    unfold in_window in H2. apply andb_true_iff in H2.
    rewrite !Z.ltb_lt in H2. tauto.
  - intros (H1 & H2 & H3). apply (Permutation_in _ (sort_by_start_perm _)).
    apply List.filter_In. split; [exact H1|].
    unfold in_window. apply andb_true_iff. rewrite !Z.ltb_lt. tauto.
Qed.

Lemma sortedBusySlots_nil (dayStart dayEnd : Z) : sortedBusySlots [] dayStart dayEnd = [].
Proof. reflexivity. Qed.

End SortFacts.

(** ** Back-to-back slots *)

Section BackToBack.
Import Time Common.

Lemma back_to_back_cons (from m : Z) (n : nat) :
  back_to_back from m (S n) = slot_at from m :: back_to_back (from + m * MS_PER_MINUTE) m n.
Proof.
  unfold back_to_back. rewrite <- cons_seq, <- seq_shift. cbn [List.map].
  rewrite List.map_map.
  f_equal.
  - f_equal. lia.
  - apply List.map_ext. intros k. f_equal. lia.
Qed.

Lemma back_to_back_length (from m : Z) (n : nat) :
  List.length (back_to_back from m n) = n.
Proof. unfold back_to_back. now rewrite List.length_map, List.length_seq. Qed.

Lemma back_to_back_nth (from m : Z) (n k : nat) :
  (k < n)%nat ->
  nth_error (back_to_back from m n) k
  = Some (slot_at (from + Z.of_nat k * m * MS_PER_MINUTE) m).
Proof.
  intros Hk. unfold back_to_back.
  rewrite List.nth_error_map, List.nth_error_nth' with (d := O) by now rewrite List.length_seq.
  now rewrite List.seq_nth.
Qed.

Lemma back_to_back_In (from m : Z) (n : nat) (s : Interval) :
  In s (back_to_back from m n) ->
  exists k, 0 <= k < Z.of_nat n /\ s = slot_at (from + k * m * MS_PER_MINUTE) m.
Proof.
  unfold back_to_back. intros H. apply List.in_map_iff in H.
  destruct H as (k & <- & Hk). apply List.in_seq in Hk.
  exists (Z.of_nat k). split; [lia | reflexivity].
Qed.

(** For a positive length, the slots lie between [from] and the end of the
    last one, and each has a positive duration. *)
Lemma back_to_back_bounds (from m : Z) (n : nat) (s : Interval) :
  0 < m -> In s (back_to_back from m n) ->
  from <= start s /\ start s < end_ s
  /\ end_ s <= from + Z.of_nat n * (m * MS_PER_MINUTE).
Proof.
  intros Hm H. apply back_to_back_In in H. destruct H as (k & Hk & ->).
  unfold slot_at, MS_PER_MINUTE in *. simpl. nia.
Qed.

(** [floor(gap / step) * step <= gap] for a positive step. *)
Lemma floor_fits (gap step : Z) :
  0 < step -> Z.of_nat (Z.to_nat (gap / step)) * step <= Z.max 0 gap.
Proof.
  intros Hs. destruct (Z_lt_le_dec gap 0) as [Hn|Hp].
  - assert (gap / step < 0) by (apply Z.div_lt_upper_bound; lia).
    rewrite Z2Nat.nonpos by lia. lia.
  - assert (0 <= gap / step) by (apply Z.div_pos; lia).
    rewrite Z2Nat.id by lia.
    pose proof (Z.mul_div_le gap step Hs). lia.
Qed.

End BackToBack.

(** ** What one packing step produces *)

Section Packing.
Import Time Common.

Lemma fitting_fuel (dayStart dayEnd target pointer m : Z) (fuel : nat) :
  0 < m -> dayStart <= pointer -> target <= dayEnd ->
  (window_fuel dayStart dayEnd <= fuel)%nat ->
  (fitting target pointer m < fuel)%nat.
Proof.
  unfold fitting, window_fuel, MS_PER_MINUTE. intros Hm Hp Ht Hf.
  destruct (Z_lt_le_dec (target - pointer) 0) as [Hn|Hn].
  - assert ((target - pointer) / (m * 60000) < 0) by (apply Z.div_lt_upper_bound; lia).
    rewrite Z2Nat.nonpos by lia. lia.
  - assert ((target - pointer) / (m * 60000) <= (target - pointer) / 60000)
      by (apply Z.div_le_compat_l; lia).
    assert ((target - pointer) / 60000 <= (dayEnd - dayStart) / 60000)
      by (apply Z.div_le_mono; lia).
    lia.
Qed.

Lemma fitting_zero (target pointer m : Z) :
  0 < m -> target - pointer < m * MS_PER_MINUTE -> fitting target pointer m = O.
Proof.
  unfold fitting, MS_PER_MINUTE. intros Hm Hg.
  destruct (Z_lt_le_dec (target - pointer) 0) as [Hn|Hn].
  - assert ((target - pointer) / (m * 60000) < 0) by (apply Z.div_lt_upper_bound; lia).
    rewrite Z2Nat.nonpos by lia. reflexivity.
  - rewrite Z.div_small by lia. reflexivity.
Qed.

Lemma fitting_succ (target pointer m : Z) :
  0 < m -> m * MS_PER_MINUTE <= target - pointer ->
  fitting target pointer m = S (fitting target (pointer + m * MS_PER_MINUTE) m).
Proof.
  unfold fitting, MS_PER_MINUTE. intros Hm Hg.
  replace (target - (pointer + m * 60000)) with (target - pointer + (-1) * (m * 60000)) by lia.
  rewrite Z.div_add by lia.
  assert (1 <= (target - pointer) / (m * 60000)) by (apply Z.div_le_lower_bound; lia).
  lia.
Qed.

(** The end of the last fitting slot does not pass the target. *)
Lemma fitting_end (target pointer m : Z) :
  0 < m -> pointer <= target ->
  pointer + Z.of_nat (fitting target pointer m) * (m * MS_PER_MINUTE) <= target.
Proof.
  intros Hm Hp. unfold fitting.
  pose proof (floor_fits (target - pointer) (m * MS_PER_MINUTE)) as H.
  unfold MS_PER_MINUTE in *. lia.
Qed.

(** src/index.ts: at most one slot per gap. *)
Lemma IndexTs_visit_eq (m : Z) (freeSlots : list Interval) (pointer : Z) (busy : Interval) :
  IndexTs.visit m (freeSlots, pointer) busy
  = (freeSlots ++ (if (pointer <? start busy) && gap_fits (start busy - pointer) m
                   then [slot_at pointer m] else []),
     Z.max pointer (end_ busy)).
Proof.
  unfold IndexTs.visit. f_equal.
  - destruct (pointer <? start busy), (gap_fits (start busy - pointer) m); simpl;
      now rewrite ?List.app_nil_r.
  - destruct (pointer <? end_ busy) eqn:E; [apply Z.ltb_lt in E | apply Z.ltb_ge in E]; lia.
Qed.

(** src/unnamed/part_000: the [for] loop from [i] up to a finite bound. *)
Lemma Part000_push_slots_finite (k : nat) :
  forall (n i pointer m : Z) (fuel : nat) (freeSlots : list Interval),
    k = Z.to_nat (n - i) -> (k < fuel)%nat ->
    Part000.push_slots fuel i (Part000.Finite n) pointer m freeSlots
    = Some (freeSlots ++ back_to_back (pointer + i * m * MS_PER_MINUTE) m k).
Proof.
  induction k as [|k IH]; intros n i pointer m fuel freeSlots Hk Hf;
    (destruct fuel as [|fuel]; [lia|]); simpl.
  - assert (E : (i <? n) = false) by (apply Z.ltb_ge; lia).
    rewrite E. now rewrite List.app_nil_r.
  - assert (E : (i <? n) = true) by (apply Z.ltb_lt; lia).
    rewrite E, (IH n (i + 1) pointer m fuel) by lia.
    rewrite back_to_back_cons, <- List.app_assoc. simpl.
    do 4 f_equal. unfold MS_PER_MINUTE. lia.
Qed.

(** src/unnamed/part_000: one [if (pointer < target) ...] block with a
    positive meeting length packs the fitting slots back to back. *)
Lemma Part000_pack_eq (fuel : nat) (target pointer m : Z) (freeSlots : list Interval) :
  0 < m -> (fitting target pointer m < fuel)%nat ->
  Part000.pack fuel target pointer m freeSlots
  = Some (freeSlots ++ back_to_back pointer m (fitting target pointer m)).
Proof.
  intros Hm Hf. unfold Part000.pack, gap_fits.
  destruct (pointer <? target) eqn:E1; [apply Z.ltb_lt in E1 | apply Z.ltb_ge in E1].
  - destruct (m * MS_PER_MINUTE <=? target - pointer) eqn:E2;
      [apply Z.leb_le in E2 | apply Z.leb_gt in E2].
    + unfold Part000.slotsToAdd. replace (m =? 0) with false by (symmetry; apply Z.eqb_neq; lia).
      rewrite (Part000_push_slots_finite (fitting target pointer m)).
      * do 3 f_equal. lia.
      * unfold fitting. f_equal. lia.
      * exact Hf.
    + rewrite fitting_zero by lia. now rewrite List.app_nil_r.
  - rewrite fitting_zero by (unfold MS_PER_MINUTE; lia). now rewrite List.app_nil_r.
Qed.

(** src/unnamed/part_001: the [while] loop with a positive meeting length
    packs the fitting slots back to back and leaves the pointer at the end
    of the last one. *)
Lemma Part001_pack_while_eq (k : nat) :
  forall (fuel : nat) (target pointer m : Z) (freeSlots : list Interval),
    0 < m -> k = fitting target pointer m -> (k < fuel)%nat ->
    Part001.pack_while fuel target m (freeSlots, pointer)
    = Some (freeSlots ++ back_to_back pointer m k,
            pointer + Z.of_nat k * (m * MS_PER_MINUTE)).
Proof.
  induction k as [|k IH]; intros fuel target pointer m freeSlots Hm Hk Hf;
    (destruct fuel as [|fuel]; [lia|]); simpl.
  - destruct (m * MS_PER_MINUTE <=? target - pointer) eqn:E;
      [apply Z.leb_le in E | apply Z.leb_gt in E].
    + rewrite fitting_succ in Hk by assumption. discriminate.
    + rewrite List.app_nil_r. do 2 f_equal. lia.
  - destruct (m * MS_PER_MINUTE <=? target - pointer) eqn:E;
      [apply Z.leb_le in E | apply Z.leb_gt in E].
    + rewrite fitting_succ in Hk by assumption.
      rewrite (IH fuel target (pointer + m * MS_PER_MINUTE) m) by lia.
      rewrite back_to_back_cons, <- List.app_assoc. simpl. do 2 f_equal. lia.
    + rewrite fitting_zero in Hk by assumption. discriminate.
Qed.

End Packing.

(** ** Soundness of the scan over the sorted busy intervals *)

Lemma for_of_total {S X : Type} (f : S -> X -> S) (xs : list X) (s : S) :
  Loop.for_of (fun s x => Some (f s x)) xs s = Some (fold_left f xs s).
Proof. revert s. induction xs as [|x xs IH]; intros s; simpl; [reflexivity | apply IH]. Qed.

Section Scan.
Variables dayStart dayEnd : Z.
Variable visit : list Interval * Z -> Interval -> option (list Interval * Z).

(** One busy interval: the new slots start at or after the pointer and end
    at or before the busy interval starts; the pointer moves forward, past
    the end of the busy interval. *)
Hypothesis visit_spec :
  forall freeSlots pointer busy,
    dayStart <= pointer -> start busy < dayEnd ->
    exists new pointer',
      visit (freeSlots, pointer) busy = Some (freeSlots ++ new, pointer')
      /\ pointer <= pointer' /\ end_ busy <= pointer'
      /\ forall s, In s new -> pointer <= start s /\ end_ s <= start busy.

Lemma scan_sound (l : list Interval) :
  forall freeSlots pointer,
    StronglySorted by_start l ->
    (forall b, In b l -> start b < dayEnd) ->
    dayStart <= pointer ->
    exists new pointer',
      Loop.for_of visit l (freeSlots, pointer) = Some (freeSlots ++ new, pointer')
      /\ pointer <= pointer'
      /\ (forall b, In b l -> end_ b <= pointer')
      /\ forall s, In s new ->
           pointer <= start s /\ end_ s <= dayEnd
           /\ forall b, In b l -> ~ overlaps s b.
Proof.
  induction l as [|b l IH]; intros freeSlots pointer Hsort Hwin Hp.
  - exists [], pointer. simpl. rewrite List.app_nil_r.
    repeat split; try lia; intros ? [].
  - inversion Hsort as [|? ? Hsl Hb]; subst. rewrite List.Forall_forall in Hb.
    destruct (visit_spec freeSlots pointer b Hp (Hwin b (or_introl eq_refl)))
      as (new1 & p1 & E1 & Hp1 & He1 & Hnew1).
    destruct (IH (freeSlots ++ new1) p1 Hsl (fun c Hc => Hwin c (or_intror Hc)) ltac:(lia))
      as (new2 & p2 & E2 & Hp2 & He2 & Hnew2).
    exists (new1 ++ new2), p2. simpl. rewrite E1, E2, List.app_assoc.
    split; [reflexivity|]. split; [lia|]. split.
    + intros c [<- | Hc]; [lia | now apply He2].
    + intros s Hs. apply List.in_app_or in Hs. destruct Hs as [Hs | Hs].
      * destruct (Hnew1 s Hs) as [Ha Hz].
        pose proof (Hwin b (or_introl eq_refl)).
        split; [lia|]. split; [lia|].
        intros c [<- | Hc] [Ho1 Ho2]; [lia|].
        specialize (Hb c Hc). unfold by_start in Hb. lia.
      * destruct (Hnew2 s Hs) as (Ha & Hz & Hno).
        split; [lia|]. split; [lia|].
        intros c [<- | Hc]; [intros [Ho1 Ho2]; lia | now apply Hno].
Qed.

(** The whole routine: the scan of the sorted, filtered busy list followed by
    slots between the final pointer and the end of the day. *)
Lemma scan_then_tail (busy : list Interval) :
  exists new pointer,
    Loop.for_of visit (Common.sortedBusySlots busy dayStart dayEnd) ([], dayStart)
    = Some (new, pointer)
    /\ dayStart <= pointer
    /\ forall tail,
         (forall s, In s tail -> pointer <= start s /\ end_ s <= dayEnd) ->
         sound_slots dayStart dayEnd busy (new ++ tail).
Proof.
  destruct (scan_sound (Common.sortedBusySlots busy dayStart dayEnd) [] dayStart)
    as (new & p & E & Hp & He & Hnew).
  - apply sortedBusySlots_sorted.
  - intros b Hb. apply sortedBusySlots_In in Hb. tauto.
  - lia.
  - exists new, p. split; [exact E|]. split; [exact Hp|].
    intros tail Htail s Hs.
    assert (Hs' : dayStart <= start s /\ end_ s <= dayEnd
                  /\ forall b, In b (Common.sortedBusySlots busy dayStart dayEnd) ->
                               ~ overlaps s b).
    { apply List.in_app_or in Hs. destruct Hs as [Hs | Hs].
      - destruct (Hnew s Hs) as (Ha & Hz & Hno). repeat split; [lia | lia | exact Hno].
      - destruct (Htail s Hs) as [Ha Hz]. repeat split; [lia | lia |].
        intros b Hb [Ho1 Ho2]. specialize (He b Hb). lia. }
    destruct Hs' as (Ha & Hz & Hno). split; [split; assumption|].
    intros b Hb [Ho1 Ho2].
    destruct (Z_lt_le_dec (start b) dayEnd) as [H1|H1]; [|lia].
    destruct (Z_lt_le_dec dayStart (end_ b)) as [H2|H2]; [|lia].
    apply (Hno b); [apply sortedBusySlots_In; tauto | split; assumption].
Qed.

End Scan.

(** ** [findFreeSlots] is sound in the three variants *)

Section Soundness.
Import Time Common.
Variables (busy : list Interval) (dayStart dayEnd m : Z).
Hypothesis m_pos : 0 < m.

Lemma IndexTs_visit_spec :
  forall freeSlots pointer b,
    dayStart <= pointer -> start b < dayEnd ->
    exists new pointer',
      Some (IndexTs.visit m (freeSlots, pointer) b) = Some (freeSlots ++ new, pointer')
      /\ pointer <= pointer' /\ end_ b <= pointer'
      /\ forall s, In s new -> pointer <= start s /\ end_ s <= start b.
Proof.
  intros freeSlots pointer b _ _. rewrite IndexTs_visit_eq.
  eexists _, _. split; [reflexivity|]. split; [lia|]. split; [lia|].
  intros s Hs.
  destruct ((pointer <? start b) && gap_fits (start b - pointer) m) eqn:E; [|destruct Hs].
  destruct Hs as [<- | []]. apply andb_true_iff in E. destruct E as [_ E].
  unfold gap_fits in E. apply Z.leb_le in E. unfold slot_at. simpl. lia.
Qed.

Lemma IndexTs_findFreeSlots_sound :
  sound_slots dayStart dayEnd busy (IndexTs.findFreeSlots busy dayStart dayEnd m).
Proof.
  destruct (scan_then_tail dayStart dayEnd (fun st b => Some (IndexTs.visit m st b))
              IndexTs_visit_spec busy)
    as (new & p & E & Hp & Htail).
  rewrite for_of_total in E. injection E as E.
  unfold IndexTs.findFreeSlots. rewrite E.
  destruct (p <? dayEnd) eqn:E1.
  - destruct (gap_fits (dayEnd - p) m) eqn:E2.
    + apply Htail. intros s [<- | []].
      unfold gap_fits in E2. apply Z.leb_le in E2. unfold slot_at. simpl. lia.
    + rewrite <- (List.app_nil_r new). apply Htail. intros s [].
  - rewrite <- (List.app_nil_r new). apply Htail. intros s [].
Qed.

Variable fuel : nat.
Hypothesis fuel_enough : (window_fuel dayStart dayEnd <= fuel)%nat.

Lemma Part000_visit_spec :
  forall freeSlots pointer b,
    dayStart <= pointer -> start b < dayEnd ->
    exists new pointer',
      Part000.visit fuel m (freeSlots, pointer) b = Some (freeSlots ++ new, pointer')
      /\ pointer <= pointer' /\ end_ b <= pointer'
      /\ forall s, In s new -> pointer <= start s /\ end_ s <= start b.
Proof.
  intros freeSlots pointer b Hp Hb. unfold Part000.visit.
  rewrite Part000_pack_eq
    by (try assumption; apply (fitting_fuel dayStart dayEnd); (assumption || lia)).
  eexists _, _. split; [reflexivity|].
  split; [destruct (pointer <? end_ b) eqn:E;
          [apply Z.ltb_lt in E | apply Z.ltb_ge in E]; lia|].
  split; [destruct (pointer <? end_ b) eqn:E;
          [apply Z.ltb_lt in E | apply Z.ltb_ge in E]; lia|].
  intros s Hs.
  destruct (Z_le_gt_dec pointer (start b)) as [Hle|Hgt].
  - pose proof (fitting_end (start b) pointer m m_pos Hle).
    apply back_to_back_bounds in Hs; [lia | assumption].
  - rewrite fitting_zero in Hs by (unfold MS_PER_MINUTE; lia). destruct Hs.
Qed.

Lemma tail_in_window (pointer : Z) (s : Interval) :
  In s (back_to_back pointer m (fitting dayEnd pointer m)) ->
  pointer <= start s /\ end_ s <= dayEnd.
Proof.
  intros Hs. destruct (Z_le_gt_dec pointer dayEnd) as [Hle|Hgt].
  - pose proof (fitting_end dayEnd pointer m m_pos Hle).
    apply back_to_back_bounds in Hs; [lia | assumption].
  - rewrite fitting_zero in Hs by (unfold MS_PER_MINUTE; lia). destruct Hs.
Qed.

Lemma Part000_findFreeSlots_sound :
  exists slots,
    Part000.findFreeSlots fuel busy dayStart dayEnd m = Some slots
    /\ sound_slots dayStart dayEnd busy slots.
Proof.
  destruct (scan_then_tail dayStart dayEnd _ Part000_visit_spec busy)
    as (new & p & E & Hp & Htail).
  unfold Part000.findFreeSlots. rewrite E.
  rewrite Part000_pack_eq
    by (try assumption; apply (fitting_fuel dayStart dayEnd); (assumption || lia)).
  eexists. split; [reflexivity|]. apply Htail. apply tail_in_window.
Qed.

Lemma Part001_visit_spec :
  forall freeSlots pointer b,
    dayStart <= pointer -> start b < dayEnd ->
    exists new pointer',
      Part001.visit fuel m (freeSlots, pointer) b = Some (freeSlots ++ new, pointer')
      /\ pointer <= pointer' /\ end_ b <= pointer'
      /\ forall s, In s new -> pointer <= start s /\ end_ s <= start b.
Proof.
  intros freeSlots pointer b Hp Hb. unfold Part001.visit.
  rewrite (Part001_pack_while_eq (fitting (start b) pointer m))
    by (try assumption; try reflexivity;
        apply (fitting_fuel dayStart dayEnd); (assumption || lia)).
  eexists _, _. split; [reflexivity|].
  set (p0 := pointer + _).
  assert (pointer <= p0) by (unfold p0, MS_PER_MINUTE; nia).
  split; [destruct (p0 <? end_ b) eqn:E;
          [apply Z.ltb_lt in E | apply Z.ltb_ge in E]; lia|].
  split; [destruct (p0 <? end_ b) eqn:E;
          [apply Z.ltb_lt in E | apply Z.ltb_ge in E]; lia|].
  intros s Hs.
  destruct (Z_le_gt_dec pointer (start b)) as [Hle|Hgt].
  - pose proof (fitting_end (start b) pointer m m_pos Hle).
    apply back_to_back_bounds in Hs; [lia | assumption].
  - rewrite fitting_zero in Hs by (unfold MS_PER_MINUTE; lia). destruct Hs.
Qed.

Lemma Part001_findFreeSlots_sound :
  exists slots,
    Part001.findFreeSlots fuel busy dayStart dayEnd m = Some slots
    /\ sound_slots dayStart dayEnd busy slots.
Proof.
  destruct (scan_then_tail dayStart dayEnd _ Part001_visit_spec busy)
    as (new & p & E & Hp & Htail).
  unfold Part001.findFreeSlots. rewrite E.
  rewrite (Part001_pack_while_eq (fitting dayEnd p m))
    by (try assumption; try reflexivity;
        apply (fitting_fuel dayStart dayEnd); (assumption || lia)).
  eexists. split; [reflexivity|]. apply Htail. apply tail_in_window.
Qed.

End Soundness.

(** ** Claims about [findFreeSlots] *)

(** C3.  For every busy-interval list, every positive meeting length and every
    working window with [dayStart < dayEnd], every slot that [findFreeSlots]
    returns lies inside the window and overlaps no busy interval of the list,
    whether or not the busy intervals overlap or touch each other.  This holds
    in the three variants; the two variants with a packing loop return a
    result as soon as the fuel covers the window. *)
Theorem findFreeSlots_within_window_and_clear_of_busy
    (busy : list Interval) (dayStart dayEnd m : Z) :
  0 < m -> dayStart < dayEnd ->
  sound_slots dayStart dayEnd busy (IndexTs.findFreeSlots busy dayStart dayEnd m)
  /\ (forall fuel, (window_fuel dayStart dayEnd <= fuel)%nat ->
        exists slots,
          Part000.findFreeSlots fuel busy dayStart dayEnd m = Some slots
          /\ sound_slots dayStart dayEnd busy slots)
  /\ (forall fuel, (window_fuel dayStart dayEnd <= fuel)%nat ->
        exists slots,
          Part001.findFreeSlots fuel busy dayStart dayEnd m = Some slots
          /\ sound_slots dayStart dayEnd busy slots).
Proof.
  intros Hm _. split; [|split].
  - now apply IndexTs_findFreeSlots_sound.
  - intros fuel Hf. now apply Part000_findFreeSlots_sound.
  - intros fuel Hf. now apply Part001_findFreeSlots_sound.
Qed.

Lemma findFreeSlots_within_window_and_clear_of_busy_witness :
  let dayStart := Sample.utc Sample.wed 9 0 in
  let dayEnd := Sample.utc Sample.wed 17 0 in
  0 < 60 /\ dayStart < dayEnd
  /\ sound_slots dayStart dayEnd Sample.busy_overlapping
       (IndexTs.findFreeSlots Sample.busy_overlapping dayStart dayEnd 60)
  /\ (forall fuel, (window_fuel dayStart dayEnd <= fuel)%nat ->
        exists slots,
          Part000.findFreeSlots fuel Sample.busy_overlapping dayStart dayEnd 60 = Some slots
          /\ sound_slots dayStart dayEnd Sample.busy_overlapping slots)
  /\ (forall fuel, (window_fuel dayStart dayEnd <= fuel)%nat ->
        exists slots,
          Part001.findFreeSlots fuel Sample.busy_overlapping dayStart dayEnd 60 = Some slots
          /\ sound_slots dayStart dayEnd Sample.busy_overlapping slots).
Proof.
  intros dayStart dayEnd.
  split; [reflexivity|]. split; [reflexivity|].
  apply (findFreeSlots_within_window_and_clear_of_busy
           Sample.busy_overlapping dayStart dayEnd 60); reflexivity.
Defined.

(** *** Packing of a free gap *)

Section FreeGap.
Import Time Common.
Variables (busy : list Interval) (dayStart dayEnd m : Z).

(** src/unnamed/part_000: a gap before a busy interval receives the fitting
    number of back-to-back slots. *)
Lemma Part000_visit_packs_gap (fuel : nat)
    (freeSlots : list Interval) (pointer : Z) (b : Interval) :
  0 < m -> (fitting (start b) pointer m < fuel)%nat ->
  Part000.visit fuel m (freeSlots, pointer) b
  = Some (freeSlots ++ back_to_back pointer m (fitting (start b) pointer m),
          Z.max pointer (end_ b)).
Proof.
  intros Hm Hf. unfold Part000.visit. rewrite Part000_pack_eq by assumption.
  do 2 f_equal.
  destruct (pointer <? end_ b) eqn:E; [apply Z.ltb_lt in E | apply Z.ltb_ge in E]; lia.
Qed.

(** src/unnamed/part_001: the same slots; the pointer first moves to the end
    of the last slot. *)
Lemma Part001_visit_packs_gap (fuel : nat)
    (freeSlots : list Interval) (pointer : Z) (b : Interval) :
  0 < m -> (fitting (start b) pointer m < fuel)%nat ->
  Part001.visit fuel m (freeSlots, pointer) b
  = Some (freeSlots ++ back_to_back pointer m (fitting (start b) pointer m),
          Z.max (pointer + Z.of_nat (fitting (start b) pointer m) * (m * MS_PER_MINUTE))
                (end_ b)).
Proof.
  intros Hm Hf. unfold Part001.visit.
  rewrite (Part001_pack_while_eq (fitting (start b) pointer m)) by (assumption || reflexivity).
  do 2 f_equal. set (p0 := pointer + _).
  destruct (p0 <? end_ b) eqn:E; [apply Z.ltb_lt in E | apply Z.ltb_ge in E]; lia.
Qed.

Hypothesis free_day : sortedBusySlots busy dayStart dayEnd = [].

(** src/unnamed/part_000 on a day without busy intervals. *)
Lemma Part000_findFreeSlots_free_day (fuel : nat) :
  0 < m -> (window_fuel dayStart dayEnd <= fuel)%nat ->
  Part000.findFreeSlots fuel busy dayStart dayEnd m
  = Some (back_to_back dayStart m (fitting dayEnd dayStart m)).
Proof.
  intros Hm Hf. unfold Part000.findFreeSlots. rewrite free_day. simpl.
  rewrite Part000_pack_eq; [reflexivity | assumption |].
  apply (fitting_fuel dayStart dayEnd); (assumption || lia).
Qed.

(** src/unnamed/part_001 on a day without busy intervals. *)
Lemma Part001_findFreeSlots_free_day (fuel : nat) :
  0 < m -> (window_fuel dayStart dayEnd <= fuel)%nat ->
  Part001.findFreeSlots fuel busy dayStart dayEnd m
  = Some (back_to_back dayStart m (fitting dayEnd dayStart m)).
Proof.
  intros Hm Hf. unfold Part001.findFreeSlots. rewrite free_day. simpl.
  rewrite (Part001_pack_while_eq (fitting dayEnd dayStart m)); [reflexivity | assumption | reflexivity |].
  apply (fitting_fuel dayStart dayEnd); (assumption || lia).
Qed.


End FreeGap.

(** The scenarios of the specification: a 09:00-17:00 window with 60 minute
    meetings around a busy hour 10:00-11:00, and with 90 minute meetings on a
    free day. *)
Example Part000_seven_slots_around_a_busy_hour :
  Part000.findFreeSlots 100 Sample.busy_ten_to_eleven
    (Sample.utc Sample.wed 9 0) (Sample.utc Sample.wed 17 0) 60
  = Some (mkInterval (Sample.utc Sample.wed 9 0) (Sample.utc Sample.wed 10 0)
          :: back_to_back (Sample.utc Sample.wed 11 0) 60 6).
Proof. reflexivity. Qed.

Example Part001_seven_slots_around_a_busy_hour :
  Part001.findFreeSlots 100 Sample.busy_ten_to_eleven
    (Sample.utc Sample.wed 9 0) (Sample.utc Sample.wed 17 0) 60
  = Some (mkInterval (Sample.utc Sample.wed 9 0) (Sample.utc Sample.wed 10 0)
          :: back_to_back (Sample.utc Sample.wed 11 0) 60 6).
Proof. reflexivity. Qed.

Example IndexTs_two_slots_around_a_busy_hour :
  IndexTs.findFreeSlots Sample.busy_ten_to_eleven
    (Sample.utc Sample.wed 9 0) (Sample.utc Sample.wed 17 0) 60
  = [ mkInterval (Sample.utc Sample.wed 9 0) (Sample.utc Sample.wed 10 0);
      mkInterval (Sample.utc Sample.wed 11 0) (Sample.utc Sample.wed 12 0) ].
Proof. reflexivity. Qed.

Example Part001_five_slots_of_ninety_minutes :
  Part001.findFreeSlots 100 [] (Sample.utc Sample.wed 9 0) (Sample.utc Sample.wed 17 0) 90
  = Some (back_to_back (Sample.utc Sample.wed 9 0) 90 5)
  /\ List.last (back_to_back (Sample.utc Sample.wed 9 0) 90 5) (mkInterval 0 0)
     = mkInterval (Sample.utc Sample.wed 15 0) (Sample.utc Sample.wed 16 30).
Proof. split; reflexivity. Qed.

(** C2.  On a day without busy intervals the claim asks for
    [floor((dayEnd - dayStart) / meetingLength)] back-to-back slots from
    [dayStart].  src/unnamed/part_000 and src/unnamed/part_001 return them
    ([Part000_findFreeSlots_free_day], [Part001_findFreeSlots_free_day]);
    src/index.ts pushes one slot per gap: for a 09:00-17:00 window and 60
    minute meetings it returns the single slot 09:00-10:00 where eight fit. *)
Theorem IndexTs_findFreeSlots_one_slot_where_eight_fit :
  let dayStart := Sample.utc Sample.wed 9 0 in
  let dayEnd := Sample.utc Sample.wed 17 0 in
  IndexTs.findFreeSlots [] dayStart dayEnd 60
  = [mkInterval (Sample.utc Sample.wed 9 0) (Sample.utc Sample.wed 10 0)]
  /\ fitting dayEnd dayStart 60 = 8%nat
  /\ IndexTs.findFreeSlots [] dayStart dayEnd 60
     <> back_to_back dayStart 60 (fitting dayEnd dayStart 60).
Proof.
  intros dayStart dayEnd. split; [reflexivity|]. split; [reflexivity|].
  intros H. apply (f_equal (@List.length Interval)) in H.
  rewrite back_to_back_length in H. vm_compute in H. discriminate.
Qed.

(** *** Non-positive meeting length *)

Section NonPositive.
Import Time Common.

(** src/unnamed/part_001: with a non-positive length the packing loop, once
    entered, never exits: the pointer does not move forward. *)
Lemma Part001_pack_while_spins (fuel : nat) :
  forall (target m pointer : Z) (freeSlots : list Interval),
    m <= 0 -> m * MS_PER_MINUTE <= target - pointer ->
    Part001.pack_while fuel target m (freeSlots, pointer) = None.
Proof.
  induction fuel as [|fuel IH]; intros target m pointer freeSlots Hm Hg; simpl.
  - reflexivity.
  - replace (m * MS_PER_MINUTE <=? target - pointer) with true
      by (symmetry; now apply Z.leb_le).
    apply IH; [assumption | unfold MS_PER_MINUTE in *; lia].
Qed.


(** src/unnamed/part_000: with a negative length the floor is negative and
    the [for] loop is not entered. *)
Lemma Part000_pack_negative (fuel : nat) (target pointer m : Z) (freeSlots : list Interval) :
  m < 0 -> Part000.pack (S fuel) target pointer m freeSlots = Some freeSlots.
Proof.
  intros Hm. unfold Part000.pack.
  destruct (pointer <? target) eqn:E1; [apply Z.ltb_lt in E1 | reflexivity].
  destruct (gap_fits (target - pointer) m); [|reflexivity].
  unfold Part000.slotsToAdd.
  replace (m =? 0) with false by (symmetry; apply Z.eqb_neq; lia).
  simpl.
  assert ((target - pointer) / (m * MS_PER_MINUTE) < 0).
  { rewrite <- Z.div_opp_opp by (unfold MS_PER_MINUTE; lia).
    apply Z.div_lt_upper_bound; unfold MS_PER_MINUTE; lia. }
  replace (0 <? (target - pointer) / (m * MS_PER_MINUTE)) with false
    by (symmetry; apply Z.ltb_ge; lia).
  reflexivity.
Qed.

(** src/unnamed/part_000 terminates without slots for a negative length. *)
Lemma Part000_findFreeSlots_negative (fuel : nat) (busy : list Interval)
    (dayStart dayEnd m : Z) :
  m < 0 -> Part000.findFreeSlots (S fuel) busy dayStart dayEnd m = Some [].
Proof.
  intros Hm. unfold Part000.findFreeSlots.
  assert (H : forall l pointer,
             exists pointer',
               Loop.for_of (Part000.visit (S fuel) m) l ([], pointer) = Some ([], pointer')).
  { induction l as [|b l IH]; intros pointer; simpl Loop.for_of.
    - now exists pointer.
    - unfold Part000.visit at 1. rewrite Part000_pack_negative by assumption. apply IH. }
  destruct (H (sortedBusySlots busy dayStart dayEnd) dayStart) as [p ->].
  now apply Part000_pack_negative.
Qed.

(** src/unnamed/part_001: with a non-positive length the packing loop either
    is not entered or never exits, so it never adds a slot. *)
Lemma Part001_pack_while_nonpositive (fuel : nat) (target m : Z)
    (st st' : list Interval * Z) :
  m <= 0 -> Part001.pack_while fuel target m st = Some st' -> st' = st.
Proof.
  intros Hm H. destruct fuel as [|fuel]; [discriminate|]. destruct st as [freeSlots pointer].
  simpl in H.
  destruct (m * MS_PER_MINUTE <=? target - pointer) eqn:E.
  - apply Z.leb_le in E. rewrite Part001_pack_while_spins in H; [discriminate | assumption |].
    unfold MS_PER_MINUTE in *. lia.
  - now injection H as <-.
Qed.

(** src/unnamed/part_001: with a non-positive length [findFreeSlots], if it
    returns at all, returns no slots. *)
Lemma Part001_findFreeSlots_nonpositive (fuel : nat) (busy : list Interval)
    (dayStart dayEnd m : Z) (slots : list Interval) :
  m <= 0 -> Part001.findFreeSlots fuel busy dayStart dayEnd m = Some slots -> slots = [].
Proof.
  intros Hm. unfold Part001.findFreeSlots.
  assert (H : forall l pointer st,
             Loop.for_of (Part001.visit fuel m) l ([], pointer) = Some st -> fst st = []).
  { induction l as [|b l IH]; intros pointer st E; simpl in E.
    - now injection E as <-.
    - unfold Part001.visit at 1 in E.
      destruct (Part001.pack_while fuel (start b) m ([], pointer)) as [[fs p]|] eqn:Ep;
        [|discriminate].
      apply Part001_pack_while_nonpositive in Ep; [|assumption].
      injection Ep as -> ->. now apply IH in E. }
  destruct (Loop.for_of _ _ _) as [[fs p]|] eqn:E; [|discriminate].
  apply H in E. simpl in E. subst fs.
  destruct (Part001.pack_while fuel dayEnd m ([], p)) as [[fs' p']|] eqn:Ep; [|discriminate].
  apply Part001_pack_while_nonpositive in Ep; [|assumption].
  injection Ep as -> ->. intros E. now injection E as <-.
Qed.

(** src/unnamed/part_001: a request for a negative meeting length, starting on
    a working day with free time, never returns. *)
Lemma Part001_handler_spins_on_negative_length (fuel : nat) :
  let args := mkArgs None (Some (-30)) None None None None None None
                     (Some (Sample.utc Sample.wed 12 0)) None in
  snd (run Sample.provider_free
           (Part001.handleMeetingSuggestion Sample.host_sao_paulo 0 fuel args)) = None.
Proof.
  intros args. destruct fuel as [|fuel]; [reflexivity|].
  cbn [run snd]. unfold Part001.handleMeetingSuggestion. cbv zeta. cbn [run snd].
  unfold Sample.provider_free, Part001.walk. cbn [Loop.while].
  match goal with
  | |- context [Part001.cond ?N ?e ?w] =>
      replace (Part001.cond N e w) with true by (vm_compute; reflexivity)
  end.
  unfold Part001.body.
  match goal with
  | |- context [Part001.working_day ?z ?hol ?p] =>
      replace (Part001.working_day z hol p) with true by (vm_compute; reflexivity)
  end.
  unfold Part001.findFreeSlots.
  match goal with
  | |- context [Loop.for_of ?f ?l ?st] =>
      replace (Loop.for_of f l st) with (Some st) by (vm_compute; reflexivity)
  end.
  rewrite Part001_pack_while_spins; [reflexivity | vm_compute; discriminate |].
  vm_compute. discriminate.
Qed.

End NonPositive.



(** ** Reasoning about [while] loops *)

Section WhileFacts.
Context {St : Type}.
Variables (cond : St -> bool) (body : St -> option St).
Variable Inv : St -> Prop.
Hypothesis Inv_body :
  forall s s', Inv s -> cond s = true -> body s = Some s' -> Inv s'.

(** An invariant holds when the loop exits, and the condition is then false. *)
Lemma while_inv (fuel : nat) :
  forall s r, Inv s -> Loop.while fuel cond body s = Some r -> Inv r /\ cond r = false.
Proof.
  induction fuel as [|fuel IH]; intros s r Hs H; simpl in H; [discriminate|].
  destruct (cond s) eqn:Ec.
  - destruct (body s) as [s'|] eqn:Eb; [|discriminate].
    apply (IH s' r); [now apply (Inv_body s) | exact H].
  - injection H as <-. now split.
Qed.

(** An invariant holds each time the body is entered, and so does the
    condition. *)
Lemma entered_inv (fuel : nat) :
  forall s w, Inv s -> In w (Loop.entered fuel cond body s) -> Inv w /\ cond w = true.
Proof.
  induction fuel as [|fuel IH]; intros s w Hs H; simpl in H; [destruct H|].
  destruct (cond s) eqn:Ec; [|destruct H].
  destruct H as [<- | H]; [now split|].
  destruct (body s) as [s'|] eqn:Eb; [|destruct H].
  apply (IH s' w); [now apply (Inv_body s) | exact H].
Qed.

Variable measure : St -> nat.
Hypothesis body_decreases :
  forall s, Inv s -> cond s = true ->
            exists s', body s = Some s' /\ (measure s' < measure s)%nat.

(** A loop whose body returns and decreases a measure exits within
    [measure + 1] tests of its condition. *)
Lemma while_terminates (fuel : nat) :
  forall s, Inv s -> (measure s < fuel)%nat ->
            exists r, Loop.while fuel cond body s = Some r.
Proof.
  induction fuel as [|fuel IH]; intros s Hs Hf; [lia|]. simpl.
  destruct (cond s) eqn:Ec; [|now exists s].
  destruct (body_decreases s Hs Ec) as (s' & Eb & Hlt). rewrite Eb.
  apply IH; [now apply (Inv_body s) | lia].
Qed.

End WhileFacts.

(** ** The horizon of a walk *)

Section Horizon.
Import Time.

Lemma horizon_In (startDate endDate pointer : Z) :
  In pointer (horizon startDate endDate)
  <-> on_grid startDate pointer /\ pointer < endDate.
Proof.
  unfold horizon, on_grid, days_left, MS_PER_DAY. rewrite List.in_map_iff. split.
  - intros (k & <- & Hk). apply List.in_seq in Hk. split; [now exists k|].
    destruct (Z_lt_le_dec (startDate + Z.of_nat k * 86400000) endDate) as [|Hge];
      [assumption|exfalso].
    assert ((endDate - startDate + 86400000 - 1) / 86400000 < Z.of_nat k + 1)
      by (apply Z.div_lt_upper_bound; lia).
    lia.
  - intros ((k & ->) & Hlt). exists k. split; [reflexivity|]. apply List.in_seq.
    assert (Z.of_nat k + 1 <= (endDate - startDate + 86400000 - 1) / 86400000)
      by (apply Z.div_le_lower_bound; lia).
    lia.
Qed.

Lemma days_left_nil (pointer endDate : Z) :
  endDate <= pointer -> days_left pointer endDate = O.
Proof.
  intros H. unfold days_left, MS_PER_DAY.
  assert ((endDate - pointer + 86400000 - 1) / 86400000 < 1)
    by (apply Z.div_lt_upper_bound; lia).
  rewrite Z2Nat.nonpos by lia. reflexivity.
Qed.

Lemma days_left_cons (pointer endDate : Z) :
  pointer < endDate ->
  days_left pointer endDate = S (days_left (pointer + MS_PER_DAY) endDate).
Proof.
  intros H. unfold days_left, MS_PER_DAY.
  replace (endDate - pointer + 86400000 - 1)
    with (endDate - (pointer + 86400000) + 86400000 - 1 + 1 * 86400000) by lia.
  rewrite Z.div_add by lia.
  assert (0 <= (endDate - (pointer + 86400000) + 86400000 - 1) / 86400000)
    by (apply Z.div_pos; lia).
  lia.
Qed.

Lemma horizon_nil (pointer endDate : Z) :
  endDate <= pointer -> horizon pointer endDate = [].
Proof. intros H. unfold horizon. now rewrite days_left_nil. Qed.

Lemma horizon_cons (pointer endDate : Z) :
  pointer < endDate ->
  horizon pointer endDate = pointer :: horizon (pointer + MS_PER_DAY) endDate.
Proof.
  intros H. unfold horizon. rewrite (days_left_cons pointer endDate H).
  rewrite <- cons_seq, <- seq_shift. cbn [List.map]. rewrite List.map_map.
  f_equal; [lia|]. apply List.map_ext. intros k. lia.
Qed.

End Horizon.

(** ** The day-walk of src/unnamed/part_001 *)

Section Part001Walk.
Import Time.
Variable fuel : nat.
Variables z m ws we spd N : Z.
Variable hol : list string.
Variable busy : list Interval.
Variables endDate startDate : Z.

Local Abbreviation cond := (Part001.cond N endDate).
Local Abbreviation body := (Part001.body fuel z m ws we spd hol busy).
Local Abbreviation working w := (Part001.working_day z hol (dayPointer w)).

(** An eligible day: the counter goes up by one, whatever [findFreeSlots]
    returned. *)
Lemma Part001_body_working (w w' : Walk) :
  working w = true -> body w = Some w' ->
  daysWithSlotsFound w' = daysWithSlotsFound w + 1
  /\ dayPointer w' = dayPointer w + MS_PER_DAY.
Proof.
  unfold Part001.body. intros -> H.
  destruct (Part001.findFreeSlots _ _ _ _ _); [|discriminate].
  injection H as <-. simpl. unfold Luxon.plusDays. lia.
Qed.

(** A weekend day or bank holiday: only the pointer moves. *)
Lemma Part001_body_skip (w : Walk) :
  working w = false ->
  body w = Some (mkWalk (suggestions w) (daysWithSlotsFound w) (dayPointer w + MS_PER_DAY)).
Proof.
  unfold Part001.body. intros ->. reflexivity.
Qed.

(** The counter counts the eligible days examined. *)
Lemma Part001_counter_counts (n : nat) :
  forall s r,
    Loop.while n cond body s = Some r ->
    daysWithSlotsFound r
    = daysWithSlotsFound s
      + Z.of_nat (List.length (List.filter (fun w => working w)
                                           (Loop.entered n cond body s))).
Proof.
  induction n as [|n IH]; intros s r H; simpl in H |- *; [discriminate|].
  destruct (cond s) eqn:Ec.
  - destruct (body s) as [s'|] eqn:Eb; [|discriminate].
    simpl. rewrite (IH s' r H).
    destruct (working s) eqn:Ew.
    + destruct (Part001_body_working s s' Ew Eb) as [-> _]. simpl List.length. lia.
    + rewrite Part001_body_skip in Eb by assumption. injection Eb as <-. reflexivity.
  - injection H as <-. simpl. lia.
Qed.

(** The walk when [findFreeSlots] returns no slot on any day of the horizon. *)
Lemma Part001_walk_blocked :
  (forall p, In p (horizon startDate endDate) ->
             Part001.findFreeSlots fuel busy (Part001.dayStart z ws p)
                                   (Part001.dayEnd z we p) m = Some []) ->
  (days_left startDate endDate < fuel)%nat ->
  exists r,
    Part001.walk fuel z m ws we spd N hol busy endDate startDate = Some r
    /\ suggestions r = []
    /\ daysWithSlotsFound r
       = Z.of_nat (List.length (Part001_eligible_examined fuel z m ws we spd N hol busy
                                                          endDate startDate))
    /\ (daysWithSlotsFound r = Z.max 0 N \/ endDate <= dayPointer r).
Proof.
  intros Hblocked Hfuel. unfold Part001.walk, Part001_examined.
  set (Inv := fun w : Walk =>
                suggestions w = [] /\ on_grid startDate (dayPointer w)
                /\ 0 <= daysWithSlotsFound w <= Z.max 0 N).
  assert (Hstep : forall s, Inv s -> cond s = true ->
                    exists s', body s = Some s' /\ Inv s'
                               /\ dayPointer s' = dayPointer s + MS_PER_DAY).
  { intros s (Hs & (k & Hk) & Hc) Ec. unfold Part001.cond in Ec.
    apply andb_true_iff in Ec. destruct Ec as [Ec1 Ec2].
    apply Z.ltb_lt in Ec1, Ec2.
    assert (Hgrid : on_grid startDate (dayPointer s + MS_PER_DAY)).
    { exists (S k). rewrite Hk. lia. }
    destruct (working s) eqn:Ew.
    - unfold Part001.body. rewrite Ew, Hblocked
        by (apply horizon_In; split; [now exists k | assumption]).
      eexists. split; [reflexivity|]. unfold Inv, Luxon.plusDays.
      cbn [suggestions daysWithSlotsFound dayPointer]. rewrite Hs.
      replace (dayPointer s + 1 * MS_PER_DAY) with (dayPointer s + MS_PER_DAY) by lia.
      repeat split; (assumption || lia || reflexivity).
    - rewrite Part001_body_skip by assumption.
      eexists. split; [reflexivity|]. unfold Inv.
      cbn [suggestions daysWithSlotsFound dayPointer].
      repeat split; (assumption || lia). }
  assert (Hinit : Inv (Part001.init startDate)).
  { unfold Inv, Part001.init. simpl. repeat split; try lia. exists O. simpl. lia. }
  destruct (while_terminates cond body Inv
              ltac:(intros s s' Hs Ec Eb; destruct (Hstep s Hs Ec) as (s2 & E2 & H2 & _);
                    congruence)
              (fun w => days_left (dayPointer w) endDate)
              ltac:(intros s Hs Ec; destruct (Hstep s Hs Ec) as (s' & Eb & _ & Hp);
                    exists s'; split; [exact Eb|];
                    unfold Part001.cond in Ec; apply andb_true_iff in Ec;
                    destruct Ec as [_ Ec]; apply Z.ltb_lt in Ec;
                    rewrite Hp, (days_left_cons (dayPointer s) endDate Ec); lia)
              fuel (Part001.init startDate) Hinit Hfuel) as [r Hr].
  exists r. split; [exact Hr|].
  destruct (while_inv cond body Inv
              ltac:(intros s s' Hs Ec Eb; destruct (Hstep s Hs Ec) as (s2 & E2 & H2 & _);
                    congruence)
              fuel _ r Hinit Hr) as ((Hs & _ & Hc) & Ec).
  split; [exact Hs|]. split.
  - rewrite (Part001_counter_counts fuel _ r Hr). reflexivity.
  - unfold Part001.cond in Ec. apply andb_false_iff in Ec.
    destruct Ec as [Ec | Ec]; [apply Z.ltb_ge in Ec; left; lia | apply Z.ltb_ge in Ec; now right].
Qed.

(** No day at or after [endDate] is examined, and none before [startDate]. *)
Lemma Part001_examined_before_endDate (n : nat) (w : Walk) :
  In w (Part001_examined fuel z m ws we spd N hol busy endDate startDate n) ->
  startDate <= dayPointer w < endDate.
Proof.
  intros H.
  destruct (entered_inv cond body (fun w => startDate <= dayPointer w)) with (fuel := n)
    (s := Part001.init startDate) (w := w) as [Hinv Hc].
  - intros s s' Hs _ Eb. unfold Part001.body in Eb.
    destruct (Part001.working_day _ _ _);
      [destruct (Part001.findFreeSlots _ _ _ _ _); [|discriminate]|];
      injection Eb as <-; simpl; unfold Luxon.plusDays, MS_PER_DAY; lia.
  - simpl. lia.
  - exact H.
  - unfold Part001.cond in Hc. apply andb_true_iff in Hc. destruct Hc as [_ Hc].
    apply Z.ltb_lt in Hc. lia.
Qed.

End Part001Walk.

(** ** The day-walk of src/index.ts and src/unnamed/part_000 *)

Section DateWalkFacts.
Import Time.
Variable ffs : list Interval -> Z -> Z -> Z -> option (list Interval).
Variables h m ws we spd N : Z.
Variable hol : list string.
Variable busy : list Interval.
Variables endDate startDate : Z.

Local Abbreviation cond := (DateWalk.cond N endDate).
Local Abbreviation body := (DateWalk.body ffs h m ws we spd hol busy).
Local Abbreviation working w := (DateWalk.working_day h hol (dayPointer w)).
Local Abbreviation slots_of w :=
  (ffs busy (DateWalk.dayStart h ws (dayPointer w)) (DateWalk.dayEnd h we (dayPointer w)) m).

(** An eligible day: the counter goes up only if [findFreeSlots] returned at
    least one slot. *)
Lemma DateWalk_body_working (w w' : Walk) :
  working w = true -> body w = Some w' ->
  daysWithSlotsFound w'
  = daysWithSlotsFound w + match slots_of w with Some (_ :: _) => 1 | _ => 0 end
  /\ dayPointer w' = dayPointer w + MS_PER_DAY.
Proof.
  unfold DateWalk.body. intros -> H.
  destruct (ffs _ _ _ _) as [[|s l]|]; [| |discriminate];
    injection H as <-; simpl; unfold JsDate.addDays; lia.
Qed.

(** A weekend day or bank holiday: only the pointer moves. *)
Lemma DateWalk_body_skip (w : Walk) :
  working w = false ->
  body w = Some (mkWalk (suggestions w) (daysWithSlotsFound w) (dayPointer w + MS_PER_DAY)).
Proof. unfold DateWalk.body. intros ->. reflexivity. Qed.

(** A day on which [findFreeSlots] returns no slot: only the pointer moves. *)
Lemma DateWalk_body_blocked (w : Walk) :
  slots_of w = Some [] ->
  body w = Some (mkWalk (suggestions w) (daysWithSlotsFound w) (dayPointer w + MS_PER_DAY)).
Proof.
  unfold DateWalk.body. intros ->. now destruct (DateWalk.working_day _ _ _).
Qed.

(** The walk when [findFreeSlots] returns no slot on any day of the horizon:
    the counter never moves, so with [daysToSearch > 0] every day of the
    horizon is examined. *)
Lemma DateWalk_walk_blocked_from (k : nat) :
  forall (pointer : Z) (n : nat),
    0 < N ->
    (forall p, In p (horizon pointer endDate) ->
               ffs busy (DateWalk.dayStart h ws p) (DateWalk.dayEnd h we p) m = Some []) ->
    k = days_left pointer endDate -> (k < n)%nat ->
    Loop.while n cond body (mkWalk [] 0 pointer)
    = Some (mkWalk [] 0 (pointer + Z.of_nat k * MS_PER_DAY))
    /\ List.map dayPointer (Loop.entered n cond body (mkWalk [] 0 pointer))
       = horizon pointer endDate.
Proof.
  induction k as [|k IH]; intros pointer n HN Hblocked Hk Hn;
    (destruct n as [|n]; [lia|]); cbn [Loop.while Loop.entered];
    destruct (Z_lt_le_dec pointer endDate) as [Hlt|Hge];
    try (rewrite (days_left_cons pointer endDate Hlt) in Hk; (discriminate || injection Hk as Hk));
    try (rewrite (days_left_nil pointer endDate Hge) in Hk; try discriminate).
  - assert (Ec : cond (mkWalk [] 0 pointer) = false).
    { unfold DateWalk.cond. simpl. apply andb_false_iff. right. now apply Z.ltb_ge. }
    rewrite Ec, horizon_nil by assumption.
    split; [do 2 f_equal; lia | reflexivity].
  - assert (Ec : cond (mkWalk [] 0 pointer) = true).
    { unfold DateWalk.cond. simpl. apply andb_true_iff. split; now apply Z.ltb_lt. }
    rewrite Ec. rewrite horizon_cons in Hblocked |- * by assumption.
    rewrite DateWalk_body_blocked by (apply Hblocked; now left).
    cbn [suggestions daysWithSlotsFound dayPointer List.map].
    destruct (IH (pointer + MS_PER_DAY) n HN) as [E1 E2];
      [intros p Hp; apply Hblocked; now right | assumption | lia |].
    rewrite E1, E2. split; [do 2 f_equal; lia | reflexivity].
Qed.

(** No day at or after [endDate] is examined, and none before [startDate]. *)
Lemma DateWalk_examined_before_endDate (n : nat) (w : Walk) :
  In w (DateWalk_examined ffs h m ws we spd N hol busy endDate startDate n) ->
  startDate <= dayPointer w < endDate.
Proof.
  intros H.
  destruct (entered_inv cond body (fun w => startDate <= dayPointer w)) with (fuel := n)
    (s := DateWalk.init startDate) (w := w) as [Hinv Hc].
  - intros s s' Hs _ Eb. unfold DateWalk.body in Eb.
    destruct (DateWalk.working_day _ _ _);
      [destruct (ffs _ _ _ _) as [[|? ?]|]; [| |discriminate]|];
      injection Eb as <-; simpl; unfold JsDate.addDays, MS_PER_DAY; lia.
  - simpl. lia.
  - exact H.
  - unfold DateWalk.cond in Hc. apply andb_true_iff in Hc. destruct Hc as [_ Hc].
    apply Z.ltb_lt in Hc. lia.
Qed.

End DateWalkFacts.

(** ** Claims about the counter [daysWithSlotsFound] *)

(** C1, counterexample.  src/index.ts, process in America/Sao_Paulo, walk from
    Wednesday 2025-01-15 over seven days with [daysToSearch = 1] and a
    calendar that is busy all along: the first day is eligible and the
    counter is not incremented on it; five eligible days are examined, not
    one. *)
Lemma IndexTs_blocked_day_is_not_counted :
  let ffs := fun b s e m => Some (IndexTs.findFreeSlots b s e m) in
  let h := hostOffset Sample.host_sao_paulo in
  let startDate := Sample.utc Sample.wed 3 0 in
  let endDate := JsDate.addDays startDate 7 in
  let w := DateWalk.init startDate in
  DateWalk.working_day h [] (dayPointer w) = true
  /\ (exists w', DateWalk.body ffs h 60 9 17 1 [] Sample.busy_all_along w = Some w'
                 /\ daysWithSlotsFound w' <> daysWithSlotsFound w + 1)
  /\ List.length (DateWalk_eligible_examined ffs h 60 9 17 1 1 [] Sample.busy_all_along
                    endDate startDate 100) = 5%nat
  /\ DateWalk.walk ffs h 60 9 17 1 1 [] Sample.busy_all_along endDate 100 startDate
     = Some (mkWalk [] 0 endDate).
Proof.
  intros ffs h startDate endDate w.
  split; [reflexivity|]. split; [|split; reflexivity].
  eexists. split; [vm_compute; reflexivity|]. vm_compute. discriminate.
Qed.

(** C1, as the code has it.  In src/unnamed/part_001 the counter goes up by
    exactly one on every eligible day examined, whether or not
    [findFreeSlots] produced slots; when it produces none on any day of the
    horizon, the walk returns no suggestion, its counter equals the number of
    eligible days examined, and it stops with the counter at [daysToSearch]
    unless the horizon ends first.  In src/index.ts and src/unnamed/part_000
    (whose walks are [DateWalk] over their own [findFreeSlots]) the counter
    goes up on an eligible day only if [findFreeSlots] returned a slot; when
    it returns none on any day of the horizon and [daysToSearch > 0], the
    counter stays 0, every day of the horizon is examined and no suggestion
    is returned. *)
Theorem daysWithSlotsFound_counting
    (fuel n : nat) (ffs : list Interval -> Z -> Z -> Z -> option (list Interval))
    (z h m ws we spd N : Z) (hol : list string) (busy : list Interval)
    (endDate startDate : Z) :
  (forall w w',
      Part001.working_day z hol (dayPointer w) = true ->
      Part001.body fuel z m ws we spd hol busy w = Some w' ->
      daysWithSlotsFound w' = daysWithSlotsFound w + 1)
  /\ ((forall p, In p (horizon startDate endDate) ->
                 Part001.findFreeSlots fuel busy (Part001.dayStart z ws p)
                                       (Part001.dayEnd z we p) m = Some []) ->
      (days_left startDate endDate < fuel)%nat ->
      exists r,
        Part001.walk fuel z m ws we spd N hol busy endDate startDate = Some r
        /\ suggestions r = []
        /\ daysWithSlotsFound r
           = Z.of_nat (List.length (Part001_eligible_examined fuel z m ws we spd N hol busy
                                                              endDate startDate))
        /\ (daysWithSlotsFound r = Z.max 0 N \/ endDate <= dayPointer r))
  /\ (forall w w',
      DateWalk.working_day h hol (dayPointer w) = true ->
      DateWalk.body ffs h m ws we spd hol busy w = Some w' ->
      daysWithSlotsFound w'
      = daysWithSlotsFound w
        + match ffs busy (DateWalk.dayStart h ws (dayPointer w))
                    (DateWalk.dayEnd h we (dayPointer w)) m with
          | Some (_ :: _) => 1
          | _ => 0
          end)
  /\ (0 < N ->
      (forall p, In p (horizon startDate endDate) ->
                 ffs busy (DateWalk.dayStart h ws p) (DateWalk.dayEnd h we p) m = Some []) ->
      (days_left startDate endDate < n)%nat ->
      DateWalk.walk ffs h m ws we spd N hol busy endDate n startDate
      = Some (mkWalk [] 0 (startDate
                           + Z.of_nat (days_left startDate endDate) * Time.MS_PER_DAY))
      /\ List.map dayPointer
           (DateWalk_examined ffs h m ws we spd N hol busy endDate startDate n)
         = horizon startDate endDate).
Proof.
  split; [|split; [|split]].
  - intros w w' Hw Hb. now destruct (Part001_body_working _ _ _ _ _ _ _ _ w w' Hw Hb).
  - intros Hblocked Hfuel. now apply Part001_walk_blocked.
  - intros w w' Hw Hb. now destruct (DateWalk_body_working _ _ _ _ _ _ _ _ w w' Hw Hb).
  - intros HN Hblocked Hn.
    now apply (DateWalk_walk_blocked_from ffs h m ws we spd N hol busy endDate
                 (days_left startDate endDate) startDate n).
Qed.

Lemma daysWithSlotsFound_counting_witness :
  let z := Sample.zones "America/Sao_Paulo" in
  let startDate := Sample.utc Sample.wed 3 0 in
  (exists r,
      Part001.walk 1000 z 60 9 17 1 3 [] Sample.busy_all_along
                   (Luxon.endOfDay z (Luxon.plusDays startDate 7)) startDate = Some r
      /\ suggestions r = []
      /\ daysWithSlotsFound r = 3)
  /\ DateWalk.walk (Part000.findFreeSlots 1000) z 60 9 17 1 3 [] Sample.busy_all_along
                   (JsDate.addDays startDate 7) 100 startDate
     = Some (mkWalk [] 0 (JsDate.addDays startDate 7)).
Proof.
  intros z startDate.
  pose proof (daysWithSlotsFound_counting 1000 100 (Part000.findFreeSlots 1000)
                z z 60 9 17 1 3 [] Sample.busy_all_along
                (Luxon.endOfDay z (Luxon.plusDays startDate 7)) startDate)
    as (_ & H2 & _ & _).
  pose proof (daysWithSlotsFound_counting 1000 100 (Part000.findFreeSlots 1000)
                z z 60 9 17 1 3 [] Sample.busy_all_along
                (JsDate.addDays startDate 7) startDate)
    as (_ & _ & _ & H4).
  split.
  - destruct H2 as (r & Hr & Hs & Hc & _).
    + intros p Hp. vm_compute in Hp.
      repeat (destruct Hp as [<- | Hp]; [vm_compute; reflexivity|]). destruct Hp.
    + vm_compute. lia.
    + exists r. split; [exact Hr|]. split; [exact Hs|]. rewrite Hc. reflexivity.
  - destruct H4 as [Hw _].
    + reflexivity.
    + intros p Hp. vm_compute in Hp.
      repeat (destruct Hp as [<- | Hp]; [vm_compute; reflexivity|]). destruct Hp.
    + vm_compute. lia.
    + rewrite Hw. reflexivity.
Defined.

(** ** Claims about the horizon *)

Section HorizonEnd.
Import Time.

Lemma local_day_midnight_of (z d : Z) : local_day z (midnight_of z d) = d.
Proof.
  unfold local_day, midnight_of, MS_PER_DAY.
  replace (d * 86400000 - z + z) with (d * 86400000) by lia.
  now rewrite Z.div_mul by lia.
Qed.

Lemma local_day_plus_days (z t k : Z) :
  local_day z (t + k * MS_PER_DAY) = local_day z t + k.
Proof.
  unfold local_day, MS_PER_DAY.
  replace (t + k * 86400000 + z) with (t + z + k * 86400000) by lia.
  now rewrite Z.div_add by lia.
Qed.

(** src/index.ts and src/unnamed/part_000: [endDate] is [startDate] plus
    [maxDaysToLookAhead] days, and the walk examines no day at or after it. *)
Lemma DateWalk_horizon_end_exclusive
    (ffs : list Interval -> Z -> Z -> Z -> option (list Interval))
    (h m ws we spd N : Z) (hol : list string) (busy : list Interval)
    (startDate maxDaysToLookAhead : Z) (n : nat) (w : Walk) :
  In w (DateWalk_examined ffs h m ws we spd N hol busy
          (JsDate.addDays startDate maxDaysToLookAhead) startDate n) ->
  startDate <= dayPointer w < startDate + maxDaysToLookAhead * MS_PER_DAY.
Proof. apply DateWalk_examined_before_endDate. Qed.

(** src/unnamed/part_001: [endDate] is the last millisecond of the day
    [startDate] plus [maxDaysToLookAhead] days. *)
Lemma Part001_endDate_eq (host : Host) (tz : string) (now : Z) (sd : option Z)
    (maxDaysToLookAhead : Z) :
  let z := zoneOffset host tz in
  let startDate := Part001.resolveStartDate host tz now sd in
  Luxon.endOfDay z (Luxon.plusDays startDate maxDaysToLookAhead)
  = startDate + (maxDaysToLookAhead + 1) * MS_PER_DAY - 1.
Proof.
  intros z startDate. unfold Luxon.endOfDay, Luxon.plusDays, start_of_day.
  rewrite local_day_plus_days.
  assert (E : startDate = midnight_of z (local_day z startDate)).
  { unfold startDate, Part001.resolveStartDate, Luxon.startOfDay, start_of_day.
    fold z. destruct sd; now rewrite local_day_midnight_of. }
  rewrite E at 2. unfold midnight_of, MS_PER_DAY. lia.
Qed.

(** src/unnamed/part_001: the walk examines no day at or after [startDate]
    plus [maxDaysToLookAhead + 1] days. *)
Lemma Part001_horizon_one_day_longer
    (host : Host) (tz : string) (now : Z) (sd : option Z)
    (fuel : nat) (m ws we spd N : Z) (hol : list string) (busy : list Interval)
    (maxDaysToLookAhead : Z) (n : nat) (w : Walk) :
  let z := zoneOffset host tz in
  let startDate := Part001.resolveStartDate host tz now sd in
  In w (Part001_examined fuel z m ws we spd N hol busy
          (Luxon.endOfDay z (Luxon.plusDays startDate maxDaysToLookAhead)) startDate n) ->
  startDate <= dayPointer w < startDate + (maxDaysToLookAhead + 1) * MS_PER_DAY.
Proof.
  intros z startDate H. apply Part001_examined_before_endDate in H.
  unfold z, startDate in H. rewrite Part001_endDate_eq in H. fold startDate in H. lia.
Qed.

End HorizonEnd.

(** C6.  The claim asks that no day at or after [startDate] plus
    [maxDaysToLookAhead] days be examined.  src/index.ts and
    src/unnamed/part_000 keep it ([DateWalk_horizon_end_exclusive]).
    src/unnamed/part_001 sets [endDate] to the end of that day instead, and
    examines it: for a start date on Wednesday 2025-01-15 (America/Sao_Paulo),
    [maxDaysToLookAhead = 1] and a free calendar it examines 15 January and
    16 January, and suggests a slot on each; src/index.ts, for the same
    request, examines and suggests 15 January only. *)
Theorem Part001_examines_the_day_at_the_horizon_end :
  let host := Sample.host_sao_paulo in
  let z := Sample.zones "America/Sao_Paulo" in
  let args := mkArgs None None None None None None None None
                     (Some (Sample.utc Sample.wed 12 0)) (Some 1) in
  let startDate := Part001.resolveStartDate host "America/Sao_Paulo" 0 (startDate args) in
  let horizonEnd := startDate + 1 * Time.MS_PER_DAY in
  startDate = Sample.utc Sample.wed 3 0
  /\ List.map dayPointer
       (Part001_examined 1000 z 60 9 17 1 3 [] []
          (Luxon.endOfDay z (Luxon.plusDays startDate 1)) startDate 1000)
     = [startDate; horizonEnd]
  /\ run Sample.provider_free (Part001.handleMeetingSuggestion host 0 1000 args)
     = ([mkQuery startDate (horizonEnd + Time.MS_PER_DAY - 1)
                 (Some "America/Sao_Paulo"%string) ["primary"%string]],
        Some (Content [mkInterval (Sample.utc Sample.wed 12 0) (Sample.utc Sample.wed 13 0);
                       mkInterval (Sample.utc (Sample.wed + 1) 12 0)
                                  (Sample.utc (Sample.wed + 1) 13 0)]))
  /\ run Sample.provider_free (IndexTs.handleMeetingSuggestion host 0 1000 args)
     = ([mkQuery startDate horizonEnd (Some "America/Sao_Paulo"%string) ["primary"%string]],
        Some (Content [mkInterval (Sample.utc Sample.wed 12 0) (Sample.utc Sample.wed 13 0)])).
Proof.
  intros host z args startDate horizonEnd.
  split; [reflexivity|]. split; [|split]; vm_compute; reflexivity.
Qed.

(** ** Claims about the start date *)

(** src/unnamed/part_001 resolves the start date as specified. *)
Lemma Part001_resolveStartDate_as_specified
    (host : Host) (tz : string) (now : Z) (explicit : option Z) :
  Part001.resolveStartDate host tz now explicit
  = specified_start_date (zoneOffset host tz) now explicit.
Proof.
  unfold Part001.resolveStartDate, specified_start_date, Luxon.startOfDay,
    Luxon.plusDays, Time.start_of_day.
  destruct explicit; [reflexivity|]. now rewrite local_day_plus_days.
Qed.

(** The specified start date is a local midnight of the request zone. *)
Lemma specified_start_date_is_local_midnight (z now : Z) (explicit : option Z) :
  Time.start_of_day z (specified_start_date z now explicit)
  = specified_start_date z now explicit.
Proof.
  unfold Time.start_of_day, specified_start_date.
  destruct explicit; now rewrite local_day_midnight_of.
Qed.

(** Rounding an instant down to the second does not change its day. *)
Lemma local_day_whole_seconds (x : Z) :
  x / Time.MS_PER_SECOND * Time.MS_PER_SECOND / Time.MS_PER_DAY = x / Time.MS_PER_DAY.
Proof.
  unfold Time.MS_PER_SECOND, Time.MS_PER_DAY.
  change 86400000 with (1000 * 86400).
  rewrite <- Z.div_div by lia. rewrite Z.div_mul by lia.
  now rewrite Z.div_div by lia.
Qed.

(** src/index.ts and src/unnamed/part_000 resolve the start date as specified
    when the process runs in the request zone. *)
Lemma Date_variants_resolve_as_specified_in_the_request_zone
    (host : Host) (tz : string) (now : Z) (explicit : option Z) :
  hostOffset host = zoneOffset host tz ->
  IndexTs.resolveStartDate host tz now explicit
  = specified_start_date (zoneOffset host tz) now explicit
  /\ Part000.resolveStartDate host tz now explicit
     = specified_start_date (zoneOffset host tz) now explicit.
Proof.
  intros E.
  unfold IndexTs.resolveStartDate, Part000.resolveStartDate, specified_start_date,
    JsDate.setHours, JsDate.addDays, JsDate.viaLocaleString, Time.start_of_day.
  rewrite E. set (z := zoneOffset host tz).
  assert (Hday : forall t k,
             Time.local_day z ((t + z) / Time.MS_PER_SECOND * Time.MS_PER_SECOND - z
                               + k * Time.MS_PER_DAY)
             = Time.local_day z t + k).
  { intros t k. rewrite local_day_plus_days. unfold Time.local_day.
    replace ((t + z) / Time.MS_PER_SECOND * Time.MS_PER_SECOND - z + z)
      with ((t + z) / Time.MS_PER_SECOND * Time.MS_PER_SECOND) by lia.
    now rewrite local_day_whole_seconds. }
  destruct explicit as [d|]; split.
  - rewrite Hday. unfold Time.midnight_of. lia.
  - lia.
  - rewrite Hday. unfold Time.midnight_of. lia.
  - rewrite Hday. unfold Time.midnight_of. lia.
Qed.

(** C7.  The claim asks for local midnight in the request timezone.
    src/unnamed/part_001 computes it ([Part001_resolveStartDate_as_specified]).
    src/index.ts and src/unnamed/part_000 call [setHours(0, 0, 0, 0)], which
    is midnight in the zone of the process.  Process in UTC, request zone
    America/Sao_Paulo, instant 2025-01-15T01:30Z (22:30 on 14 January in Sao
    Paulo): as explicit start date the specified result is 2025-01-14T03:00Z,
    src/index.ts gives 2025-01-14T00:00Z and src/unnamed/part_000
    2025-01-15T00:00Z; as current time (no start date) the specified result
    is 2025-01-15T03:00Z and both give 2025-01-15T00:00Z. *)
Theorem Date_variants_resolve_to_process_local_midnight :
  let host := Sample.host_utc in
  let tz := "America/Sao_Paulo"%string in
  let t := Sample.utc Sample.wed 1 30 in
  (specified_start_date (zoneOffset host tz) 0 (Some t) = Sample.utc (Sample.wed - 1) 3 0
   /\ Part001.resolveStartDate host tz 0 (Some t) = Sample.utc (Sample.wed - 1) 3 0
   /\ IndexTs.resolveStartDate host tz 0 (Some t) = Sample.utc (Sample.wed - 1) 0 0
   /\ Part000.resolveStartDate host tz 0 (Some t) = Sample.utc Sample.wed 0 0)
  /\ (specified_start_date (zoneOffset host tz) t None = Sample.utc Sample.wed 3 0
      /\ Part001.resolveStartDate host tz t None = Sample.utc Sample.wed 3 0
      /\ IndexTs.resolveStartDate host tz t None = Sample.utc Sample.wed 0 0
      /\ Part000.resolveStartDate host tz t None = Sample.utc Sample.wed 0 0).
Proof. intros host tz t. repeat split; reflexivity. Qed.

(** ** Claims about skipped days *)

Section Skipping.
Import Time.

(** Luxon weekdays run from 1 (Monday) to 7 (Sunday). *)
Lemma Luxon_weekday_range (z t : Z) : 1 <= Luxon.weekday z t <= 7.
Proof.
  unfold Luxon.weekday. pose proof (Z.mod_pos_bound (local_day z t + 3) 7). lia.
Qed.

(** src/unnamed/part_001: a Saturday (6), a Sunday (7) or a day whose date in
    the request zone is a listed bank holiday is skipped: the pointer moves
    to the next day, the counter and the suggestions are unchanged. *)
Lemma Part001_skips_weekends_and_holidays
    (fuel : nat) (z m ws we spd : Z) (hol : list string) (busy : list Interval)
    (w : Walk) :
  Luxon.weekday z (dayPointer w) = 6 \/ Luxon.weekday z (dayPointer w) = 7
  \/ Js.includes hol (Luxon.toISODate z (dayPointer w)) = true ->
  Part001.body fuel z m ws we spd hol busy w
  = Some (mkWalk (suggestions w) (daysWithSlotsFound w) (dayPointer w + MS_PER_DAY)).
Proof.
  intros H. apply Part001_body_skip. unfold Part001.working_day.
  apply andb_false_iff.
  destruct H as [H | [H | H]];
    [left; apply Z.ltb_ge; lia | left; apply Z.ltb_ge; lia | right; now rewrite H].
Qed.

(** src/index.ts and src/unnamed/part_000: a Sunday (0), a Saturday (6) or a
    day whose date in UTC is a listed bank holiday is skipped. *)
Lemma DateWalk_skips_weekends_and_UTC_holidays
    (ffs : list Interval -> Z -> Z -> Z -> option (list Interval))
    (h m ws we spd : Z) (hol : list string) (busy : list Interval) (w : Walk) :
  JsDate.getDay h (dayPointer w) = 0 \/ JsDate.getDay h (dayPointer w) = 6
  \/ Js.includes hol (JsDate.toISODate (dayPointer w)) = true ->
  DateWalk.body ffs h m ws we spd hol busy w
  = Some (mkWalk (suggestions w) (daysWithSlotsFound w) (dayPointer w + MS_PER_DAY)).
Proof.
  intros H. apply DateWalk_body_skip. unfold DateWalk.working_day.
  destruct H as [H | [H | H]]; rewrite H; simpl;
    [reflexivity | reflexivity | now rewrite andb_false_r].
Qed.

(** 2025-01-15 was a Wednesday, 2025-01-18 a Saturday, in both numberings. *)
Example weekdays_of_mid_January_2025 :
  JsDate.getDay 0 (Sample.utc Sample.wed 0 0) = 3
  /\ Luxon.weekday 0 (Sample.utc Sample.wed 0 0) = 3
  /\ JsDate.getDay 0 (Sample.utc (Sample.wed + 3) 0 0) = 6
  /\ Luxon.weekday 0 (Sample.utc (Sample.wed + 3) 0 0) = 6
  /\ JsDate.toISODate (Sample.utc (Sample.wed + 3) 0 0) = "2025-01-18"%string.
Proof. repeat split; reflexivity. Qed.

(** src/index.ts and src/unnamed/part_000 keep the day pointer at a local
    midnight of the process.  West of UTC, or in UTC, the UTC date of that
    instant is the local date; east of UTC it is the date of the day before. *)
Lemma UTC_date_of_local_midnight_west (h d : Z) :
  - MS_PER_DAY < h <= 0 -> local_day 0 (midnight_of h d) = d.
Proof.
  intros Hh. unfold local_day, midnight_of, MS_PER_DAY in *.
  replace (d * 86400000 - h + 0) with (d * 86400000 + - h) by lia.
  rewrite Z.div_add_l by lia. rewrite Z.div_small by lia. lia.
Qed.

Lemma UTC_date_of_local_midnight_east (h d : Z) :
  0 < h <= MS_PER_DAY -> local_day 0 (midnight_of h d) = d - 1.
Proof.
  intros Hh. unfold local_day, midnight_of, MS_PER_DAY in *.
  replace (d * 86400000 - h + 0) with ((d - 1) * 86400000 + (86400000 - h)) by lia.
  rewrite Z.div_add_l by lia. rewrite Z.div_small by lia. lia.
Qed.

(** The day pointer of src/index.ts and src/unnamed/part_000 stays at a local
    midnight of the process: it starts at one and moves by whole days. *)
Lemma DateWalk_pointer_at_local_midnight
    (ffs : list Interval -> Z -> Z -> Z -> option (list Interval))
    (h m ws we spd N : Z) (hol : list string) (busy : list Interval)
    (endDate t : Z) (n : nat) (w : Walk) :
  In w (DateWalk_examined ffs h m ws we spd N hol busy endDate (JsDate.setHours h t 0) n) ->
  dayPointer w = midnight_of h (local_day h (dayPointer w)).
Proof.
  intros H.
  destruct (entered_inv (DateWalk.cond N endDate) (DateWalk.body ffs h m ws we spd hol busy)
              (fun w => dayPointer w = midnight_of h (local_day h (dayPointer w))))
    with (fuel := n) (s := DateWalk.init (JsDate.setHours h t 0)) (w := w) as [Hinv _].
  - intros s s' Hs _ Eb.
    assert (Hp : dayPointer s' = dayPointer s + 1 * MS_PER_DAY).
    { unfold DateWalk.body in Eb.
      destruct (DateWalk.working_day _ _ _);
        [destruct (ffs _ _ _ _) as [[|? ?]|]; [| |discriminate]|];
        injection Eb as <-; reflexivity. }
    rewrite Hp, local_day_plus_days. rewrite Hs at 1. unfold midnight_of. lia.
  - simpl. unfold JsDate.setHours, start_of_day. rewrite Z.add_0_r.
    now rewrite local_day_midnight_of.
  - exact H.
  - exact Hinv.
Qed.

End Skipping.

(** C8.  The claim asks that a day whose date in the request timezone is a
    listed bank holiday be skipped.  src/unnamed/part_001 does so
    ([Part001_skips_weekends_and_holidays]).  src/index.ts and
    src/unnamed/part_000 compare the holidays with
    [dayPointer.toISOString().split('T')[0]], the date in UTC of local
    midnight.  Process and request in Asia/Karachi (UTC+5), bank holiday
    2025-01-15, walk starting that Wednesday: local midnight is 19:00Z on
    14 January, so the date compared is 2025-01-14, the holiday is not
    skipped, its counter is incremented and a slot on it is suggested;
    src/unnamed/part_001 suggests the first slot on 16 January. *)
Theorem Date_variants_do_not_skip_a_bank_holiday_east_of_UTC :
  let host := Sample.host_karachi in
  let h := hostOffset host in
  let holidays := ["2025-01-15"%string] in
  let args := mkArgs None None None None (Some "Asia/Karachi"%string) None (Some 1)
                     (Some holidays) (Some (Sample.utc (Sample.wed - 1) 19 0)) None in
  let w := DateWalk.init (IndexTs.resolveStartDate host "Asia/Karachi" 0 (startDate args)) in
  dayPointer w = Sample.utc (Sample.wed - 1) 19 0
  /\ Luxon.toISODate h (dayPointer w) = "2025-01-15"%string
  /\ JsDate.toISODate (dayPointer w) = "2025-01-14"%string
  /\ DateWalk.working_day h holidays (dayPointer w) = true
  /\ DateWalk.body (fun b s e m => Some (IndexTs.findFreeSlots b s e m))
                   h 60 9 17 1 holidays [] w
     = Some (mkWalk [mkInterval (Sample.utc Sample.wed 4 0) (Sample.utc Sample.wed 5 0)]
                    1 (Sample.utc Sample.wed 19 0))
  /\ snd (run Sample.provider_free (IndexTs.handleMeetingSuggestion host 0 1000 args))
     = Some (Content [mkInterval (Sample.utc Sample.wed 4 0) (Sample.utc Sample.wed 5 0)])
  /\ snd (run Sample.provider_free (Part000.handleMeetingSuggestion host 0 1000 args))
     = Some (Content [mkInterval (Sample.utc Sample.wed 4 0) (Sample.utc Sample.wed 5 0)])
  /\ snd (run Sample.provider_free (Part001.handleMeetingSuggestion host 0 1000 args))
     = Some (Content [mkInterval (Sample.utc (Sample.wed + 1) 4 0)
                                 (Sample.utc (Sample.wed + 1) 5 0)]).
Proof.
  intros host h holidays args w. repeat split; vm_compute; reflexivity.
Qed.

(** ** Claims about the handler as a whole *)

(** A calendar that is busy all along: the three handlers send their query
    and return no suggestion. *)
Example handlers_on_a_blocked_calendar (v : Variant) :
  let args := mkArgs None None None None None None (Some 2) None
                     (Some (Sample.utc Sample.wed 12 0)) (Some 7) in
  snd (run Sample.provider_blocked (handler v Sample.host_sao_paulo 0 1000 args))
  = Some (Content []).
Proof. destruct v; vm_compute; reflexivity. Qed.

(** C5, counterexample.  Two requests for Wednesday 2025-01-15, one day to
    search, free calendar.  With an empty calendar list, each handler sends
    the free/busy query with no calendar in it and returns a suggestion, not
    an error.  With a meeting length of -30, each handler sends the query for
    ["primary"] and none returns an error: src/index.ts suggests the slot
    that ends thirty minutes before it starts, src/unnamed/part_000 suggests
    nothing, src/unnamed/part_001 does not return. *)
Lemma handlers_query_without_validating :
  let host := Sample.host_sao_paulo in
  let no_calendar := mkArgs (Some []) None None None None None (Some 1) None
                            (Some (Sample.utc Sample.wed 12 0)) (Some 1) in
  let negative := mkArgs None (Some (-30)) None None None None (Some 1) None
                         (Some (Sample.utc Sample.wed 12 0)) (Some 1) in
  (forall v, exists q suggestion,
      run Sample.provider_free (handler v host 0 1000 no_calendar)
      = ([q], Some (Content [suggestion])) /\ items q = [])
  /\ (forall v, exists q,
        fst (run Sample.provider_free (handler v host 0 1000 negative)) = [q]
        /\ items q = ["primary"%string])
  /\ snd (run Sample.provider_free (handler SrcIndexTs host 0 1000 negative))
     = Some (Content [mkInterval (Sample.utc Sample.wed 12 0) (Sample.utc Sample.wed 11 30)])
  /\ snd (run Sample.provider_free (handler Part000File host 0 1000 negative))
     = Some (Content [])
  /\ snd (run Sample.provider_free (handler Part001File host 0 1000 negative)) = None.
Proof.
  intros host no_calendar negative. split; [|split; [|repeat split; vm_compute; reflexivity]].
  - intros []; eexists _, _; (split; [vm_compute; reflexivity | reflexivity]).
  - intros []; eexists; (split; [vm_compute; reflexivity | reflexivity]).
Qed.

(** C5, as the code has it.  No handler validates the request: whatever the
    meeting length and the calendar list, each handler sends exactly one
    free/busy query, for the calendars of the request (or ["primary"] when
    the property is absent), before anything else, and answers a query that
    throws with an error result that carries the message thrown.  The one
    request that gets no query is one whose horizon leaves the range of
    [Date] in src/index.ts and src/unnamed/part_000: [toISOString] throws
    while the query is being built, and the handler returns the error
    "Invalid time value".  Once the provider has answered, the only error
    left is that same [RangeError], raised while a suggestion is printed;
    src/unnamed/part_001 returns no error then. *)
Theorem handlers_query_first_unless_a_date_is_out_of_range
    (v : Variant) (host : Host) (now : Z) (fuel : nat) (args : Args)
    (provider : FreeBusyQuery -> FetchOutcome) :
  (prints_with_toISOString v = true ->
   horizon_in_range v host now args = false ->
   run provider (handler v host now fuel args)
   = ([], Some (IsError (error_prefix v ++ JsDate.INVALID_TIME_VALUE))))
  /\ (prints_with_toISOString v = false \/ horizon_in_range v host now args = true ->
      exists q,
        fst (run provider (handler v host now fuel args)) = [q]
        /\ items q = Js.or_default_array (calendarIds args) ["primary"%string]
        /\ (horizon_in_range v host now args = true ->
            timeMin q = horizon_start v host now args
            /\ timeMax q = horizon_end v host now args)
        /\ (forall message,
              provider q = FetchThrows message ->
              snd (run provider (handler v host now fuel args))
              = Some (IsError (error_prefix v ++ message)))
        /\ (forall calendars,
              provider q = FetchOk calendars ->
              forall message,
                snd (run provider (handler v host now fuel args)) = Some (IsError message) ->
                prints_with_toISOString v = true
                /\ message = (error_prefix v ++ JsDate.INVALID_TIME_VALUE)%string)).
Proof.
  destruct v; cbn [handler prints_with_toISOString error_prefix];
    unfold horizon_in_range, horizon_end, horizon_start; cbv zeta.
  - unfold IndexTs.handleMeetingSuggestion, JsDate.toISOString. cbv zeta.
    destruct (JsDate.valid (IndexTs.resolveStartDate _ _ _ _)); cbn [andb];
      [destruct (JsDate.valid (JsDate.addDays _ _))|]; (split; [intros _ E | intros E]);
      try discriminate; try (destruct E; discriminate); try reflexivity.
    cbn [run fst snd]. eexists. split; [reflexivity|]. split; [reflexivity|].
    split; [intros _; split; reflexivity|]. split.
    + intros message ->. reflexivity.
    + intros calendars -> message.
      destruct (DateWalk.walk _ _ _ _ _ _ _ _ _ _ _ _) as [w|]; [|discriminate].
      destruct (DateWalk.toISOStrings _); [discriminate|].
      intros H. injection H as <-. now split.
  - unfold Part000.handleMeetingSuggestion, JsDate.toISOString. cbv zeta.
    destruct (JsDate.valid (Part000.resolveStartDate _ _ _ _)); cbn [andb];
      [destruct (JsDate.valid (JsDate.addDays _ _))|]; (split; [intros _ E | intros E]);
      try discriminate; try (destruct E; discriminate); try reflexivity.
    cbn [run fst snd]. eexists. split; [reflexivity|]. split; [reflexivity|].
    split; [intros _; split; reflexivity|]. split.
    + intros message ->. reflexivity.
    + intros calendars -> message.
      destruct (DateWalk.walk _ _ _ _ _ _ _ _ _ _ _ _) as [w|]; [|discriminate].
      destruct (DateWalk.toISOStrings _); [discriminate|].
      intros H. injection H as <-. now split.
  - split; [discriminate|]. intros _.
    unfold Part001.handleMeetingSuggestion. cbv zeta. cbn [run fst snd].
    eexists. split; [reflexivity|]. split; [reflexivity|].
    split; [intros _; split; reflexivity|]. split.
    + intros message ->. reflexivity.
    + intros calendars -> message.
      destruct (Part001.walk _ _ _ _ _ _ _ _ _ _ _) as [w|]; discriminate.
Qed.

(** The request of a horizon of 99,979,898 days from 2025-01-15: its end is
    a day past the range of [Date]; src/index.ts sends no query. *)
Lemma handlers_query_first_unless_a_date_is_out_of_range_witness :
  run Sample.provider_free
      (handler SrcIndexTs Sample.host_utc 0 10
               (with_maxDaysToLookAhead (Some 99979898) Sample.two_slots_one_day))
  = ([], Some (IsError "Error: Invalid time value")).
Proof.
  apply (proj1 (handlers_query_first_unless_a_date_is_out_of_range SrcIndexTs
                  Sample.host_utc 0 10
                  (with_maxDaysToLookAhead (Some 99979898) Sample.two_slots_one_day)
                  Sample.provider_free)).
  - reflexivity.
  - vm_compute. reflexivity.
Defined.

(** The other place where [toISOString] throws.  With a meeting length of
    -150,000,000,000 minutes src/index.ts pushes a slot whose end is some
    285,000 years before its start, an Invalid Date: the query is sent, and
    printing the slot gives the error.  src/unnamed/part_000 pushes no slot
    for a negative length and returns the empty list. *)
Example IndexTs_unprintable_slot_is_an_error :
  let args := mkArgs None (Some (-150000000000)) None None None None (Some 1) None
                     (Some (Sample.utc Sample.wed 12 0)) (Some 7) in
  (exists q,
      run Sample.provider_free (handler SrcIndexTs Sample.host_utc 0 1000 args)
      = ([q], Some (IsError "Error: Invalid time value")))
  /\ snd (run Sample.provider_free (handler Part000File Sample.host_utc 0 1000 args))
     = Some (Content []).
Proof. intros args. split; [eexists|]; vm_compute; reflexivity. Qed.

(** A working day that ends past the range of [Date]: [dayEnd] is an Invalid
    Date, [findFreeSlots] finds nothing on any day, and the two [Date]
    variants return the empty list. *)
Example Date_variants_find_nothing_in_an_invalid_window (v : Variant) :
  prints_with_toISOString v = true ->
  let args := mkArgs None None None (Some 3000000000) None None (Some 1) None
                     (Some (Sample.utc Sample.wed 12 0)) (Some 7) in
  snd (run Sample.provider_free (handler v Sample.host_utc 0 1000 args))
  = Some (Content []).
Proof. destruct v; [vm_compute; reflexivity | vm_compute; reflexivity | discriminate]. Qed.

(** C9.  With an explicit start date, the queries sent and the result do not
    depend on the clock: two runs of a handler on the same request, against
    the same provider, in the same process zone, agree whatever the current
    times are. *)
Theorem handlers_ignore_the_clock_given_a_start_date
    (v : Variant) (host : Host) (now now' : Z) (fuel : nat) (args : Args) (d : Z)
    (provider : FreeBusyQuery -> FetchOutcome) :
  startDate args = Some d ->
  run provider (handler v host now fuel args)
  = run provider (handler v host now' fuel args).
Proof.
  intros H. destruct v; simpl;
    unfold IndexTs.handleMeetingSuggestion, Part000.handleMeetingSuggestion,
      Part001.handleMeetingSuggestion,
      IndexTs.resolveStartDate, Part000.resolveStartDate, Part001.resolveStartDate;
    rewrite H; reflexivity.
Qed.

Lemma handlers_ignore_the_clock_given_a_start_date_witness :
  let args := mkArgs None None None None None None None None
                     (Some (Sample.utc Sample.wed 12 0)) (Some 1) in
  run Sample.provider_free (handler Part000File Sample.host_utc 0 1000 args)
  = run Sample.provider_free
        (handler Part000File Sample.host_utc (Sample.utc (Sample.wed + 400) 7 0) 1000 args).
Proof.
  intros args.
  exact (handlers_ignore_the_clock_given_a_start_date Part000File Sample.host_utc 0
           (Sample.utc (Sample.wed + 400) 7 0) 1000 args (Sample.utc Sample.wed 12 0)
           Sample.provider_free eq_refl).
Defined.

(** C10.  A numeric property sent as 0 is replaced by its default:
    [slotsPerDay] 0 gives the queries and the result of [slotsPerDay] 1,
    [daysToSearch] 0 those of 3, [maxDaysToLookAhead] 0 those of 30 and
    [meetingLengthMinutes] 0 those of 60; and each gives the queries and
    the result of the same request without that property. *)
Theorem zero_is_defaulted_like_absent
    (v : Variant) (host : Host) (now : Z) (fuel : nat) (args : Args)
    (provider : FreeBusyQuery -> FetchOutcome) :
  (run provider (handler v host now fuel (with_slotsPerDay (Some 0) args))
   = run provider (handler v host now fuel (with_slotsPerDay (Some 1) args))
   /\ run provider (handler v host now fuel (with_daysToSearch (Some 0) args))
      = run provider (handler v host now fuel (with_daysToSearch (Some 3) args))
   /\ run provider (handler v host now fuel (with_maxDaysToLookAhead (Some 0) args))
      = run provider (handler v host now fuel (with_maxDaysToLookAhead (Some 30) args))
   /\ run provider (handler v host now fuel (with_meetingLengthMinutes (Some 0) args))
      = run provider (handler v host now fuel (with_meetingLengthMinutes (Some 60) args)))
  /\ (run provider (handler v host now fuel (with_slotsPerDay (Some 0) args))
      = run provider (handler v host now fuel (with_slotsPerDay None args))
      /\ run provider (handler v host now fuel (with_daysToSearch (Some 0) args))
         = run provider (handler v host now fuel (with_daysToSearch None args))
      /\ run provider (handler v host now fuel (with_maxDaysToLookAhead (Some 0) args))
         = run provider (handler v host now fuel (with_maxDaysToLookAhead None args))
      /\ run provider (handler v host now fuel (with_meetingLengthMinutes (Some 0) args))
         = run provider (handler v host now fuel (with_meetingLengthMinutes None args))).
Proof. destruct v; repeat split; reflexivity. Qed.

(** The defaults are in force: on a free Wednesday the request with
    [slotsPerDay] 0 gets one slot, the first hour of the working day, where
    [slotsPerDay] 2 gets two in src/unnamed/part_000. *)
Example zero_slotsPerDay_gives_one_slot :
  let day := mkArgs None None None None None None (Some 1) None
                    (Some (Sample.utc Sample.wed 12 0)) (Some 7) in
  snd (run Sample.provider_free
           (handler Part000File Sample.host_utc 0 1000 (with_slotsPerDay (Some 0) day)))
  = Some (Content [ mkInterval (Sample.utc Sample.wed 9 0) (Sample.utc Sample.wed 10 0) ])
  /\ snd (run Sample.provider_free
              (handler Part000File Sample.host_utc 0 1000 (with_slotsPerDay (Some 2) day)))
     = Some (Content [ mkInterval (Sample.utc Sample.wed 9 0) (Sample.utc Sample.wed 10 0);
                       mkInterval (Sample.utc Sample.wed 10 0) (Sample.utc Sample.wed 11 0) ]).
Proof. split; vm_compute; reflexivity. Qed.

(** ** The handlers return *)

Section Termination.
Import Time.

Lemma DateWalk_window_length (h ws we p : Z) :
  DateWalk.dayEnd h we p - DateWalk.dayStart h ws p = (we - ws) * MS_PER_HOUR.
Proof. unfold DateWalk.dayEnd, DateWalk.dayStart, JsDate.setHours. lia. Qed.

Lemma Part001_window_length (z ws we p : Z) :
  Part001.dayEnd z we p - Part001.dayStart z ws p = (we - ws) * MS_PER_HOUR.
Proof. unfold Part001.dayEnd, Part001.dayStart, Luxon.setHour. lia. Qed.

(** The walk of src/index.ts and src/unnamed/part_000 returns when its
    [findFreeSlots] does. *)
Lemma DateWalk_walk_returns
    (ffs : list Interval -> Z -> Z -> Z -> option (list Interval))
    (h m ws we spd N : Z) (hol : list string) (busy : list Interval)
    (endDate startDate : Z) (n : nat) :
  (forall p, exists l, ffs busy (DateWalk.dayStart h ws p) (DateWalk.dayEnd h we p) m = Some l) ->
  (days_left startDate endDate < n)%nat ->
  exists r, DateWalk.walk ffs h m ws we spd N hol busy endDate n startDate = Some r.
Proof.
  intros Hffs Hn. unfold DateWalk.walk.
  assert (Hstep : forall s, exists s',
             DateWalk.body ffs h m ws we spd hol busy s = Some s'
             /\ dayPointer s' = dayPointer s + MS_PER_DAY).
  { intros s. unfold DateWalk.body.
    destruct (DateWalk.working_day _ _ _).
    - destruct (Hffs (dayPointer s)) as [[|x l] ->]; eexists; (split; [reflexivity|]);
        simpl; unfold JsDate.addDays; lia.
    - eexists. split; [reflexivity|]. simpl. unfold JsDate.addDays. lia. }
  apply (while_terminates (DateWalk.cond N endDate) (DateWalk.body ffs h m ws we spd hol busy)
           (fun _ => True) ltac:(trivial)
           (fun w => days_left (dayPointer w) endDate)); [|trivial|exact Hn].
  intros s _ Ec. destruct (Hstep s) as (s' & Eb & Hp). exists s'. split; [exact Eb|].
  unfold DateWalk.cond in Ec. apply andb_true_iff in Ec. destruct Ec as [_ Ec].
  apply Z.ltb_lt in Ec. rewrite Hp, (days_left_cons (dayPointer s) endDate Ec). lia.
Qed.

(** The walk of src/unnamed/part_001 returns when its [findFreeSlots] does. *)
Lemma Part001_walk_returns
    (fuel : nat) (z m ws we spd N : Z) (hol : list string) (busy : list Interval)
    (endDate startDate : Z) :
  (forall p, exists l,
      Part001.findFreeSlots fuel busy (Part001.dayStart z ws p) (Part001.dayEnd z we p) m
      = Some l) ->
  (days_left startDate endDate < fuel)%nat ->
  exists r, Part001.walk fuel z m ws we spd N hol busy endDate startDate = Some r.
Proof.
  intros Hffs Hn. unfold Part001.walk.
  assert (Hstep : forall s, exists s',
             Part001.body fuel z m ws we spd hol busy s = Some s'
             /\ dayPointer s' = dayPointer s + MS_PER_DAY).
  { intros s. unfold Part001.body.
    destruct (Part001.working_day _ _ _).
    - destruct (Hffs (dayPointer s)) as [l ->]. eexists. split; [reflexivity|].
      simpl. unfold Luxon.plusDays. lia.
    - eexists. split; [reflexivity|]. simpl. unfold Luxon.plusDays. lia. }
  apply (while_terminates (Part001.cond N endDate) (Part001.body fuel z m ws we spd hol busy)
           (fun _ => True) ltac:(trivial)
           (fun w => days_left (dayPointer w) endDate)); [|trivial|exact Hn].
  intros s _ Ec. destruct (Hstep s) as (s' & Eb & Hp). exists s'. split; [exact Eb|].
  unfold Part001.cond in Ec. apply andb_true_iff in Ec. destruct Ec as [_ Ec].
  apply Z.ltb_lt in Ec. rewrite Hp, (days_left_cons (dayPointer s) endDate Ec). lia.
Qed.

(** X17.  With a meeting length that is a positive whole number of minutes
    every handler returns a result, given fuel for the days of the horizon
    and the minutes of a working day. *)
Lemma handlers_return_for_positive_length
    (v : Variant) (host : Host) (now : Z) (args : Args) :
  0 < Js.or_default (meetingLengthMinutes args) 60 ->
  exists fuel0 : nat,
    forall (fuel : nat) (provider : FreeBusyQuery -> FetchOutcome),
      (fuel0 <= fuel)%nat ->
      snd (run provider (handler v host now fuel args)) <> None.
Proof.
  intros Hm.
  set (ws := Js.or_default (workingHoursStart args) 9).
  set (we := Js.or_default (workingHoursEnd args) 17).
  set (tz := Js.or_default_string (timezone args) "America/Sao_Paulo").
  set (maxDays := Js.or_default (maxDaysToLookAhead args) 30).
  destruct v.
  - set (sd := IndexTs.resolveStartDate host tz now (startDate args)).
    exists (S (days_left sd (JsDate.addDays sd maxDays))).
    intros fuel provider Hf. subst sd ws we tz maxDays. cbn [handler].
    unfold IndexTs.handleMeetingSuggestion, JsDate.toISOString. cbv zeta.
    destruct (JsDate.valid (IndexTs.resolveStartDate _ _ _ _)); [|discriminate].
    destruct (JsDate.valid (JsDate.addDays _ _)); [|discriminate].
    cbn [run snd]. destruct (provider _); [|discriminate].
    match goal with
    | |- context [DateWalk.walk ?f ?h ?m ?a ?b ?s ?N ?hol ?busy ?e ?n ?st] =>
        destruct (DateWalk_walk_returns f h m a b s N hol busy e st n) as [r ->];
          [intros p; destruct (JsDate.valid _ && JsDate.valid _); eexists; reflexivity
          | lia
          | destruct (DateWalk.toISOStrings _); discriminate]
    end.
  - set (sd := Part000.resolveStartDate host tz now (startDate args)).
    exists (Nat.max (hours_fuel ws we) (S (days_left sd (JsDate.addDays sd maxDays)))).
    intros fuel provider Hf. subst sd ws we tz maxDays. cbn [handler].
    unfold Part000.handleMeetingSuggestion, JsDate.toISOString. cbv zeta.
    destruct (JsDate.valid (Part000.resolveStartDate _ _ _ _)); [|discriminate].
    destruct (JsDate.valid (JsDate.addDays _ _)); [|discriminate].
    cbn [run snd]. destruct (provider _); [|discriminate].
    match goal with
    | |- context [DateWalk.walk ?f ?h ?m ?a ?b ?s ?N ?hol ?busy ?e ?n ?st] =>
        destruct (DateWalk_walk_returns f h m a b s N hol busy e st n) as [r ->];
          [intros p | lia | destruct (DateWalk.toISOStrings _); discriminate]
    end.
    destruct (JsDate.valid _ && JsDate.valid _); [|now exists []].
    match goal with
    | |- context [Part000.findFreeSlots ?n ?b ?s ?e ?m] =>
        destruct (Part000_findFreeSlots_sound b s e m Hm n) as (l & -> & _);
          [|now exists l]
    end.
    unfold window_fuel. rewrite DateWalk_window_length. unfold hours_fuel in Hf. lia.
  - set (z := zoneOffset host tz).
    set (sd := Part001.resolveStartDate host tz now (startDate args)).
    exists (Nat.max (hours_fuel ws we)
                    (S (days_left sd (Luxon.endOfDay z (Luxon.plusDays sd maxDays))))).
    intros fuel provider Hf. subst sd z ws we tz maxDays. cbn [handler].
    unfold Part001.handleMeetingSuggestion. cbv zeta. cbn [run snd].
    destruct (provider _); [|discriminate].
    match goal with
    | |- context [Part001.walk ?n ?zz ?m ?a ?b ?s ?N ?hol ?busy ?e ?st] =>
        destruct (Part001_walk_returns n zz m a b s N hol busy e st) as [r ->];
          [intros p | lia | discriminate]
    end.
    match goal with
    | |- context [Part001.findFreeSlots ?n ?b ?s ?e ?m] =>
        destruct (Part001_findFreeSlots_sound b s e m Hm n) as (l & -> & _);
          [|now exists l]
    end.
    unfold window_fuel. rewrite Part001_window_length. unfold hours_fuel in Hf. lia.
Qed.

(** src/unnamed/part_001 does not read the zone of the process. *)
Lemma Part001_ignores_the_process_zone
    (h h' : Z) (zones : string -> Z) (now : Z) (fuel : nat) (args : Args) :
  Part001.handleMeetingSuggestion {| hostOffset := h; zoneOffset := zones |} now fuel args
  = Part001.handleMeetingSuggestion {| hostOffset := h'; zoneOffset := zones |} now fuel args.
Proof. reflexivity. Qed.

End Termination.

(** * Further properties of the scheduling code *)

(** ** Invariants of [for ... of] *)

Lemma for_of_inv {S X : Type} (P : S -> Prop) (body : S -> X -> option S) :
  (forall s x s', P s -> body s x = Some s' -> P s') ->
  forall xs s s', P s -> Loop.for_of body xs s = Some s' -> P s'.
Proof.
  intros Hbody. induction xs as [|x xs IH]; intros s s' Hs H; simpl in H.
  - now injection H as <-.
  - destruct (body s x) as [s1|] eqn:E; [|discriminate].
    apply (IH s1 s'); [now apply (Hbody s x) | exact H].
Qed.

(** ** Every slot has the meeting length *)

Section SlotLength.
Import Time Common.
Variable m : Z.

Lemma slot_at_has_length (p : Z) : has_length m (slot_at p m).
Proof. reflexivity. Qed.

Lemma Forall_snoc_length (l : list Interval) (p : Z) :
  List.Forall (has_length m) l -> List.Forall (has_length m) (l ++ [slot_at p m]).
Proof.
  intros H. apply List.Forall_app. split; [exact H|].
  constructor; [apply slot_at_has_length | constructor].
Qed.

Lemma IndexTs_visit_length (st : list Interval * Z) (b : Interval) :
  List.Forall (has_length m) (fst st) ->
  List.Forall (has_length m) (fst (IndexTs.visit m st b)).
Proof.
  destruct st as [fs p]. unfold IndexTs.visit. simpl. intros H.
  destruct (p <? start b); [|exact H].
  destruct (gap_fits _ _); [now apply Forall_snoc_length | exact H].
Qed.

Lemma Part000_push_slots_length (fuel : nat) :
  forall i bound p fs fs',
    List.Forall (has_length m) fs ->
    Part000.push_slots fuel i bound p m fs = Some fs' ->
    List.Forall (has_length m) fs'.
Proof.
  induction fuel as [|fuel IH]; intros i bound p fs fs' H E; simpl in E; [discriminate|].
  destruct (Part000.below i bound).
  - apply IH in E; [exact E | now apply Forall_snoc_length].
  - now injection E as <-.
Qed.

Lemma Part000_pack_length (fuel : nat) (target p : Z) (fs fs' : list Interval) :
  List.Forall (has_length m) fs ->
  Part000.pack fuel target p m fs = Some fs' ->
  List.Forall (has_length m) fs'.
Proof.
  unfold Part000.pack. intros H E.
  destruct (p <? target); [|now injection E as <-].
  destruct (gap_fits _ _); [|now injection E as <-].
  now apply Part000_push_slots_length in E.
Qed.

Lemma Part001_pack_while_length (fuel : nat) :
  forall target st st',
    List.Forall (has_length m) (fst st) ->
    Part001.pack_while fuel target m st = Some st' ->
    List.Forall (has_length m) (fst st').
Proof.
  induction fuel as [|fuel IH]; intros target [fs p] st' H E; simpl in E; [discriminate|].
  destruct (m * MS_PER_MINUTE <=? target - p).
  - apply IH in E; [exact E | now apply Forall_snoc_length].
  - now injection E as <-.
Qed.

End SlotLength.

Lemma IndexTs_findFreeSlots_length (busy : list Interval) (dayStart dayEnd m : Z) :
  List.Forall (has_length m) (IndexTs.findFreeSlots busy dayStart dayEnd m).
Proof.
  unfold IndexTs.findFreeSlots.
  destruct (fold_left _ _ _) as [fs p] eqn:E.
  assert (H : List.Forall (has_length m) fs).
  { change fs with (fst (fs, p)). rewrite <- E.
    generalize (Common.sortedBusySlots busy dayStart dayEnd) as l.
    assert (G : forall l st, List.Forall (has_length m) (fst st) ->
                  List.Forall (has_length m) (fst (fold_left (IndexTs.visit m) l st))).
    { induction l as [|b l IH]; intros st Hst; simpl; [exact Hst|].
      apply IH. now apply IndexTs_visit_length. }
    intros l. apply G. constructor. }
  destruct (p <? dayEnd); [|exact H].
  destruct (Common.gap_fits _ _); [now apply Forall_snoc_length | exact H].
Qed.

Lemma Part000_findFreeSlots_length (busy : list Interval) (dayStart dayEnd m : Z)
    (fuel : nat) (slots : list Interval) :
  Part000.findFreeSlots fuel busy dayStart dayEnd m = Some slots ->
  List.Forall (has_length m) slots.
Proof.
  intros E. unfold Part000.findFreeSlots in E.
  destruct (Loop.for_of _ _ _) as [[fs p]|] eqn:E1; [|discriminate].
  apply (Part000_pack_length m fuel dayEnd p fs); [|exact E].
  apply (for_of_inv (fun st => List.Forall (has_length m) (fst st))) in E1;
    [exact E1 | | constructor].
  intros [fs0 p0] b st' H0 Ev. unfold Part000.visit in Ev. cbv beta iota in Ev.
  destruct (Part000.pack fuel (start b) p0 m fs0) as [fs1|] eqn:Ep; [|discriminate].
  injection Ev as <-. simpl. now apply Part000_pack_length in Ep.
Qed.

Lemma Part001_findFreeSlots_length (busy : list Interval) (dayStart dayEnd m : Z)
    (fuel : nat) (slots : list Interval) :
  Part001.findFreeSlots fuel busy dayStart dayEnd m = Some slots ->
  List.Forall (has_length m) slots.
Proof.
  intros E. unfold Part001.findFreeSlots in E.
  destruct (Loop.for_of _ _ _) as [st|] eqn:E1; [|discriminate].
  destruct (Part001.pack_while _ _ _ _) as [[fs p]|] eqn:E2; [|discriminate].
  injection E as <-.
  apply (Part001_pack_while_length m) in E2; [exact E2|].
  apply (for_of_inv (fun st => List.Forall (has_length m) (fst st))) in E1;
    [exact E1 | | constructor].
  intros st0 b st' H0 Ev. unfold Part001.visit in Ev.
  destruct (Part001.pack_while fuel (start b) m st0) as [[fs1 p1]|] eqn:Ep; [|discriminate].
  injection Ev as <-. simpl. now apply (Part001_pack_while_length m) in Ep.
Qed.

Lemma has_length_positive (m : Z) (slots : list Interval) :
  0 < m ->
  List.Forall (has_length m) slots ->
  List.Forall (fun s => has_length m s /\ start s < end_ s) slots.
Proof.
  intros Hm H. apply (List.Forall_impl _ (P := has_length m)); [|exact H].
  intros s Hs. split; [exact Hs|]. unfold has_length in Hs. rewrite Hs.
  unfold Time.MS_PER_MINUTE. lia.
Qed.

(** X1.  In the three variants, for a meeting length that is a positive whole
    number of minutes, every slot that [findFreeSlots] returns lasts exactly
    that length, and so ends after it starts, for every busy list and
    window. *)
Theorem findFreeSlots_slots_have_the_meeting_length
    (busy : list Interval) (dayStart dayEnd m : Z) :
  0 < m ->
  List.Forall (fun s => has_length m s /\ start s < end_ s)
              (IndexTs.findFreeSlots busy dayStart dayEnd m)
  /\ (forall fuel slots,
        Part000.findFreeSlots fuel busy dayStart dayEnd m = Some slots ->
        List.Forall (fun s => has_length m s /\ start s < end_ s) slots)
  /\ (forall fuel slots,
        Part001.findFreeSlots fuel busy dayStart dayEnd m = Some slots ->
        List.Forall (fun s => has_length m s /\ start s < end_ s) slots).
Proof.
  intros Hm. split; [|split; intros fuel slots E]; apply (has_length_positive m _ Hm).
  - apply IndexTs_findFreeSlots_length.
  - now apply Part000_findFreeSlots_length in E.
  - now apply Part001_findFreeSlots_length in E.
Qed.

Lemma findFreeSlots_slots_have_the_meeting_length_witness :
  List.Forall (fun s => has_length 45 s /\ start s < end_ s)
    (IndexTs.findFreeSlots Sample.busy_overlapping
       (Sample.utc Sample.wed 9 0) (Sample.utc Sample.wed 17 0) 45).
Proof.
  apply (findFreeSlots_slots_have_the_meeting_length Sample.busy_overlapping
           (Sample.utc Sample.wed 9 0) (Sample.utc Sample.wed 17 0) 45).
  lia.
Defined.

(** ** Slots come out in chronological order *)

Section Chronological.
Import Time Common.

Lemma chronological_app (a b : list Interval) :
  chronological a -> chronological b ->
  (forall x y, In x a -> In y b -> end_ x <= start y) ->
  chronological (a ++ b).
Proof.
  unfold chronological. induction a as [|x a IH]; intros Ha Hb Hab; simpl; [exact Hb|].
  inversion Ha as [|? ? Ha' Hx]; subst. constructor.
  - apply IH; [exact Ha' | exact Hb | intros u v Hu Hv; apply Hab; [now right | exact Hv]].
  - apply List.Forall_app. split; [exact Hx|].
    apply List.Forall_forall. intros y Hy. apply Hab; [now left | exact Hy].
Qed.

Lemma back_to_back_chronological (p m : Z) (n : nat) :
  0 < m -> chronological (back_to_back p m n).
Proof.
  intros Hm. revert p. induction n as [|n IH]; intros p.
  - constructor.
  - rewrite back_to_back_cons. constructor; [apply IH|].
    apply List.Forall_forall. intros y Hy.
    apply back_to_back_bounds in Hy; [|exact Hm]. unfold slot_at. simpl. lia.
Qed.

Variables dayStart dayEnd : Z.
Variable visit : list Interval * Z -> Interval -> option (list Interval * Z).
Variable good : Interval -> Prop.

(** One busy interval: the new slots are in order, start at or after the
    pointer and end at or before the new pointer. *)
Hypothesis visit_chrono :
  forall freeSlots pointer busy,
    dayStart <= pointer -> good busy ->
    exists new pointer',
      visit (freeSlots, pointer) busy = Some (freeSlots ++ new, pointer')
      /\ pointer <= pointer' /\ chronological new
      /\ forall s, In s new -> pointer <= start s /\ end_ s <= pointer'.

Lemma scan_chrono (l : list Interval) :
  forall freeSlots pointer,
    (forall b, In b l -> good b) -> dayStart <= pointer ->
    exists new pointer',
      Loop.for_of visit l (freeSlots, pointer) = Some (freeSlots ++ new, pointer')
      /\ pointer <= pointer' /\ chronological new
      /\ forall s, In s new -> pointer <= start s /\ end_ s <= pointer'.
Proof.
  induction l as [|b l IH]; intros freeSlots pointer Hgood Hp.
  - exists [], pointer. simpl. rewrite List.app_nil_r.
    split; [reflexivity|]. split; [lia|]. split; [constructor | intros ? []].
  - destruct (visit_chrono freeSlots pointer b Hp (Hgood b (or_introl eq_refl)))
      as (new1 & p1 & E1 & Hp1 & Hc1 & Hn1).
    destruct (IH (freeSlots ++ new1) p1 (fun c Hc => Hgood c (or_intror Hc)) ltac:(lia))
      as (new2 & p2 & E2 & Hp2 & Hc2 & Hn2).
    exists (new1 ++ new2), p2. simpl. rewrite E1, E2, List.app_assoc.
    split; [reflexivity|]. split; [lia|]. split.
    + apply chronological_app; [exact Hc1 | exact Hc2 |].
      intros x y Hx Hy. destruct (Hn1 x Hx), (Hn2 y Hy). lia.
    + intros s Hs. apply List.in_app_or in Hs. destruct Hs as [Hs|Hs].
      * destruct (Hn1 s Hs). lia.
      * destruct (Hn2 s Hs). lia.
Qed.

End Chronological.

Section ChronologicalVariants.
Import Time Common.
Variables (busy : list Interval) (dayStart dayEnd m : Z).
Hypothesis m_pos : 0 < m.

Lemma fitting_slots_between (target pointer : Z) (s : Interval) :
  In s (back_to_back pointer m (fitting target pointer m)) ->
  pointer <= start s
  /\ end_ s <= pointer + Z.of_nat (fitting target pointer m) * (m * MS_PER_MINUTE)
  /\ end_ s <= target.
Proof.
  intros Hs. destruct (Z_le_gt_dec pointer target) as [Hle|Hgt].
  - pose proof (fitting_end target pointer m m_pos Hle).
    apply back_to_back_bounds in Hs; [lia | assumption].
  - rewrite fitting_zero in Hs by (unfold MS_PER_MINUTE; lia). destruct Hs.
Qed.

Lemma IndexTs_visit_chrono :
  forall freeSlots pointer b,
    dayStart <= pointer -> well_formed b ->
    exists new pointer',
      Some (IndexTs.visit m (freeSlots, pointer) b) = Some (freeSlots ++ new, pointer')
      /\ pointer <= pointer' /\ chronological new
      /\ forall s, In s new -> pointer <= start s /\ end_ s <= pointer'.
Proof.
  intros freeSlots pointer b _ Hb. unfold well_formed in Hb. rewrite IndexTs_visit_eq.
  eexists _, _. split; [reflexivity|]. split; [lia|].
  destruct ((pointer <? start b) && gap_fits (start b - pointer) m) eqn:E.
  - apply andb_true_iff in E. destruct E as [_ E]. unfold gap_fits in E. apply Z.leb_le in E.
    split; [repeat constructor|]. intros s [<- | []]. unfold slot_at. simpl. lia.
  - split; [constructor | intros s []].
Qed.

Variable fuel : nat.
Hypothesis fuel_enough : (window_fuel dayStart dayEnd <= fuel)%nat.

Lemma Part000_visit_chrono :
  forall freeSlots pointer b,
    dayStart <= pointer -> start b < dayEnd /\ well_formed b ->
    exists new pointer',
      Part000.visit fuel m (freeSlots, pointer) b = Some (freeSlots ++ new, pointer')
      /\ pointer <= pointer' /\ chronological new
      /\ forall s, In s new -> pointer <= start s /\ end_ s <= pointer'.
Proof.
  intros freeSlots pointer b Hp [Hb Hw]. unfold well_formed in Hw.
  rewrite Part000_visit_packs_gap
    by (try assumption; apply (fitting_fuel dayStart dayEnd); (assumption || lia)).
  eexists _, _. split; [reflexivity|]. split; [lia|].
  split; [now apply back_to_back_chronological|].
  intros s Hs. apply fitting_slots_between in Hs. lia.
Qed.

Lemma Part001_visit_chrono :
  forall freeSlots pointer b,
    dayStart <= pointer -> start b < dayEnd ->
    exists new pointer',
      Part001.visit fuel m (freeSlots, pointer) b = Some (freeSlots ++ new, pointer')
      /\ pointer <= pointer' /\ chronological new
      /\ forall s, In s new -> pointer <= start s /\ end_ s <= pointer'.
Proof.
  intros freeSlots pointer b Hp Hb.
  rewrite Part001_visit_packs_gap
    by (try assumption; apply (fitting_fuel dayStart dayEnd); (assumption || lia)).
  eexists _, _. split; [reflexivity|].
  assert (0 <= Z.of_nat (fitting (start b) pointer m) * (m * MS_PER_MINUTE))
    by (unfold MS_PER_MINUTE; nia).
  split; [lia|]. split; [now apply back_to_back_chronological|].
  intros s Hs. apply fitting_slots_between in Hs. lia.
Qed.

Lemma IndexTs_findFreeSlots_chrono :
  (forall b, In b busy -> well_formed b) ->
  chronological (IndexTs.findFreeSlots busy dayStart dayEnd m).
Proof.
  intros Hw.
  destruct (scan_chrono dayStart (fun st b => Some (IndexTs.visit m st b)) well_formed
              IndexTs_visit_chrono (sortedBusySlots busy dayStart dayEnd) [] dayStart)
    as (new & p & E & Hp & Hc & Hn).
  - intros b Hb. apply Hw. apply sortedBusySlots_In in Hb. tauto.
  - lia.
  - rewrite for_of_total in E. injection E as E.
    unfold IndexTs.findFreeSlots. rewrite E. simpl.
    destruct (p <? dayEnd); [|exact Hc].
    destruct (gap_fits (dayEnd - p) m); [|exact Hc].
    apply chronological_app; [exact Hc | repeat constructor |].
    intros x y Hx [<- | []]. destruct (Hn x Hx). simpl. lia.
Qed.

Lemma Part000_findFreeSlots_chrono :
  (forall b, In b busy -> well_formed b) ->
  exists slots,
    Part000.findFreeSlots fuel busy dayStart dayEnd m = Some slots /\ chronological slots.
Proof.
  intros Hw.
  destruct (scan_chrono dayStart (Part000.visit fuel m)
              (fun b => start b < dayEnd /\ well_formed b)
              Part000_visit_chrono (sortedBusySlots busy dayStart dayEnd) [] dayStart)
    as (new & p & E & Hp & Hc & Hn).
  - intros b Hb. apply sortedBusySlots_In in Hb. split; [tauto | apply Hw; tauto].
  - lia.
  - unfold Part000.findFreeSlots. rewrite E.
    rewrite Part000_pack_eq
      by (try assumption; apply (fitting_fuel dayStart dayEnd); (assumption || lia)).
    eexists. split; [reflexivity|]. simpl.
    apply chronological_app; [exact Hc | now apply back_to_back_chronological |].
    intros x y Hx Hy. destruct (Hn x Hx). apply fitting_slots_between in Hy. lia.
Qed.

Lemma Part001_findFreeSlots_chrono :
  exists slots,
    Part001.findFreeSlots fuel busy dayStart dayEnd m = Some slots /\ chronological slots.
Proof.
  destruct (scan_chrono dayStart (Part001.visit fuel m) (fun b => start b < dayEnd)
              Part001_visit_chrono (sortedBusySlots busy dayStart dayEnd) [] dayStart)
    as (new & p & E & Hp & Hc & Hn).
  - intros b Hb. apply sortedBusySlots_In in Hb. tauto.
  - lia.
  - unfold Part001.findFreeSlots. rewrite E.
    rewrite (Part001_pack_while_eq (fitting dayEnd p m))
      by (try assumption; try reflexivity;
          apply (fitting_fuel dayStart dayEnd); (assumption || lia)).
    eexists. split; [reflexivity|]. simpl.
    apply chronological_app; [exact Hc | now apply back_to_back_chronological |].
    intros x y Hx Hy. destruct (Hn x Hx). apply fitting_slots_between in Hy. lia.
Qed.

End ChronologicalVariants.

(** X2.  src/unnamed/part_001: for a positive meeting length and any busy
    list, [findFreeSlots] returns its slots in chronological order, no slot
    starting before the previous one ends. *)
Theorem Part001_findFreeSlots_chronological
    (busy : list Interval) (dayStart dayEnd m : Z) (fuel : nat) :
  0 < m -> (window_fuel dayStart dayEnd <= fuel)%nat ->
  exists slots,
    Part001.findFreeSlots fuel busy dayStart dayEnd m = Some slots /\ chronological slots.
Proof. intros Hm Hf. now apply Part001_findFreeSlots_chrono. Qed.

Lemma Part001_findFreeSlots_chronological_witness :
  exists slots,
    Part001.findFreeSlots 1000 Sample.busy_overlapping
      (Sample.utc Sample.wed 9 0) (Sample.utc Sample.wed 17 0) 60 = Some slots
    /\ chronological slots.
Proof.
  apply (Part001_findFreeSlots_chronological Sample.busy_overlapping
           (Sample.utc Sample.wed 9 0) (Sample.utc Sample.wed 17 0) 60 1000).
  - reflexivity.
  - vm_compute. lia.
Defined.

(** X3.  src/index.ts and src/unnamed/part_000: the same holds when no busy
    interval ends before it starts. *)
Theorem Date_variants_findFreeSlots_chronological
    (busy : list Interval) (dayStart dayEnd m : Z) (fuel : nat) :
  0 < m -> (window_fuel dayStart dayEnd <= fuel)%nat ->
  (forall b, In b busy -> well_formed b) ->
  chronological (IndexTs.findFreeSlots busy dayStart dayEnd m)
  /\ exists slots,
       Part000.findFreeSlots fuel busy dayStart dayEnd m = Some slots
       /\ chronological slots.
Proof.
  intros Hm Hf Hw. split.
  - eapply IndexTs_findFreeSlots_chrono; eassumption.
  - now apply Part000_findFreeSlots_chrono.
Qed.

Lemma Date_variants_findFreeSlots_chronological_witness :
  chronological (IndexTs.findFreeSlots Sample.busy_overlapping
                   (Sample.utc Sample.wed 9 0) (Sample.utc Sample.wed 17 0) 60)
  /\ exists slots,
       Part000.findFreeSlots 1000 Sample.busy_overlapping
         (Sample.utc Sample.wed 9 0) (Sample.utc Sample.wed 17 0) 60 = Some slots
       /\ chronological slots.
Proof.
  apply (Date_variants_findFreeSlots_chronological Sample.busy_overlapping
           (Sample.utc Sample.wed 9 0) (Sample.utc Sample.wed 17 0) 60 1000).
  - reflexivity.
  - vm_compute. lia.
  - intros b Hb. unfold well_formed.
    repeat (destruct Hb as [<- | Hb]; [vm_compute; discriminate|]). destruct Hb.
Defined.

(** The precondition is needed: with a busy interval 11:00-09:30, which ends
    before it starts, and one 13:00-14:00, src/unnamed/part_000 returns
    09:00-10:00, 10:00-11:00 and then 09:30-10:30, and src/index.ts returns
    09:00-10:00 and then 09:30-10:30. *)
Example Date_variants_overlap_slots_after_a_reversed_interval :
  let reversed := [ mkInterval (Sample.utc Sample.wed 11 0) (Sample.utc Sample.wed 9 30);
                    mkInterval (Sample.utc Sample.wed 13 0) (Sample.utc Sample.wed 14 0) ] in
  let nine := Sample.utc Sample.wed 9 0 in
  let ten := Sample.utc Sample.wed 10 0 in
  let eleven := Sample.utc Sample.wed 11 0 in
  let half_past := mkInterval (Sample.utc Sample.wed 9 30) (Sample.utc Sample.wed 10 30) in
  firstn 3 (default [] (Part000.findFreeSlots 1000 reversed nine
                          (Sample.utc Sample.wed 17 0) 60))
  = [ mkInterval nine ten; mkInterval ten eleven; half_past ]
  /\ firstn 2 (IndexTs.findFreeSlots reversed nine (Sample.utc Sample.wed 17 0) 60)
     = [ mkInterval nine ten; half_past ].
Proof. split; reflexivity. Qed.

(** ** The busy intervals a day is checked against *)

Section BusyFacts.
Import Common.

Lemma insert_by_start_same_start (k : Z) (x : Interval) (l : list Interval) :
  List.filter (fun b => start b =? k) (insert_by_start x l)
  = List.filter (fun b => start b =? k) (x :: l).
Proof.
  induction l as [|y l IH]; [reflexivity|]. simpl insert_by_start.
  destruct (start y <? start x) eqn:E; [|reflexivity].
  apply Z.ltb_lt in E. simpl in IH |- *. rewrite IH.
  destruct (start y =? k) eqn:Ey, (start x =? k) eqn:Ex; try reflexivity.
  apply Z.eqb_eq in Ey, Ex. lia.
Qed.

Lemma sort_by_start_same_start (k : Z) (l : list Interval) :
  List.filter (fun b => start b =? k) (sort_by_start l)
  = List.filter (fun b => start b =? k) l.
Proof.
  induction l as [|x l IH]; [reflexivity|]. simpl sort_by_start.
  rewrite insert_by_start_same_start. simpl. now rewrite IH.
Qed.

End BusyFacts.

(** X4.  The list [findFreeSlots] scans is the busy intervals that reach into
    the window ([start < dayEnd] and [end > dayStart]), each as often as it
    was reported, in ascending order of start; intervals with the same start
    keep the order they were reported in. *)
Theorem sortedBusySlots_sorted_stable_filter
    (busy : list Interval) (dayStart dayEnd : Z) :
  StronglySorted by_start (Common.sortedBusySlots busy dayStart dayEnd)
  /\ Permutation (List.filter (Common.in_window dayStart dayEnd) busy)
                 (Common.sortedBusySlots busy dayStart dayEnd)
  /\ (forall b, In b (Common.sortedBusySlots busy dayStart dayEnd)
                <-> In b busy /\ start b < dayEnd /\ dayStart < end_ b)
  /\ forall k,
       List.filter (fun b => start b =? k) (Common.sortedBusySlots busy dayStart dayEnd)
       = List.filter (fun b => start b =? k)
                     (List.filter (Common.in_window dayStart dayEnd) busy).
Proof.
  split; [apply sortedBusySlots_sorted|]. split; [apply sort_by_start_perm|].
  split; [intros b; apply sortedBusySlots_In|].
  intros k. apply sort_by_start_same_start.
Qed.

(** X5.  The busy intervals taken from the provider's answer are those of
    the requested calendars that carry both a start and an end: an interval
    is used exactly when some requested calendar id is a key of the answer
    and lists it with both ends; a requested id that is not a key adds
    nothing, and so does an entry without start or without end. *)
Theorem busySlots_from_requested_calendars
    (calendarIds : list string) (calendars : gmap string (list RawBusy)) (b : Interval) :
  In b (Common.busySlots calendarIds calendars)
  <-> exists id entries,
        In id calendarIds /\ calendars !! id = Some entries
        /\ In (mkRawBusy (Some (start b)) (Some (end_ b))) entries.
Proof.
  unfold Common.busySlots. rewrite List.in_flat_map. split.
  - intros (raw & Hraw & Hb). apply List.in_flat_map in Hraw.
    destruct Hraw as (id & Hid & Hraw).
    destruct (calendars !! id) as [entries|] eqn:E; [|destruct Hraw].
    exists id, entries. split; [exact Hid|]. split; [exact E|].
    destruct raw as [[s|] [e|]]; simpl in Hb; try (now destruct Hb).
    destruct Hb as [<- | []]. exact Hraw.
  - intros (id & entries & Hid & E & Hraw).
    exists (mkRawBusy (Some (start b)) (Some (end_ b))). split.
    + apply List.in_flat_map. exists id. split; [exact Hid|]. rewrite E. exact Hraw.
    + simpl. left. now destruct b.
Qed.

(** ** What the suggestions of a walk are *)

Section SuggestionFacts.
Import Time.

Lemma firstn_In {A : Type} (k : nat) (l : list A) (x : A) :
  In x (firstn k l) -> In x l.
Proof.
  intros H. rewrite <- (List.firstn_skipn k l). apply List.in_or_app. now left.
Qed.

Lemma slice0_In {A : Type} (l : list A) (n : Z) (x : A) :
  In x (Js.slice0 l n) -> In x l.
Proof. unfold Js.slice0. destruct (n <? 0); apply firstn_In. Qed.

Lemma slice0_length {A : Type} (l : list A) (n : Z) :
  0 <= n -> Z.of_nat (List.length (Js.slice0 l n)) <= n.
Proof.
  intros Hn. unfold Js.slice0.
  replace (n <? 0) with false by (symmetry; apply Z.ltb_ge; lia).
  rewrite List.length_firstn. lia.
Qed.

Lemma collect_In (spd k : Z) (l : list Interval) (x : Interval) :
  In x (Part001.collect spd k l) -> In x l.
Proof.
  revert k. induction l as [|y l IH]; intros k H; simpl in H; [destruct H|].
  destruct (spd <=? k); [destruct H|].
  destruct H as [<- | H]; [now left | right; now apply (IH (k + 1))].
Qed.

Lemma collect_length (spd k : Z) (l : list Interval) :
  Z.of_nat (List.length (Part001.collect spd k l)) <= Z.max 0 (spd - k).
Proof.
  revert k. induction l as [|y l IH]; intros k; simpl; [lia|].
  destruct (spd <=? k) eqn:E; [simpl; lia|].
  apply Z.leb_gt in E. simpl List.length. specialize (IH (k + 1)). lia.
Qed.

(** What a suggestion is known to satisfy: [Q p s] for a slot [s] found on
    the day at pointer [p]. *)
Variable Q : Z -> Interval -> Prop.

Lemma DateWalk_suggestions
    (ffs : list Interval -> Z -> Z -> Z -> option (list Interval))
    (h m ws we spd N : Z) (hol : list string) (busy : list Interval)
    (endDate startDate : Z) (n : nat) (r : Walk) :
  (forall p l, ffs busy (DateWalk.dayStart h ws p) (DateWalk.dayEnd h we p) m = Some l ->
               forall s, In s l -> Q p s) ->
  DateWalk.walk ffs h m ws we spd N hol busy endDate n startDate = Some r ->
  forall s, In s (suggestions r) ->
            found_on Q startDate endDate (DateWalk.working_day h hol) s.
Proof.
  intros Hffs Hr.
  apply (while_inv (DateWalk.cond N endDate) (DateWalk.body ffs h m ws we spd hol busy)
           (fun w => on_grid startDate (dayPointer w)
                     /\ forall s, In s (suggestions w) ->
                                  found_on Q startDate endDate (DateWalk.working_day h hol) s))
    in Hr.
  - tauto.
  - intros w w' [(k & Hk) Hs] Ec Eb.
    unfold DateWalk.cond in Ec. apply andb_true_iff in Ec. destruct Ec as [_ Ec].
    apply Z.ltb_lt in Ec.
    assert (Hgrid : on_grid startDate (JsDate.addDays (dayPointer w) 1)).
    { exists (S k). unfold JsDate.addDays. rewrite Hk. lia. }
    unfold DateWalk.body in Eb.
    destruct (DateWalk.working_day h hol (dayPointer w)) eqn:Ew.
    + destruct (ffs _ _ _ _) as [[|x l]|] eqn:Ef; [| |discriminate];
        injection Eb as <-; (split; [exact Hgrid|]); simpl suggestions; [exact Hs|].
      intros s Hin. apply List.in_app_or in Hin. destruct Hin as [Hin|Hin]; [now apply Hs|].
      apply slice0_In in Hin. exists (dayPointer w).
      split; [now exists k|]. split; [exact Ec|]. split; [exact Ew|].
      now apply (Hffs _ _ Ef).
    + injection Eb as <-. split; [exact Hgrid | exact Hs].
  - split; [exists O; simpl; lia | intros s []].
Qed.

Lemma Part001_suggestions
    (fuel : nat) (z m ws we spd N : Z) (hol : list string) (busy : list Interval)
    (endDate startDate : Z) (r : Walk) :
  (forall p l, Part001.findFreeSlots fuel busy (Part001.dayStart z ws p)
                                     (Part001.dayEnd z we p) m = Some l ->
               forall s, In s l -> Q p s) ->
  Part001.walk fuel z m ws we spd N hol busy endDate startDate = Some r ->
  forall s, In s (suggestions r) ->
            found_on Q startDate endDate (Part001.working_day z hol) s.
Proof.
  intros Hffs Hr.
  apply (while_inv (Part001.cond N endDate) (Part001.body fuel z m ws we spd hol busy)
           (fun w => on_grid startDate (dayPointer w)
                     /\ forall s, In s (suggestions w) ->
                                  found_on Q startDate endDate (Part001.working_day z hol) s))
    in Hr.
  - tauto.
  - intros w w' [(k & Hk) Hs] Ec Eb.
    unfold Part001.cond in Ec. apply andb_true_iff in Ec. destruct Ec as [_ Ec].
    apply Z.ltb_lt in Ec.
    assert (Hgrid : on_grid startDate (Luxon.plusDays (dayPointer w) 1)).
    { exists (S k). unfold Luxon.plusDays. rewrite Hk. lia. }
    unfold Part001.body in Eb.
    destruct (Part001.working_day z hol (dayPointer w)) eqn:Ew.
    + destruct (Part001.findFreeSlots _ _ _ _ _) as [l|] eqn:Ef; [|discriminate].
      injection Eb as <-. split; [exact Hgrid|]. simpl suggestions.
      intros s Hin. apply List.in_app_or in Hin. destruct Hin as [Hin|Hin]; [now apply Hs|].
      apply collect_In in Hin. exists (dayPointer w).
      split; [now exists k|]. split; [exact Ec|]. split; [exact Ew|].
      now apply (Hffs _ _ Ef).
    + injection Eb as <-. split; [exact Hgrid | exact Hs].
  - split; [exists O; simpl; lia | intros s []].
Qed.

End SuggestionFacts.

(** ** A result does not depend on the fuel that produced it *)

Section FuelMonotone.
Import Time Common.

Lemma for_of_mono {S X : Type} (body body' : S -> X -> option S) (xs : list X) :
  (forall s x s', body s x = Some s' -> body' s x = Some s') ->
  forall s r, Loop.for_of body xs s = Some r -> Loop.for_of body' xs s = Some r.
Proof.
  intros Hb. induction xs as [|x xs IH]; intros s r H; simpl in *; [exact H|].
  destruct (body s x) as [s'|] eqn:E; [|discriminate].
  rewrite (Hb _ _ _ E). now apply IH.
Qed.

Lemma Part000_push_slots_mono (n n' : nat) (bound : Part000.Bound) (p m : Z) :
  (n <= n')%nat ->
  forall i fs r,
    Part000.push_slots n i bound p m fs = Some r ->
    Part000.push_slots n' i bound p m fs = Some r.
Proof.
  revert n'. induction n as [|n IH]; intros n' Hn i fs r H; simpl in H; [discriminate|].
  destruct n' as [|n']; [lia|]. simpl.
  destruct (Part000.below i bound); [|exact H].
  apply IH; [lia | exact H].
Qed.

Lemma Part000_pack_mono (n n' : nat) (target p m : Z) (fs r : list Interval) :
  (n <= n')%nat ->
  Part000.pack n target p m fs = Some r -> Part000.pack n' target p m fs = Some r.
Proof.
  intros Hn. unfold Part000.pack.
  destruct (p <? target); [|trivial].
  destruct (gap_fits _ _); [|trivial].
  now apply Part000_push_slots_mono.
Qed.

Lemma Part000_findFreeSlots_mono (n n' : nat) (busy : list Interval)
    (dayStart dayEnd m : Z) (l : list Interval) :
  (n <= n')%nat ->
  Part000.findFreeSlots n busy dayStart dayEnd m = Some l ->
  Part000.findFreeSlots n' busy dayStart dayEnd m = Some l.
Proof.
  intros Hn H. unfold Part000.findFreeSlots in *.
  destruct (Loop.for_of (Part000.visit n m) _ _) as [[fs p]|] eqn:E; [|discriminate].
  rewrite (for_of_mono (Part000.visit n m) (Part000.visit n' m) _) with (r := (fs, p)).
  - now apply (Part000_pack_mono n n').
  - intros [fs0 p0] b s' Ev. unfold Part000.visit in *. cbv beta iota in *.
    destruct (Part000.pack n (start b) p0 m fs0) as [fs1|] eqn:Ep; [|discriminate].
    now rewrite (Part000_pack_mono n n' _ _ _ _ _ Hn Ep).
  - exact E.
Qed.

Lemma Part001_pack_while_mono (n n' : nat) (target m : Z) :
  (n <= n')%nat ->
  forall st r,
    Part001.pack_while n target m st = Some r ->
    Part001.pack_while n' target m st = Some r.
Proof.
  revert n'. induction n as [|n IH]; intros n' Hn [fs p] r H; simpl in H; [discriminate|].
  destruct n' as [|n']; [lia|]. simpl.
  destruct (m * MS_PER_MINUTE <=? target - p); [|exact H].
  apply IH; [lia | exact H].
Qed.

Lemma Part001_findFreeSlots_mono (n n' : nat) (busy : list Interval)
    (dayStart dayEnd m : Z) (l : list Interval) :
  (n <= n')%nat ->
  Part001.findFreeSlots n busy dayStart dayEnd m = Some l ->
  Part001.findFreeSlots n' busy dayStart dayEnd m = Some l.
Proof.
  intros Hn H. unfold Part001.findFreeSlots in *.
  destruct (Loop.for_of (Part001.visit n m) _ _) as [st|] eqn:E; [|discriminate].
  rewrite (for_of_mono (Part001.visit n m) (Part001.visit n' m) _) with (r := st).
  - destruct (Part001.pack_while n dayEnd m st) as [[fs p]|] eqn:Ep; [|discriminate].
    now rewrite (Part001_pack_while_mono n n' _ _ Hn _ _ Ep).
  - intros st0 b s' Ev. unfold Part001.visit in *.
    destruct (Part001.pack_while n (start b) m st0) as [[fs1 p1]|] eqn:Ep; [|discriminate].
    now rewrite (Part001_pack_while_mono n n' _ _ Hn _ _ Ep).
  - exact E.
Qed.

(** Whatever the fuel, a returned list of slots is sound. *)
Lemma Part000_returned_slots_sound (n : nat) (busy : list Interval)
    (dayStart dayEnd m : Z) (l : list Interval) :
  0 < m ->
  Part000.findFreeSlots n busy dayStart dayEnd m = Some l ->
  sound_slots dayStart dayEnd busy l.
Proof.
  intros Hm H.
  apply (Part000_findFreeSlots_mono n (Nat.max n (window_fuel dayStart dayEnd))) in H; [|lia].
  destruct (Part000_findFreeSlots_sound busy dayStart dayEnd m Hm
              (Nat.max n (window_fuel dayStart dayEnd)) ltac:(lia)) as (l' & E & Hs).
  rewrite E in H. injection H as <-. exact Hs.
Qed.

Lemma Part001_returned_slots_sound (n : nat) (busy : list Interval)
    (dayStart dayEnd m : Z) (l : list Interval) :
  0 < m ->
  Part001.findFreeSlots n busy dayStart dayEnd m = Some l ->
  sound_slots dayStart dayEnd busy l.
Proof.
  intros Hm H.
  apply (Part001_findFreeSlots_mono n (Nat.max n (window_fuel dayStart dayEnd))) in H; [|lia].
  destruct (Part001_findFreeSlots_sound busy dayStart dayEnd m Hm
              (Nat.max n (window_fuel dayStart dayEnd)) ltac:(lia)) as (l' & E & Hs).
  rewrite E in H. injection H as <-. exact Hs.
Qed.

End FuelMonotone.

(** ** What a handler that returns suggestions went through *)

Section HandlerResults.
Import Time.

Lemma IndexTs_handler_inv (host : Host) (now : Z) (fuel : nat) (args : Args)
    (provider : FreeBusyQuery -> FetchOutcome) (q : FreeBusyQuery) (l : list Interval) :
  run provider (IndexTs.handleMeetingSuggestion host now fuel args)
  = ([q], Some (Content l)) ->
  let tz := Js.or_default_string (timezone args) "America/Sao_Paulo" in
  let ids := Js.or_default_array (calendarIds args) ["primary"%string] in
  let sd := IndexTs.resolveStartDate host tz now (startDate args) in
  let ed := JsDate.addDays sd (Js.or_default (maxDaysToLookAhead args) 30) in
  exists calendars w,
    q = mkQuery sd ed (Some tz) ids
    /\ provider q = FetchOk calendars
    /\ DateWalk.walk
         (fun b s e m =>
            if JsDate.valid s && JsDate.valid e
            then Some (IndexTs.findFreeSlots b s e m)
            else Some [])
         (hostOffset host)
         (Js.or_default (meetingLengthMinutes args) 60)
         (Js.or_default (workingHoursStart args) 9)
         (Js.or_default (workingHoursEnd args) 17)
         (Js.or_default (slotsPerDay args) 1)
         (Js.or_default (daysToSearch args) 3)
         (Js.or_default_array (bankHolidays args) [])
         (Common.busySlots ids calendars) ed fuel sd = Some w
    /\ l = suggestions w.
Proof.
  intros H. cbv zeta.
  unfold IndexTs.handleMeetingSuggestion, JsDate.toISOString in H. cbv zeta in H.
  destruct (JsDate.valid (IndexTs.resolveStartDate _ _ _ _)); [|discriminate].
  destruct (JsDate.valid (JsDate.addDays _ _)); [|discriminate].
  cbn [run] in H. injection H as Hq Hr. subst q.
  destruct (provider _) as [calendars|] eqn:Ep; [|discriminate].
  destruct (DateWalk.walk _ _ _ _ _ _ _ _ _ _ _ _) as [w|] eqn:Ew; [|discriminate].
  unfold DateWalk.toISOStrings in Hr. destruct (forallb _ _); [|discriminate].
  injection Hr as <-. exists calendars, w. repeat split; assumption.
Qed.

Lemma Part000_handler_inv (host : Host) (now : Z) (fuel : nat) (args : Args)
    (provider : FreeBusyQuery -> FetchOutcome) (q : FreeBusyQuery) (l : list Interval) :
  run provider (Part000.handleMeetingSuggestion host now fuel args)
  = ([q], Some (Content l)) ->
  let tz := Js.or_default_string (timezone args) "America/Sao_Paulo" in
  let ids := Js.or_default_array (calendarIds args) ["primary"%string] in
  let sd := Part000.resolveStartDate host tz now (startDate args) in
  let ed := JsDate.addDays sd (Js.or_default (maxDaysToLookAhead args) 30) in
  exists calendars w,
    q = mkQuery sd ed None ids
    /\ provider q = FetchOk calendars
    /\ DateWalk.walk
         (fun b s e m =>
            if JsDate.valid s && JsDate.valid e
            then Part000.findFreeSlots fuel b s e m
            else Some [])
         (hostOffset host)
         (Js.or_default (meetingLengthMinutes args) 60)
         (Js.or_default (workingHoursStart args) 9)
         (Js.or_default (workingHoursEnd args) 17)
         (Js.or_default (slotsPerDay args) 1)
         (Js.or_default (daysToSearch args) 3)
         (Js.or_default_array (bankHolidays args) [])
         (Common.busySlots ids calendars) ed fuel sd = Some w
    /\ l = suggestions w.
Proof.
  intros H. cbv zeta.
  unfold Part000.handleMeetingSuggestion, JsDate.toISOString in H. cbv zeta in H.
  destruct (JsDate.valid (Part000.resolveStartDate _ _ _ _)); [|discriminate].
  destruct (JsDate.valid (JsDate.addDays _ _)); [|discriminate].
  cbn [run] in H. injection H as Hq Hr. subst q.
  destruct (provider _) as [calendars|] eqn:Ep; [|discriminate].
  destruct (DateWalk.walk _ _ _ _ _ _ _ _ _ _ _ _) as [w|] eqn:Ew; [|discriminate].
  unfold DateWalk.toISOStrings in Hr. destruct (forallb _ _); [|discriminate].
  injection Hr as <-. exists calendars, w. repeat split; assumption.
Qed.

Lemma Part001_handler_inv (host : Host) (now : Z) (fuel : nat) (args : Args)
    (provider : FreeBusyQuery -> FetchOutcome) (q : FreeBusyQuery) (l : list Interval) :
  run provider (Part001.handleMeetingSuggestion host now fuel args)
  = ([q], Some (Content l)) ->
  let tz := Js.or_default_string (timezone args) "America/Sao_Paulo" in
  let ids := Js.or_default_array (calendarIds args) ["primary"%string] in
  let z := zoneOffset host tz in
  let sd := Part001.resolveStartDate host tz now (startDate args) in
  let ed := Luxon.endOfDay z
              (Luxon.plusDays sd (Js.or_default (maxDaysToLookAhead args) 30)) in
  exists calendars w,
    q = mkQuery sd ed (Some tz) ids
    /\ provider q = FetchOk calendars
    /\ Part001.walk fuel z
         (Js.or_default (meetingLengthMinutes args) 60)
         (Js.or_default (workingHoursStart args) 9)
         (Js.or_default (workingHoursEnd args) 17)
         (Js.or_default (slotsPerDay args) 1)
         (Js.or_default (daysToSearch args) 3)
         (Js.or_default_array (bankHolidays args) [])
         (Common.busySlots ids calendars) ed sd = Some w
    /\ l = suggestions w.
Proof.
  intros H. cbv zeta. unfold Part001.handleMeetingSuggestion in H. cbv zeta in H.
  cbn [run] in H. injection H as Hq Hr. subst q.
  destruct (provider _) as [calendars|] eqn:Ep; [|discriminate].
  destruct (Part001.walk _ _ _ _ _ _ _ _ _ _ _) as [w|] eqn:Ew; [|discriminate].
  injection Hr as <-. exists calendars, w. repeat split; assumption.
Qed.

End HandlerResults.

(** ** Every suggestion is free working time of an eligible day *)

(** X6.  When a handler returns suggestions for a positive meeting length,
    the provider answered its query, and every suggestion lasts the meeting
    length, overlaps none of the busy intervals reported for the requested
    calendars, and lies between the working hours of a day that the walk
    reached: a whole number of days after [timeMin], before [timeMax], that
    passed the variant's weekend and bank-holiday test. *)
Theorem suggestions_are_free_working_time
    (v : Variant) (host : Host) (now : Z) (fuel : nat) (args : Args)
    (provider : FreeBusyQuery -> FetchOutcome) (q : FreeBusyQuery) (l : list Interval) :
  let m := Js.or_default (meetingLengthMinutes args) 60 in
  let ws := Js.or_default (workingHoursStart args) 9 in
  let we := Js.or_default (workingHoursEnd args) 17 in
  let tz := Js.or_default_string (timezone args) "America/Sao_Paulo" in
  let hol := Js.or_default_array (bankHolidays args) [] in
  let ids := Js.or_default_array (calendarIds args) ["primary"%string] in
  let off := variant_offset v host tz in
  0 < m ->
  run provider (handler v host now fuel args) = ([q], Some (Content l)) ->
  exists calendars,
    provider q = FetchOk calendars
    /\ forall s, In s l ->
         has_length m s
         /\ (forall b, In b (Common.busySlots ids calendars) -> ~ overlaps s b)
         /\ exists p,
              on_grid (timeMin q) p /\ p < timeMax q
              /\ variant_working_day v off hol p = true
              /\ within (window_start off ws p) (window_end off we p) s.
Proof.
  intros m ws we tz hol ids off Hm H.
  set (Q := fun (busy : list Interval) (p : Z) (s : Interval) =>
              has_length m s
              /\ (forall b, In b busy -> ~ overlaps s b)
              /\ within (window_start off ws p) (window_end off we p) s).
  assert (Hfound : forall busy sd ed working s,
             found_on (Q busy) sd ed working s ->
             has_length m s
             /\ (forall b, In b busy -> ~ overlaps s b)
             /\ exists p, on_grid sd p /\ p < ed /\ working p = true
                          /\ within (window_start off ws p) (window_end off we p) s).
  { intros busy sd ed working s (p & Hg & Hp & Hw & Hl & Hb & Hin).
    split; [exact Hl|]. split; [exact Hb|]. now exists p. }
  destruct v; cbn [handler] in H.
  - apply IndexTs_handler_inv in H. destruct H as (calendars & w & -> & Ep & Ew & ->).
    exists calendars. split; [exact Ep|]. intros s Hs. cbn [timeMin timeMax].
    apply (Hfound _ _ _ (DateWalk.working_day (hostOffset host) hol)).
    eapply DateWalk_suggestions; [|exact Ew|exact Hs].
    intros p l0 E s0 Hs0. cbv beta in E.
    destruct (JsDate.valid _ && JsDate.valid _); injection E as <-; [|destruct Hs0].
    split; [|split].
    + pose proof (IndexTs_findFreeSlots_length
                    (Common.busySlots ids calendars)
                    (DateWalk.dayStart (hostOffset host) ws p)
                    (DateWalk.dayEnd (hostOffset host) we p) m) as Hl.
      rewrite List.Forall_forall in Hl. now apply Hl.
    + now apply (IndexTs_findFreeSlots_sound _ _ _ _ s0 Hs0).
    + now apply (IndexTs_findFreeSlots_sound _ _ _ _ s0 Hs0).
  - apply Part000_handler_inv in H. destruct H as (calendars & w & -> & Ep & Ew & ->).
    exists calendars. split; [exact Ep|]. intros s Hs. cbn [timeMin timeMax].
    apply (Hfound _ _ _ (DateWalk.working_day (hostOffset host) hol)).
    eapply DateWalk_suggestions; [|exact Ew|exact Hs].
    intros p l0 E s0 Hs0. cbv beta in E.
    destruct (JsDate.valid _ && JsDate.valid _);
      [|injection E as <-; destruct Hs0].
    split; [|split].
    + pose proof (Part000_findFreeSlots_length _ _ _ _ _ _ E) as Hl.
      rewrite List.Forall_forall in Hl. now apply Hl.
    + now apply (Part000_returned_slots_sound _ _ _ _ _ _ Hm E s0 Hs0).
    + now apply (Part000_returned_slots_sound _ _ _ _ _ _ Hm E s0 Hs0).
  - apply Part001_handler_inv in H. destruct H as (calendars & w & -> & Ep & Ew & ->).
    exists calendars. split; [exact Ep|]. intros s Hs. cbn [timeMin timeMax].
    apply (Hfound _ _ _ (Part001.working_day (zoneOffset host tz) hol)).
    eapply Part001_suggestions; [|exact Ew|exact Hs].
    intros p l0 E s0 Hs0. split; [|split].
    + pose proof (Part001_findFreeSlots_length _ _ _ _ _ _ E) as Hl.
      rewrite List.Forall_forall in Hl. now apply Hl.
    + now apply (Part001_returned_slots_sound _ _ _ _ _ _ Hm E s0 Hs0).
    + now apply (Part001_returned_slots_sound _ _ _ _ _ _ Hm E s0 Hs0).
Qed.

Lemma suggestions_are_free_working_time_witness :
  let q := mkQuery (Sample.utc Sample.wed 0 0) (Sample.utc (Sample.wed + 7) 0 0) None
                   ["primary"%string] in
  exists calendars,
    Sample.provider_busy_hour q = FetchOk calendars
    /\ forall s,
         In s [ mkInterval (Sample.utc Sample.wed 9 0) (Sample.utc Sample.wed 10 0);
                mkInterval (Sample.utc Sample.wed 11 0) (Sample.utc Sample.wed 12 0) ] ->
         has_length 60 s
         /\ (forall b, In b (Common.busySlots ["primary"%string] calendars) -> ~ overlaps s b)
         /\ exists p,
              on_grid (timeMin q) p /\ p < timeMax q
              /\ DateWalk.working_day 0 [] p = true
              /\ within (window_start 0 9 p) (window_end 0 17 p) s.
Proof.
  intros q.
  apply (suggestions_are_free_working_time Part000File Sample.host_utc 0 1000
           Sample.two_slots_one_day Sample.provider_busy_hour).
  - reflexivity.
  - vm_compute. reflexivity.
Defined.

(** ** How many suggestions a handler returns *)

Section SuggestionCount.

Lemma DateWalk_suggestions_count
    (ffs : list Interval -> Z -> Z -> Z -> option (list Interval))
    (h m ws we spd N : Z) (hol : list string) (busy : list Interval)
    (endDate startDate : Z) (n : nat) (r : Walk) :
  0 <= spd ->
  DateWalk.walk ffs h m ws we spd N hol busy endDate n startDate = Some r ->
  0 <= daysWithSlotsFound r <= Z.max 0 N
  /\ Z.of_nat (List.length (suggestions r)) <= daysWithSlotsFound r * spd.
Proof.
  intros Hspd Hr.
  apply (while_inv (DateWalk.cond N endDate) (DateWalk.body ffs h m ws we spd hol busy)
           (fun w => 0 <= daysWithSlotsFound w <= Z.max 0 N
                     /\ Z.of_nat (List.length (suggestions w)) <= daysWithSlotsFound w * spd))
    in Hr.
  - tauto.
  - intros w w' [Hc Hl] Ec Eb.
    unfold DateWalk.cond in Ec. apply andb_true_iff in Ec. destruct Ec as [Ec _].
    apply Z.ltb_lt in Ec. unfold DateWalk.body in Eb.
    destruct (DateWalk.working_day h hol (dayPointer w)).
    + destruct (ffs _ _ _ _) as [[|x l]|]; [| |discriminate];
        injection Eb as <-; cbn [daysWithSlotsFound suggestions]; [now split|].
      split; [lia|]. rewrite List.length_app.
      pose proof (slice0_length (x :: l) spd Hspd). lia.
    + injection Eb as <-. now split.
  - simpl. lia.
Qed.

Lemma Part001_suggestions_count
    (fuel : nat) (z m ws we spd N : Z) (hol : list string) (busy : list Interval)
    (endDate startDate : Z) (r : Walk) :
  0 <= spd ->
  Part001.walk fuel z m ws we spd N hol busy endDate startDate = Some r ->
  0 <= daysWithSlotsFound r <= Z.max 0 N
  /\ Z.of_nat (List.length (suggestions r)) <= daysWithSlotsFound r * spd.
Proof.
  intros Hspd Hr.
  apply (while_inv (Part001.cond N endDate) (Part001.body fuel z m ws we spd hol busy)
           (fun w => 0 <= daysWithSlotsFound w <= Z.max 0 N
                     /\ Z.of_nat (List.length (suggestions w)) <= daysWithSlotsFound w * spd))
    in Hr.
  - tauto.
  - intros w w' [Hc Hl] Ec Eb.
    unfold Part001.cond in Ec. apply andb_true_iff in Ec. destruct Ec as [Ec _].
    apply Z.ltb_lt in Ec. unfold Part001.body in Eb.
    destruct (Part001.working_day z hol (dayPointer w)).
    + destruct (Part001.findFreeSlots _ _ _ _ _) as [l|]; [|discriminate].
      injection Eb as <-. cbn [daysWithSlotsFound suggestions].
      split; [lia|]. rewrite List.length_app.
      pose proof (collect_length spd 0 l). lia.
    + injection Eb as <-. now split.
  - simpl. lia.
Qed.

End SuggestionCount.

(** X7.  With a non-negative [slotsPerDay], a handler never returns more than
    [daysToSearch * slotsPerDay] suggestions (none when [daysToSearch] is
    negative), whatever the calendars, the horizon and the meeting length. *)
Theorem suggestions_number_at_most_days_times_slots
    (v : Variant) (host : Host) (now : Z) (fuel : nat) (args : Args)
    (provider : FreeBusyQuery -> FetchOutcome) (q : FreeBusyQuery) (l : list Interval) :
  0 <= Js.or_default (slotsPerDay args) 1 ->
  run provider (handler v host now fuel args) = ([q], Some (Content l)) ->
  Z.of_nat (List.length l)
  <= Z.max 0 (Js.or_default (daysToSearch args) 3) * Js.or_default (slotsPerDay args) 1.
Proof.
  intros Hspd H. destruct v; cbn [handler] in H.
  - apply IndexTs_handler_inv in H. destruct H as (calendars & w & _ & _ & Ew & ->).
    apply DateWalk_suggestions_count in Ew; [nia | exact Hspd].
  - apply Part000_handler_inv in H. destruct H as (calendars & w & _ & _ & Ew & ->).
    apply DateWalk_suggestions_count in Ew; [nia | exact Hspd].
  - apply Part001_handler_inv in H. destruct H as (calendars & w & _ & _ & Ew & ->).
    apply Part001_suggestions_count in Ew; [nia | exact Hspd].
Qed.

Lemma suggestions_number_at_most_days_times_slots_witness :
  Z.of_nat
    (List.length
       [ mkInterval (Sample.utc Sample.wed 9 0) (Sample.utc Sample.wed 10 0);
         mkInterval (Sample.utc Sample.wed 11 0) (Sample.utc Sample.wed 12 0) ])
  <= Z.max 0 1 * 2.
Proof.
  apply (suggestions_number_at_most_days_times_slots SrcIndexTs Sample.host_utc 0 1000
           Sample.two_slots_one_day Sample.provider_busy_hour
           (mkQuery (Sample.utc Sample.wed 0 0) (Sample.utc (Sample.wed + 7) 0 0)
                    (Some "America/Sao_Paulo"%string) ["primary"%string])).
  - simpl. lia.
  - vm_compute. reflexivity.
Defined.

(** With a negative [slotsPerDay] the bound is void in src/index.ts and
    src/unnamed/part_000: [slice(0, -1)] keeps all the slots of the day but
    the last, seven of the eight of a free day; src/unnamed/part_001 keeps
    none. *)
Example negative_slotsPerDay_on_a_free_day :
  let args := mkArgs None None None None None (Some (-1)) (Some 1) None
                     (Some (Sample.utc Sample.wed 12 0)) (Some 7) in
  (exists l, snd (run Sample.provider_free (handler Part000File Sample.host_utc 0 1000 args))
             = Some (Content l) /\ List.length l = 7%nat)
  /\ snd (run Sample.provider_free (handler SrcIndexTs Sample.host_utc 0 1000 args))
     = Some (Content [])
  /\ snd (run Sample.provider_free (handler Part001File Sample.host_utc 0 1000 args))
     = Some (Content []).
Proof.
  intros args. split; [|split]; [eexists; split | |]; vm_compute; reflexivity.
Qed.

(** ** The suggestions lie in the range the provider was asked about *)

Section QueriedRange.
Import Time.

Lemma on_grid_at_local_midnight (off t p : Z) :
  on_grid (start_of_day off t) p -> start_of_day off p = p.
Proof.
  intros (k & ->). unfold start_of_day at 1.
  rewrite local_day_plus_days. unfold start_of_day at 1.
  rewrite local_day_midnight_of. unfold start_of_day, midnight_of. lia.
Qed.

Lemma setHours_zero (h t : Z) : JsDate.setHours h t 0 = start_of_day h t.
Proof. unfold JsDate.setHours. lia. Qed.

(** A window from [ws] to [we] o'clock, with [0 <= ws] and [we <= 24], lies
    in the day of its pointer. *)
Lemma window_in_day (off ws we t p : Z) (s : Interval) :
  0 <= ws -> we <= 24 ->
  on_grid (start_of_day off t) p ->
  within (window_start off ws p) (window_end off we p) s ->
  p <= start s /\ end_ s <= p + MS_PER_DAY.
Proof.
  intros Hws Hwe Hg [Ha Hz]. unfold window_start, window_end in *.
  rewrite (on_grid_at_local_midnight off t p Hg) in *.
  unfold MS_PER_HOUR, MS_PER_DAY in *. lia.
Qed.

(** A day of the grid before [startDate + n days] ends by then. *)
Lemma on_grid_before (startDate n p : Z) :
  on_grid startDate p -> p < startDate + n * MS_PER_DAY ->
  startDate <= p /\ p + MS_PER_DAY <= startDate + n * MS_PER_DAY.
Proof. intros (k & ->) H. unfold MS_PER_DAY in *. lia. Qed.

End QueriedRange.

(** X8.  With working hours inside the day ([0 <= workingHoursStart] and
    [workingHoursEnd <= 24]) and a positive meeting length, every suggestion
    lies in the range the free/busy query asked about: it starts at or after
    [timeMin] and ends by [timeMax], in src/unnamed/part_001 by the
    millisecond after [timeMax]. *)
Theorem suggestions_lie_in_the_queried_range
    (v : Variant) (host : Host) (now : Z) (fuel : nat) (args : Args)
    (provider : FreeBusyQuery -> FetchOutcome) (q : FreeBusyQuery) (l : list Interval) :
  0 < Js.or_default (meetingLengthMinutes args) 60 ->
  0 <= Js.or_default (workingHoursStart args) 9 ->
  Js.or_default (workingHoursEnd args) 17 <= 24 ->
  run provider (handler v host now fuel args) = ([q], Some (Content l)) ->
  forall s, In s l -> timeMin q <= start s /\ end_ s <= asked_until v q.
Proof.
  intros Hm Hws Hwe H s Hs. destruct v; cbn [handler] in H.
  - apply IndexTs_handler_inv in H. destruct H as (calendars & w & -> & _ & Ew & ->).
    cbn [asked_until timeMin timeMax].
    eapply (DateWalk_suggestions (fun p s => within (DateWalk.dayStart _ _ p)
                                                    (DateWalk.dayEnd _ _ p) s))
      in Hs; [| |exact Ew].
    + destruct Hs as (p & Hg & Hp & _ & Hin).
      unfold JsDate.addDays in *.
      pose proof (on_grid_before _ _ _ Hg Hp).
      assert (Hmid : exists t,
                 IndexTs.resolveStartDate host
                   (Js.or_default_string (timezone args) "America/Sao_Paulo")
                   now (startDate args)
                 = Time.start_of_day (hostOffset host) t).
      { unfold IndexTs.resolveStartDate. cbv zeta. rewrite setHours_zero.
        eexists; reflexivity. }
      destruct Hmid as (t & Et). rewrite Et in Hg.
      pose proof (window_in_day _ _ _ _ _ _ Hws Hwe Hg Hin). lia.
    + intros p l0 E s0 Hs0. cbv beta in E.
      destruct (JsDate.valid _ && JsDate.valid _); injection E as <-; [|destruct Hs0].
      now apply (IndexTs_findFreeSlots_sound _ _ _ _ s0 Hs0).
  - apply Part000_handler_inv in H. destruct H as (calendars & w & -> & _ & Ew & ->).
    cbn [asked_until timeMin timeMax].
    eapply (DateWalk_suggestions (fun p s => within (DateWalk.dayStart _ _ p)
                                                    (DateWalk.dayEnd _ _ p) s))
      in Hs; [| |exact Ew].
    + destruct Hs as (p & Hg & Hp & _ & Hin).
      unfold JsDate.addDays in *.
      pose proof (on_grid_before _ _ _ Hg Hp).
      assert (Hmid : exists t,
                 Part000.resolveStartDate host
                   (Js.or_default_string (timezone args) "America/Sao_Paulo")
                   now (startDate args)
                 = Time.start_of_day (hostOffset host) t).
      { unfold Part000.resolveStartDate. cbv zeta. rewrite setHours_zero.
        eexists; reflexivity. }
      destruct Hmid as (t & Et). rewrite Et in Hg.
      pose proof (window_in_day _ _ _ _ _ _ Hws Hwe Hg Hin). lia.
    + intros p l0 E s0 Hs0. cbv beta in E.
      destruct (JsDate.valid _ && JsDate.valid _);
        [|injection E as <-; destruct Hs0].
      now apply (Part000_returned_slots_sound _ _ _ _ _ _ Hm E s0 Hs0).
  - apply Part001_handler_inv in H. destruct H as (calendars & w & -> & _ & Ew & ->).
    cbn [asked_until timeMin timeMax].
    eapply (Part001_suggestions (fun p s => within (Part001.dayStart _ _ p)
                                                   (Part001.dayEnd _ _ p) s))
      in Hs; [| |exact Ew].
    + destruct Hs as (p & Hg & Hp & _ & Hin).
      rewrite Part001_endDate_eq in *.
      assert (Hp' : p < Part001.resolveStartDate host
                          (Js.or_default_string (timezone args) "America/Sao_Paulo")
                          now (startDate args)
                        + (Js.or_default (maxDaysToLookAhead args) 30 + 1) * Time.MS_PER_DAY)
        by lia.
      pose proof (on_grid_before _ _ _ Hg Hp').
      assert (Hmid : exists t,
                 Part001.resolveStartDate host
                   (Js.or_default_string (timezone args) "America/Sao_Paulo")
                   now (startDate args)
                 = Time.start_of_day
                     (zoneOffset host
                        (Js.or_default_string (timezone args) "America/Sao_Paulo")) t).
      { unfold Part001.resolveStartDate. destruct (startDate args); eexists; reflexivity. }
      destruct Hmid as (t & Et). rewrite Et in Hg.
      pose proof (window_in_day _ _ _ _ _ _ Hws Hwe Hg Hin). lia.
    + intros p l0 E s0 Hs0.
      now apply (Part001_returned_slots_sound _ _ _ _ _ _ Hm E s0 Hs0).
Qed.

(** The bound of src/unnamed/part_001 is reached: the last hour of the last
    day ends one millisecond after [timeMax]. *)
Lemma suggestions_lie_in_the_queried_range_witness :
  let q := mkQuery (Sample.utc Sample.wed 0 0) (Sample.utc (Sample.wed + 2) 0 0 - 1)
                   (Some "UTC"%string) ["primary"%string] in
  let s := mkInterval (Sample.utc (Sample.wed + 1) 23 0) (Sample.utc (Sample.wed + 2) 0 0) in
  (timeMin q <= start s /\ end_ s <= asked_until Part001File q)
  /\ end_ s = timeMax q + 1.
Proof.
  intros q s. split; [|vm_compute; reflexivity].
  apply (suggestions_lie_in_the_queried_range Part001File Sample.host_sao_paulo 0 1000
           Sample.last_hour_of_the_day Sample.provider_free q [s]).
  - reflexivity.
  - simpl. lia.
  - simpl. lia.
  - vm_compute. reflexivity.
  - simpl. now left.
Defined.

(** ** Negative search bounds *)

Section NegativeBounds.
Import Time.

Lemma while_not_entered {S : Type} (fuel : nat) (cond : S -> bool)
    (body : S -> option S) (s : S) :
  fuel <> O -> cond s = false -> Loop.while fuel cond body s = Some s.
Proof. intros Hf Hc. destruct fuel; [contradiction|]. simpl. now rewrite Hc. Qed.

Lemma DateWalk_cond_init (N endDate startDate : Z) :
  N < 0 \/ endDate <= startDate ->
  DateWalk.cond N endDate (DateWalk.init startDate) = false.
Proof.
  intros H. unfold DateWalk.cond, DateWalk.init. cbn [daysWithSlotsFound dayPointer].
  apply andb_false_iff. rewrite Z.ltb_ge, Z.ltb_ge. lia.
Qed.

Lemma Part001_cond_init (N endDate startDate : Z) :
  N < 0 \/ endDate <= startDate ->
  Part001.cond N endDate (Part001.init startDate) = false.
Proof.
  intros H. unfold Part001.cond, Part001.init. cbn [daysWithSlotsFound dayPointer].
  apply andb_false_iff. rewrite Z.ltb_ge, Z.ltb_ge. lia.
Qed.

End NegativeBounds.

(** X9.  A negative [daysToSearch] or [maxDaysToLookAhead] is used as it is
    (only 0 is replaced by the default).  When the horizon stays inside the
    range of [Date], the handler then still sends its free/busy query, for a
    range that ends before it starts when [maxDaysToLookAhead] is negative,
    and returns the empty list of suggestions as soon as the provider
    answers. *)
Theorem negative_search_bounds_return_no_suggestion
    (v : Variant) (host : Host) (now : Z) (fuel : nat) (args : Args)
    (provider : FreeBusyQuery -> FetchOutcome) :
  Js.or_default (daysToSearch args) 3 < 0
  \/ Js.or_default (maxDaysToLookAhead args) 30 < 0 ->
  fuel <> O ->
  horizon_in_range v host now args = true ->
  exists q,
    fst (run provider (handler v host now fuel args)) = [q]
    /\ (Js.or_default (maxDaysToLookAhead args) 30 < 0 -> timeMax q < timeMin q)
    /\ forall calendars,
         provider q = FetchOk calendars ->
         snd (run provider (handler v host now fuel args)) = Some (Content []).
Proof.
  intros H Hf Hr. unfold horizon_in_range, horizon_end, horizon_start in Hr. cbv zeta in Hr.
  apply andb_true_iff in Hr. destruct Hr as [Hs He].
  destruct v; cbn [handler].
  - unfold IndexTs.handleMeetingSuggestion, JsDate.toISOString. cbv zeta.
    rewrite Hs, He. cbn [run fst snd].
    eexists. split; [reflexivity|]. cbn [timeMin timeMax]. split.
    + intros Hd. unfold JsDate.addDays, Time.MS_PER_DAY. lia.
    + intros calendars ->. unfold DateWalk.walk.
      rewrite while_not_entered; [reflexivity | exact Hf |].
      apply DateWalk_cond_init. unfold JsDate.addDays, Time.MS_PER_DAY. lia.
  - unfold Part000.handleMeetingSuggestion, JsDate.toISOString. cbv zeta.
    rewrite Hs, He. cbn [run fst snd].
    eexists. split; [reflexivity|]. cbn [timeMin timeMax]. split.
    + intros Hd. unfold JsDate.addDays, Time.MS_PER_DAY. lia.
    + intros calendars ->. unfold DateWalk.walk.
      rewrite while_not_entered; [reflexivity | exact Hf |].
      apply DateWalk_cond_init. unfold JsDate.addDays, Time.MS_PER_DAY. lia.
  - unfold Part001.handleMeetingSuggestion. cbv zeta. cbn [run fst snd].
    eexists. split; [reflexivity|]. cbn [timeMin timeMax].
    rewrite Part001_endDate_eq. split.
    + intros Hd. unfold Time.MS_PER_DAY. lia.
    + intros calendars ->. unfold Part001.walk.
      rewrite while_not_entered; [reflexivity | exact Hf |].
      apply Part001_cond_init. unfold Time.MS_PER_DAY. lia.
Qed.

Lemma negative_search_bounds_return_no_suggestion_witness :
  exists q,
    fst (run Sample.provider_free
             (handler Part000File Sample.host_utc 0 1
                      (with_maxDaysToLookAhead (Some (-2)) Sample.two_slots_one_day)))
    = [q]
    /\ (-2 < 0 -> timeMax q < timeMin q)
    /\ forall calendars,
         Sample.provider_free q = FetchOk calendars ->
         snd (run Sample.provider_free
                  (handler Part000File Sample.host_utc 0 1
                           (with_maxDaysToLookAhead (Some (-2)) Sample.two_slots_one_day)))
         = Some (Content []).
Proof.
  apply (negative_search_bounds_return_no_suggestion Part000File Sample.host_utc 0 1
           (with_maxDaysToLookAhead (Some (-2)) Sample.two_slots_one_day)
           Sample.provider_free).
  - right. simpl. lia.
  - lia.
  - vm_compute. reflexivity.
Defined.

(** Outside the range of [Date] the two [Date] variants answer such a
    request with an error and send nothing: a horizon of 99,979,898 days
    from 2025-01-15 with [daysToSearch] -1. *)
Example negative_daysToSearch_beyond_the_Date_range (v : Variant) :
  prints_with_toISOString v = true ->
  run Sample.provider_free
      (handler v Sample.host_utc 0 10
               (mkArgs None None None None None None (Some (-1)) None
                       (Some (Sample.utc Sample.wed 12 0)) (Some 99979898)))
  = ([], Some (IsError (error_prefix v ++ JsDate.INVALID_TIME_VALUE))).
Proof. destruct v; [vm_compute; reflexivity | vm_compute; reflexivity | discriminate]. Qed.

(** ** The two packing variants agree on well-formed busy intervals *)

Section PackingVariantsAgree.
Import Time Common.
Variables (dayStart dayEnd m : Z).
Hypothesis m_pos : 0 < m.
Variable fuel : nat.
Hypothesis fuel_enough : (window_fuel dayStart dayEnd <= fuel)%nat.

(** One busy interval that does not end before it starts: the two variants
    add the same slots and leave the pointer at the same instant. *)
Lemma visits_agree (freeSlots : list Interval) (pointer : Z) (b : Interval) :
  dayStart <= pointer -> start b < dayEnd -> well_formed b ->
  exists freeSlots' pointer',
    pointer <= pointer'
    /\ Part000.visit fuel m (freeSlots, pointer) b = Some (freeSlots', pointer')
    /\ Part001.visit fuel m (freeSlots, pointer) b = Some (freeSlots', pointer').
Proof.
  intros Hp Hb Hwf. unfold well_formed in Hwf. unfold Part000.visit, Part001.visit.
  rewrite Part000_pack_eq
    by (try assumption; apply (fitting_fuel dayStart dayEnd); (assumption || lia)).
  rewrite (Part001_pack_while_eq (fitting (start b) pointer m))
    by (try assumption; try reflexivity;
        apply (fitting_fuel dayStart dayEnd); (assumption || lia)).
  set (p0 := pointer + _).
  assert (Hp0 : pointer <= p0 /\ (pointer <= start b -> p0 <= start b)
                /\ (start b < pointer -> p0 = pointer)).
  { split; [unfold p0, MS_PER_MINUTE; nia|]. split.
    - intros Hle. apply (fitting_end (start b) pointer m m_pos Hle).
    - intros Hgt. unfold p0. rewrite fitting_zero by (unfold MS_PER_MINUTE; lia). lia. }
  eexists _, (if pointer <? end_ b then end_ b else pointer).
  split; [destruct (pointer <? end_ b) eqn:E;
          [apply Z.ltb_lt in E | apply Z.ltb_ge in E]; lia|].
  split; [reflexivity|]. do 2 f_equal.
  destruct (pointer <? end_ b) eqn:E1; [apply Z.ltb_lt in E1 | apply Z.ltb_ge in E1];
    (destruct (p0 <? end_ b) eqn:E2; [apply Z.ltb_lt in E2 | apply Z.ltb_ge in E2]); lia.
Qed.

Lemma scans_agree (l : list Interval) :
  forall freeSlots pointer,
    dayStart <= pointer ->
    (forall b, In b l -> start b < dayEnd /\ well_formed b) ->
    exists freeSlots' pointer',
      dayStart <= pointer'
      /\ Loop.for_of (Part000.visit fuel m) l (freeSlots, pointer)
         = Some (freeSlots', pointer')
      /\ Loop.for_of (Part001.visit fuel m) l (freeSlots, pointer)
         = Some (freeSlots', pointer').
Proof.
  induction l as [|b l IH]; intros freeSlots pointer Hp Hl.
  - exists freeSlots, pointer. now repeat split.
  - destruct (Hl b (or_introl eq_refl)) as [Hb Hwf].
    destruct (visits_agree freeSlots pointer b Hp Hb Hwf) as (fs1 & p1 & Hp1 & E0 & E1).
    destruct (IH fs1 p1 ltac:(lia) (fun c Hc => Hl c (or_intror Hc)))
      as (fs2 & p2 & Hp2 & F0 & F1).
    exists fs2, p2. cbn [Loop.for_of]. rewrite E0, E1. now repeat split.
Qed.

Lemma findFreeSlots_agree (busy : list Interval) :
  (forall b, In b busy -> well_formed b) ->
  exists slots,
    Part000.findFreeSlots fuel busy dayStart dayEnd m = Some slots
    /\ Part001.findFreeSlots fuel busy dayStart dayEnd m = Some slots.
Proof.
  intros Hwf.
  destruct (scans_agree (sortedBusySlots busy dayStart dayEnd) [] dayStart ltac:(lia))
    as (fs & p & Hp & E0 & E1).
  - intros b Hb. apply sortedBusySlots_In in Hb. destruct Hb as (Hin & Hs & _).
    split; [exact Hs | now apply Hwf].
  - unfold Part000.findFreeSlots, Part001.findFreeSlots. rewrite E0, E1.
    rewrite Part000_pack_eq
      by (try assumption; apply (fitting_fuel dayStart dayEnd); (assumption || lia)).
    rewrite (Part001_pack_while_eq (fitting dayEnd p m))
      by (try assumption; try reflexivity;
          apply (fitting_fuel dayStart dayEnd); (assumption || lia)).
    eexists. split; reflexivity.
Qed.

End PackingVariantsAgree.

(** X10.  For a meeting length that is a positive whole number of minutes
    and busy intervals that do not end before they start, [findFreeSlots] of src/unnamed/part_000 (the counted
    [for] loop over [Math.floor] of the gap) and of src/unnamed/part_001
    (the [while] loop that advances the pointer) return the same slots in the
    same order. *)
Theorem Part000_and_Part001_findFreeSlots_agree
    (busy : list Interval) (dayStart dayEnd m : Z) (fuel : nat) :
  0 < m ->
  (forall b, In b busy -> well_formed b) ->
  (window_fuel dayStart dayEnd <= fuel)%nat ->
  exists slots,
    Part000.findFreeSlots fuel busy dayStart dayEnd m = Some slots
    /\ Part001.findFreeSlots fuel busy dayStart dayEnd m = Some slots.
Proof. intros Hm Hwf Hf. eapply findFreeSlots_agree; eassumption. Qed.

Lemma Part000_and_Part001_findFreeSlots_agree_witness :
  exists slots,
    Part000.findFreeSlots 1000 Sample.busy_overlapping
      (Sample.utc Sample.wed 9 0) (Sample.utc Sample.wed 17 0) 30 = Some slots
    /\ Part001.findFreeSlots 1000 Sample.busy_overlapping
         (Sample.utc Sample.wed 9 0) (Sample.utc Sample.wed 17 0) 30 = Some slots.
Proof.
  apply Part000_and_Part001_findFreeSlots_agree.
  - lia.
  - intros b [<- | [<- | [<- | []]]]; vm_compute; discriminate.
  - vm_compute. lia.
Defined.

(** An interval that ends before it starts breaks the agreement:
    src/unnamed/part_000 leaves its pointer before the slots it has just
    pushed and pushes slots over them, src/unnamed/part_001 does not. *)
Example Part000_and_Part001_differ_on_a_reversed_interval :
  let busy := [ mkInterval (Sample.utc Sample.wed 11 0) (Sample.utc Sample.wed 9 30) ] in
  let dayStart := Sample.utc Sample.wed 9 0 in
  let dayEnd := Sample.utc Sample.wed 12 0 in
  Part000.findFreeSlots 1000 busy dayStart dayEnd 60
  = Some [ mkInterval (Sample.utc Sample.wed 9 0) (Sample.utc Sample.wed 10 0);
           mkInterval (Sample.utc Sample.wed 10 0) (Sample.utc Sample.wed 11 0);
           mkInterval (Sample.utc Sample.wed 9 30) (Sample.utc Sample.wed 10 30);
           mkInterval (Sample.utc Sample.wed 10 30) (Sample.utc Sample.wed 11 30) ]
  /\ Part001.findFreeSlots 1000 busy dayStart dayEnd 60
     = Some [ mkInterval (Sample.utc Sample.wed 9 0) (Sample.utc Sample.wed 10 0);
              mkInterval (Sample.utc Sample.wed 10 0) (Sample.utc Sample.wed 11 0);
              mkInterval (Sample.utc Sample.wed 11 0) (Sample.utc Sample.wed 12 0) ].
Proof. split; vm_compute; reflexivity. Qed.

(** ** The slots kept of a day *)

Lemma Part001_collect_firstn (spd k : Z) (l : list Interval) :
  Part001.collect spd k l = firstn (Z.to_nat (spd - k)) l.
Proof.
  revert k. induction l as [|x l IH]; intros k; simpl.
  - now rewrite List.firstn_nil.
  - destruct (spd <=? k) eqn:E; [apply Z.leb_le in E | apply Z.leb_gt in E].
    + now rewrite Z2Nat.nonpos by lia.
    + rewrite IH. replace (Z.to_nat (spd - k)) with (S (Z.to_nat (spd - (k + 1)))) by lia.
      reflexivity.
Qed.

(** X11.  The loop with [break] of src/unnamed/part_001 keeps the slots that
    [freeSlots.slice(0, slotsPerDay)] of the two other variants keeps when
    [slotsPerDay] is not negative; for a negative [slotsPerDay] it keeps
    none, where [slice] keeps all but the last [-slotsPerDay]. *)
Theorem Part001_collect_and_slice (slotsPerDay : Z) (freeSlots : list Interval) :
  (0 <= slotsPerDay ->
   Part001.collect slotsPerDay 0 freeSlots = Js.slice0 freeSlots slotsPerDay)
  /\ (slotsPerDay < 0 ->
      Part001.collect slotsPerDay 0 freeSlots = []
      /\ List.length (Js.slice0 freeSlots slotsPerDay)
         = (List.length freeSlots - Z.to_nat (- slotsPerDay))%nat).
Proof.
  rewrite Part001_collect_firstn. unfold Js.slice0. split; intros H.
  - replace (slotsPerDay <? 0) with false by (symmetry; apply Z.ltb_ge; lia).
    now rewrite Z.sub_0_r.
  - replace (slotsPerDay <? 0) with true by (symmetry; apply Z.ltb_lt; lia).
    split; [now rewrite Z2Nat.nonpos by lia|].
    rewrite List.length_firstn. lia.
Qed.

(** ** The two tests of a working day *)

Section WorkingDayTests.
Import Time.

Lemma weekend_tests_agree (h t : Z) :
  negb (JsDate.getDay h t =? 0) && negb (JsDate.getDay h t =? 6)
  = (Luxon.weekday h t <? 6).
Proof.
  unfold JsDate.getDay, Luxon.weekday. generalize (local_day h t) as d. intros d.
  destruct ((d + 4) mod 7 =? 0) eqn:E0; [apply Z.eqb_eq in E0 | apply Z.eqb_neq in E0];
    (destruct ((d + 4) mod 7 =? 6) eqn:E6; [apply Z.eqb_eq in E6 | apply Z.eqb_neq in E6]);
    (destruct ((d + 3) mod 7 + 1 <? 6) eqn:E; [apply Z.ltb_lt in E | apply Z.ltb_ge in E]);
    simpl; try reflexivity; exfalso;
    revert E0 E6 E; Z.div_mod_to_equations; lia.
Qed.

End WorkingDayTests.

(** X12.  The weekend test of the [Date] variants ([getDay()] neither 0 nor
    6) and of src/unnamed/part_001 (Luxon [weekday < 6]) agree on every
    instant of every zone; and at a local midnight of a zone at or west of
    UTC the two whole tests, bank holidays included, agree. *)
Theorem working_day_tests_agree_at_or_west_of_UTC
    (h d : Z) (bankHolidays : list string) :
  (forall t,
     negb (JsDate.getDay h t =? 0) && negb (JsDate.getDay h t =? 6)
     = (Luxon.weekday h t <? 6))
  /\ (- Time.MS_PER_DAY < h <= 0 ->
      DateWalk.working_day h bankHolidays (Time.midnight_of h d)
      = Part001.working_day h bankHolidays (Time.midnight_of h d)).
Proof.
  split; [intros t; apply weekend_tests_agree|].
  intros Hh. unfold DateWalk.working_day, Part001.working_day. cbv zeta.
  rewrite weekend_tests_agree. f_equal.
  unfold JsDate.toISODate, Luxon.toISODate.
  now rewrite UTC_date_of_local_midnight_west, local_day_midnight_of.
Qed.

Lemma working_day_tests_agree_at_or_west_of_UTC_witness :
  DateWalk.working_day (-3 * Time.MS_PER_HOUR) ["2025-01-15"%string]
    (Time.midnight_of (-3 * Time.MS_PER_HOUR) Sample.wed)
  = Part001.working_day (-3 * Time.MS_PER_HOUR) ["2025-01-15"%string]
      (Time.midnight_of (-3 * Time.MS_PER_HOUR) Sample.wed).
Proof.
  apply (working_day_tests_agree_at_or_west_of_UTC (-3 * Time.MS_PER_HOUR) Sample.wed
           ["2025-01-15"%string]).
  unfold Time.MS_PER_DAY, Time.MS_PER_HOUR. lia.
Defined.

(** * Further properties: the encoded message of [handleSendEmail] *)

Section Base64Facts.
Import Node.

Lemma replace_all_twice (s : string) :
  replace_all "/"%char "_"%char (replace_all "+"%char "-"%char s)
  = match s with
    | EmptyString => EmptyString
    | String x s' =>
        String (url_char x)
               (replace_all "/"%char "_"%char (replace_all "+"%char "-"%char s'))
    end.
Proof. destruct s; reflexivity. Qed.

Lemma strip_trailing_cons (c x : ascii) (s : string) :
  Ascii.eqb x c = false ->
  strip_trailing c (String x s) = String x (strip_trailing c s).
Proof. intros H. simpl. destruct (strip_trailing c s); now rewrite ?H. Qed.

Lemma sextets_checked :
  forallb sextet_checked (List.map Z.of_nat (seq 0 64)) = true.
Proof. vm_compute. reflexivity. Qed.

Lemma sextet_url (n : Z) :
  0 <= n < 64 ->
  Ascii.eqb (url_char (sextet n)) "="%char = false
  /\ url_value (url_char (sextet n)) = Some n
  /\ In (url_char (sextet n)) (list_ascii_of_string url_alphabet).
Proof.
  intros Hn. pose proof sextets_checked as H. rewrite forallb_forall in H.
  specialize (H n). unfold sextet_checked in H. cbv zeta in H.
  assert (Hin : In n (List.map Z.of_nat (seq 0 64))).
  { apply List.in_map_iff. exists (Z.to_nat n). split; [lia|]. apply List.in_seq. lia. }
  apply H in Hin. apply andb_true_iff in Hin. destruct Hin as [Hin H3].
  apply andb_true_iff in Hin. destruct Hin as [H1 H2].
  split; [now apply negb_true_iff in H1|]. split.
  - destruct (url_value (url_char (sextet n))) as [v|]; [|discriminate].
    apply Z.eqb_eq in H2. now subst.
  - apply existsb_exists in H3. destruct H3 as (x & Hx & E).
    apply Ascii.eqb_eq in E. now subst.
Qed.

Lemma byte_range (c : ascii) : 0 <= byte c < 256.
Proof.
  unfold byte. pose proof (N_ascii_bounded c). lia.
Qed.

Lemma char_of_byte_byte (c : ascii) : char_of_byte (byte c) = c.
Proof. unfold char_of_byte, byte. rewrite N2Z.id. apply ascii_N_embedding. Qed.

(** Induction on a string three characters at a time. *)
Lemma string_ind3 (P : string -> Prop) :
  P EmptyString ->
  (forall a, P (String a EmptyString)) ->
  (forall a b, P (String a (String b EmptyString))) ->
  (forall a b c s, P s -> P (String a (String b (String c s)))) ->
  forall s, P s.
Proof.
  intros H0 H1 H2 H3.
  assert (H : forall s, P s /\ (forall a, P (String a s))
                        /\ (forall a b, P (String a (String b s)))).
  { induction s as [|c s (IH0 & IH1 & IH2)].
    - repeat split; auto.
    - split; [apply IH1|]. split; [intros a; apply IH2|]. intros a b. now apply H3. }
  intros s. apply H.
Qed.

End Base64Facts.

Section EncodedMessage.
Import Node.

Local Abbreviation encoded s :=
  (strip_trailing "="%char
     (replace_all "/"%char "_"%char (replace_all "+"%char "-"%char (base64 s)))).

Lemma encoded_three (a b c : ascii) (rest : string) :
  let n := byte a * 65536 + byte b * 256 + byte c in
  encoded (String a (String b (String c rest)))
  = String (url_char (sextet (n / 262144)))
      (String (url_char (sextet (n / 4096 mod 64)))
         (String (url_char (sextet (n / 64 mod 64)))
            (String (url_char (sextet (n mod 64))) (encoded rest)))).
Proof.
  intros n. cbn [base64]. fold n.
  pose proof (byte_range a). pose proof (byte_range b). pose proof (byte_range c).
  assert (S1 : 0 <= n / 262144 < 64) by (subst n; Z.div_mod_to_equations; lia).
  assert (S2 : 0 <= n / 4096 mod 64 < 64) by (Z.div_mod_to_equations; lia).
  assert (S3 : 0 <= n / 64 mod 64 < 64) by (Z.div_mod_to_equations; lia).
  assert (S4 : 0 <= n mod 64 < 64) by (Z.div_mod_to_equations; lia).
  rewrite replace_all_twice, strip_trailing_cons by apply (sextet_url _ S1).
  rewrite replace_all_twice, strip_trailing_cons by apply (sextet_url _ S2).
  rewrite replace_all_twice, strip_trailing_cons by apply (sextet_url _ S3).
  rewrite replace_all_twice, strip_trailing_cons by apply (sextet_url _ S4).
  reflexivity.
Qed.

Lemma encoded_two (a b : ascii) :
  let n := byte a * 256 + byte b in
  encoded (String a (String b EmptyString))
  = String (url_char (sextet (n / 1024)))
      (String (url_char (sextet (n / 16 mod 64)))
         (String (url_char (sextet (n mod 16 * 4))) EmptyString)).
Proof.
  intros n. cbn [base64]. fold n.
  pose proof (byte_range a). pose proof (byte_range b).
  assert (S1 : 0 <= n / 1024 < 64) by (subst n; Z.div_mod_to_equations; lia).
  assert (S2 : 0 <= n / 16 mod 64 < 64) by (Z.div_mod_to_equations; lia).
  assert (S3 : 0 <= n mod 16 * 4 < 64) by (Z.div_mod_to_equations; lia).
  rewrite replace_all_twice, strip_trailing_cons by apply (sextet_url _ S1).
  rewrite replace_all_twice, strip_trailing_cons by apply (sextet_url _ S2).
  rewrite replace_all_twice, strip_trailing_cons by apply (sextet_url _ S3).
  reflexivity.
Qed.

Lemma encoded_one (a : ascii) :
  let n := byte a in
  encoded (String a EmptyString)
  = String (url_char (sextet (n / 4)))
      (String (url_char (sextet (n mod 4 * 16))) EmptyString).
Proof.
  intros n. cbn [base64]. fold n.
  pose proof (byte_range a).
  assert (S1 : 0 <= n / 4 < 64) by (subst n; Z.div_mod_to_equations; lia).
  assert (S2 : 0 <= n mod 4 * 16 < 64) by (Z.div_mod_to_equations; lia).
  rewrite replace_all_twice, strip_trailing_cons by apply (sextet_url _ S1).
  rewrite replace_all_twice, strip_trailing_cons by apply (sextet_url _ S2).
  reflexivity.
Qed.

(** The encoding of any string is made of base64url characters only. *)
Lemma encoded_url_safe (s : string) : url_safe (encoded s).
Proof.
  unfold url_safe. induction s as [|a|a b|a b c s IH] using string_ind3.
  - constructor.
  - rewrite encoded_one. cbv zeta. cbn [list_ascii_of_string].
    pose proof (byte_range a).
    repeat (constructor; [apply sextet_url; Z.div_mod_to_equations; lia|]). constructor.
  - rewrite encoded_two. cbv zeta. cbn [list_ascii_of_string].
    pose proof (byte_range a). pose proof (byte_range b).
    repeat (constructor; [apply sextet_url; Z.div_mod_to_equations; lia|]). constructor.
  - rewrite encoded_three. cbv zeta. cbn [list_ascii_of_string].
    pose proof (byte_range a). pose proof (byte_range b). pose proof (byte_range c).
    repeat (constructor; [apply sextet_url; Z.div_mod_to_equations; lia|]). exact IH.
Qed.

Lemma url_value_sextet (n : Z) :
  0 <= n < 64 -> url_value (url_char (sextet n)) = Some n.
Proof. intros H. now apply sextet_url. Qed.

Lemma char_of_byte_eq (n : Z) (a : ascii) : n = byte a -> char_of_byte n = a.
Proof. intros ->. apply char_of_byte_byte. Qed.

Ltac decoded_bytes :=
  repeat match goal with
         | |- Some _ = Some _ => f_equal
         | |- String _ _ = String _ _ => f_equal
         | |- char_of_byte _ = _ => apply char_of_byte_eq; Z.div_mod_to_equations; lia
         end.

(** Decoding the encoding of any string gives the string back. *)
Lemma encoded_decodes (s : string) : base64url_decode (encoded s) = Some s.
Proof.
  induction s as [|a|a b|a b c s IH] using string_ind3.
  - reflexivity.
  - rewrite encoded_one. cbv zeta. cbn [base64url_decode].
    pose proof (byte_range a).
    rewrite !url_value_sextet by (Z.div_mod_to_equations; lia).
    decoded_bytes.
  - rewrite encoded_two. cbv zeta. cbn [base64url_decode].
    pose proof (byte_range a). pose proof (byte_range b).
    rewrite !url_value_sextet by (Z.div_mod_to_equations; lia).
    cbv zeta. decoded_bytes.
  - rewrite encoded_three. cbv zeta.
    pose proof (byte_range a). pose proof (byte_range b). pose proof (byte_range c).
    cbn [base64url_decode].
    rewrite !url_value_sextet by (Z.div_mod_to_equations; lia).
    rewrite IH. cbv zeta. decoded_bytes.
Qed.

End EncodedMessage.

(** X13.  The [raw] field that [handleSendEmail] sends holds characters of
    the base64url alphabet only: letters, digits, [-] and [_]; no [+], no
    [/], and no [=] padding, whatever the request. *)
Theorem encodedMessage_is_url_safe (args : Mail.SendArgs) :
  url_safe (Mail.encodedMessage args).
Proof. unfold Mail.encodedMessage. apply encoded_url_safe. Qed.

(** X14.  Nothing of the message is lost in the encoding of
    [handleSendEmail]: decoding [raw] as unpadded base64url gives the bytes
    of the message back. *)
Theorem encodedMessage_decodes_to_the_message (args : Mail.SendArgs) :
  base64url_decode (Mail.encodedMessage args) = Some (Mail.message args).
Proof. unfold Mail.encodedMessage. apply encoded_decodes. Qed.

(** ** The message of [handleSendEmail] *)

(** X15.  The message that [handleSendEmail] builds is its header lines
    joined by CRLF: the two fixed lines, [To], then [Cc] and [Bcc] when they
    are given and not empty, then [Subject].  The empty string that the
    source lists between the headers and the body is dropped by
    [filter(Boolean)] like every other empty part, so a body follows the
    [Subject] line on the very next line, with no empty line in between;
    an empty or missing body leaves the message ending in the [Subject]
    line. *)
Theorem message_has_no_blank_line_before_the_body (args : Mail.SendArgs) :
  let optional (name : string) (x : option string) : string :=
    if Mail.truthy x then (name ++ Mail.template x ++ Mail.CRLF)%string else EmptyString in
  let headers : string :=
    ("Content-Type: text/html; charset=utf-8" ++ Mail.CRLF
     ++ "MIME-Version: 1.0" ++ Mail.CRLF
     ++ "To: " ++ Mail.template (Mail.to args) ++ Mail.CRLF
     ++ optional "Cc: " (Mail.cc args)
     ++ optional "Bcc: " (Mail.bcc args)
     ++ "Subject: " ++ Mail.template (Mail.subject args))%string in
  Mail.message args
  = if Mail.truthy (Mail.body args)
    then (headers ++ Mail.CRLF ++ Mail.template (Mail.body args))%string
    else headers.
Proof.
  assert (A : forall a b c : string, ((a ++ b) ++ c = a ++ b ++ c)%string).
  { intros a b c. induction a as [|x a IH]; [reflexivity|].
    change (String x ((a ++ b) ++ c) = String x (a ++ b ++ c))%string. now f_equal. }
  destruct args as [to subject body cc bcc]. cbv zeta. unfold Mail.message, Mail.filter_join.
  cbn [Mail.to Mail.subject Mail.body Mail.cc Mail.bcc].
  destruct cc as [[|c0 cc]|], bcc as [[|b0 bcc]|], body as [[|d0 body]|];
    cbn [Mail.truthy Mail.template flat_map List.app String.concat];
    rewrite ?A; reflexivity.
Qed.

(** * Further properties: tool registration and dispatch *)

Ltac dispatch_chain :=
  lazymatch goal with
  | |- context [if String.eqb ?n ?s then _ else _] =>
      let E := fresh "E" in
      destruct (String.eqb n s) eqn:E;
      [ apply String.eqb_eq in E; subst n;
        split; [intros _; eexists; reflexivity | intros H; exfalso; apply H; simpl; auto 10]
      | apply String.eqb_neq in E; dispatch_chain ]
  | |- _ =>
      split; [intros H; exfalso; simpl in H; intuition congruence | intros _; reflexivity]
  end.

(** X16.  In each file the tools that [ListTools] advertises are the tools
    that [CallTool] dispatches: a listed name is routed to a handler method,
    every other name is answered with [MethodNotFound] and the message
    [Unknown tool: <name>], and no name is listed twice. *)
Theorem listed_tools_are_the_dispatched_ones (v : Variant) (name : string) :
  (In name (tools_of v) -> exists h, dispatch_of v name = Tools.Calls h)
  /\ (~ In name (tools_of v) ->
      dispatch_of v name = Tools.MethodNotFound ("Unknown tool: " ++ name)%string)
  /\ List.NoDup (tools_of v).
Proof.
  assert (N : List.NoDup (tools_of v)).
  { destruct v; cbn [tools_of];
      unfold Tools.IndexTs_tools, Tools.Part000_tools, Tools.Part001_tools;
      repeat (constructor; [simpl; intuition discriminate|]); constructor. }
  enough (D : (In name (tools_of v) -> exists h, dispatch_of v name = Tools.Calls h)
              /\ (~ In name (tools_of v) ->
                  dispatch_of v name
                  = Tools.MethodNotFound ("Unknown tool: " ++ name)%string))
    by (destruct D; repeat split; assumption).
  destruct v; cbn [tools_of dispatch_of];
    unfold Tools.IndexTs_tools, Tools.Part000_tools, Tools.Part001_tools,
      Tools.IndexTs_dispatch, Tools.Part000_dispatch, Tools.Part001_dispatch;
    dispatch_chain.
Qed.

(** * Further properties: instances *)

Lemma handlers_return_for_positive_length_witness :
  exists fuel0 : nat,
    forall (fuel : nat) (provider : FreeBusyQuery -> FetchOutcome),
      (fuel0 <= fuel)%nat ->
      snd (run provider
               (handler Part001File Sample.host_karachi 0 fuel Sample.two_slots_one_day))
      <> None.
Proof.
  apply (handlers_return_for_positive_length Part001File Sample.host_karachi 0
           Sample.two_slots_one_day).
  simpl. lia.
Defined.

Lemma Part001_collect_and_slice_witness :
  let day := [ mkInterval (Sample.utc Sample.wed 9 0) (Sample.utc Sample.wed 10 0);
               mkInterval (Sample.utc Sample.wed 10 0) (Sample.utc Sample.wed 11 0);
               mkInterval (Sample.utc Sample.wed 11 0) (Sample.utc Sample.wed 12 0) ] in
  Part001.collect 2 0 day = Js.slice0 day 2.
Proof.
  intros day. apply (proj1 (Part001_collect_and_slice 2 day)). lia.
Defined.
